(** * LoRa mesh dashboard bridges: a shallow embedding

    The two bridges of [desktop_dashboard] ([serial_bridge.py] and
    [simulation_bridge.py]) keep a handful of module-level dictionaries
    and lists and mutate them from three activities: the ingestion of one
    decoded JSON event, the periodic offline sweep, and the WebSocket
    broadcast.  Each Python function is embedded as a computation over an
    explicit record of those globals.  A Python exception leaves the
    globals as they were when it was raised, so the monad keeps the state
    on the error path.

    Conventions of the embedding:
    - a decoded JSON value is a [value]; JSON numbers are integers, and a
      clock reading ([time.time()]) is an integer number of ticks;
    - a Python [dict] is an association list in insertion order, looked up
      by its first matching key;
    - every call of [time.time()] is a separate argument of the function
      that makes it;
    - what the outside world answers (the HTTP response of ThingSpeak,
      which WebSocket connections are closed) is an argument too, and what
      the bridge sends is appended to the [outbox] of the state;
    - logging and the wall-clock strings ([datetime.now().isoformat()]) are
      left out, except where formatting a log line can raise. *)

From Stdlib Require Import ZArith List String Bool Lia.
Import ListNotations.
Open Scope string_scope.
Open Scope list_scope.
Open Scope Z_scope.
Set Warnings "-register-all".

(** ** Python values *)

Module Py.

(** Hashable JSON scalars: [None], [bool], [int], [str]. *)
Inductive scalar : Type :=
| SNone
| SBool (b : bool)
| SInt (z : Z)
| SStr (s : string).

Inductive value : Type :=
| VS (s : scalar)
| VList (l : list value)
| VDict (d : list (string * value)).

Definition dict : Type := list (string * value).

Definition VNone : value := VS SNone.
Definition VBool (b : bool) : value := VS (SBool b).
Definition VInt (z : Z) : value := VS (SInt z).
Definition VStr (s : string) : value := VS (SStr s).

(** A dictionary key: scalars up to Python's [==], under which [True] is
    [1] and [False] is [0] (they also hash alike). *)
Inductive key : Type :=
| KNone
| KInt (z : Z)
| KStr (s : string).

Definition key_of (s : scalar) : key :=
  match s with
  | SNone => KNone
  | SBool b => KInt (if b then 1 else 0)
  | SInt z => KInt z
  | SStr s => KStr s
  end.

Definition key_eqb (a b : key) : bool :=
  match a, b with
  | KNone, KNone => true
  | KInt x, KInt y => Z.eqb x y
  | KStr s, KStr t => String.eqb s t
  | _, _ => false
  end.

(** [v == k] for a dictionary key [k]: a list or a dict never equals a
    scalar. *)
Definition py_eq_key (v : value) (k : key) : bool :=
  match v with
  | VS s' => key_eqb (key_of s') k
  | _ => false
  end.

(** [v == s] for a scalar [s]. *)
Definition py_eq (v : value) (s : scalar) : bool := py_eq_key v (key_of s).

(** [v is None] *)
Definition is_none (v : value) : bool :=
  match v with VS SNone => true | _ => false end.

(** [bool(v)] *)
Definition truthy (v : value) : bool :=
  match v with
  | VS SNone => false
  | VS (SBool b) => b
  | VS (SInt z) => negb (Z.eqb z 0)
  | VS (SStr s) => negb (String.eqb s "")
  | VList l => match l with [] => false | _ => true end
  | VDict d => match d with [] => false | _ => true end
  end.

(** [v > 0]; [None] stands for the [TypeError] Python 3 raises when the
    left operand is not a number. *)
Definition py_gt0 (v : value) : option bool :=
  match v with
  | VS (SBool b) => Some b
  | VS (SInt z) => Some (Z.ltb 0 z)
  | _ => None
  end.

(** [s * 100] for a hashable, truthy [s]: numbers are multiplied, a string
    is repeated. *)
Fixpoint str_repeat (n : nat) (s : string) : string :=
  match n with
  | O => ""
  | S n' => (s ++ str_repeat n' s)%string
  end.

Definition py_mul100 (s : scalar) : value :=
  match s with
  | SNone => VNone
  | SBool b => VInt (if b then 100 else 0)
  | SInt z => VInt (z * 100)
  | SStr s => VStr (str_repeat 100 s)
  end.

(** *** Dictionaries *)

Section Dict.
Context {K V : Type} (eqb : K -> K -> bool).

(** [d.get(k)] *)
Fixpoint get (k : K) (d : list (K * V)) : option V :=
  match d with
  | [] => None
  | (k', v) :: d' => if eqb k k' then Some v else get k d'
  end.

(** [k in d] *)
Definition mem (k : K) (d : list (K * V)) : bool :=
  match get k d with Some _ => true | None => false end.

(** [d[k] = v]: an existing key keeps its place, a new one goes last. *)
Fixpoint set (k : K) (v : V) (d : list (K * V)) : list (K * V) :=
  match d with
  | [] => [(k, v)]
  | (k', v') :: d' =>
      if eqb k k' then (k, v) :: d' else (k', v') :: set k v d'
  end.

(** [del d[k]] *)
Fixpoint del (k : K) (d : list (K * V)) : list (K * V) :=
  match d with
  | [] => []
  | (k', v') :: d' =>
      if eqb k k' then del k d' else (k', v') :: del k d'
  end.

(** [d.get(k, dflt)] *)
Definition get_or (k : K) (dflt : V) (d : list (K * V)) : V :=
  match get k d with Some v => v | None => dflt end.
End Dict.

(** Event and record dictionaries have string keys. *)
Abbreviation dget := (get String.eqb).
Abbreviation dget_or := (get_or String.eqb).
Abbreviation dmem := (mem String.eqb).
Abbreviation dset := (set String.eqb).
Abbreviation ddel := (del String.eqb).
(** [d.get(k)] with Python's default default, [None]. *)
Definition dget_none (k : string) (d : list (string * value)) : value :=
  dget_or k (VS SNone) d.

(** The stores of the bridges are keyed by node identifier. *)
Abbreviation kget := (get key_eqb).
Abbreviation kget_or := (get_or key_eqb).
Abbreviation kmem := (mem key_eqb).
Abbreviation kset := (set key_eqb).

(** [isinstance(v, dict)] with the dict it holds. *)
Definition as_dict (v : value) : option dict :=
  match v with VDict d => Some d | _ => None end.

(** [l[-n:]]: the last [n] elements ([n > 0]), the whole list when it is
    shorter. *)
Definition last_n {A} (n : nat) (l : list A) : list A :=
  skipn (List.length l - n) l.

(** *** Exceptions and the state monad *)

Inductive exn : Type := TypeError | AttributeError | ValueError.

Inductive outcome (A : Type) : Type :=
| Ok (a : A)
| Raised (e : exn).
Arguments Ok {A} a.
Arguments Raised {A} e.

(** A computation over the globals [S]; the state survives an exception. *)
Definition M (S A : Type) : Type := S -> outcome A * S.

Definition ret {S A} (a : A) : M S A := fun s => (Ok a, s).
Definition raise {S A} (e : exn) : M S A := fun s => (Raised e, s).
Definition bind {S A B} (c : M S A) (f : A -> M S B) : M S B :=
  fun s =>
    match c s with
    | (Ok a, s') => f a s'
    | (Raised e, s') => (Raised e, s')
    end.
Definition gets {S A} (f : S -> A) : M S A := fun s => (Ok (f s), s).
Definition modify {S} (f : S -> S) : M S unit := fun s => (Ok tt, f s).

(** The state a computation leaves, whether it returned or raised. *)
Definition exec {S A} (c : M S A) (s : S) : S := snd (c s).
Definition returned {S A} (c : M S A) (s : S) : bool :=
  match fst (c s) with Ok _ => true | Raised _ => false end.

End Py.

Import Py.

Declare Scope py_scope.
Delimit Scope py_scope with py.
Notation "x <- c ;; k" := (bind c (fun x => k))
  (at level 61, c at next level, right associativity) : py_scope.
Notation "c ;; k" := (bind c (fun _ => k))
  (at level 61, right associativity) : py_scope.
Open Scope py_scope.

(** WebSocket connections are opaque handles. *)
Definition handle : Type := nat.

(** ** serial_bridge.py *)

Module Serial.

(** The node identifiers that have a ThingSpeak API key (the keys of
    [THINGSPEAK_API_KEYS]; the key strings themselves play no role). *)
Definition THINGSPEAK_API_KEYS : list key := [KInt 2; KInt 3; KInt 4; KInt 5].
Definition THINGSPEAK_ENABLED : bool := true.
Definition THINGSPEAK_UPDATE_INTERVAL : Z := 20.
Definition NODE_OFFLINE_TIMEOUT : Z := 90.
Definition GATEWAY_NODE_ID : Z := 1.
Definition MAX_TOPOLOGY_HISTORY : nat := 100.

Record edge : Type := { e_from : key; e_to : value; e_rssi : value }.

(** The value [get_topology_data] returns and caches. *)
Record topology : Type :=
  { nodes : list dict; edges : list edge; historyCount : nat }.

(** One entry of [topology_history]. *)
Record snapshot : Type := { timestamp : Z; snap_nodes : list (key * dict) }.

(** What [requests.get] does: a 200 answer whose body is not '0', any
    other answer, or an exception. *)
Inductive http_result : Type := HttpOk | HttpRejected | HttpFailed.

Inductive message : Type :=
| MsgUpdate (gateway : dict) (nds : list (key * dict)) (stats : dict)
    (topo : topology)
| MsgInit (gateway : dict) (nds : list (key * dict)) (stats : dict)
    (topo : topology)
| MsgSerial (line : string).

(** What the bridge did to the outside world: a message sent on a
    WebSocket, or a request to ThingSpeak with the answer it got. *)
Inductive effect : Type :=
| Sent (ws : handle) (m : message)
| Uploaded (node : key) (now : Z) (params : dict) (resp : http_result).

Record state : Type := {
  nodes_data : list (key * dict);
  gateway_data : dict;
  mesh_stats : dict;
  websocket_clients : list handle;
  last_thingspeak_upload : list (key * Z);
  node_last_seen : list (key * Z);
  node_message_count : list (key * Z);
  network_topology : list (key * dict);
  topology_cache : option topology;
  topology_cache_dirty : bool;
  topology_history : list snapshot;
  last_topology_snapshot_time : Z;
  outbox : list effect
}.

(** The module-level initial values. *)
Definition init : state := {|
  nodes_data := [];
  gateway_data := [];
  mesh_stats := [];
  websocket_clients := [];
  last_thingspeak_upload := [];
  node_last_seen := [];
  node_message_count := [];
  network_topology := [];
  topology_cache := None;
  topology_cache_dirty := true;
  topology_history := [];
  last_topology_snapshot_time := 0;
  outbox := []
|}.

(** Assignments to one global. *)
Definition set_nodes_data v (s : state) : state :=
  {| nodes_data := v; gateway_data := gateway_data s;
     mesh_stats := mesh_stats s; websocket_clients := websocket_clients s;
     last_thingspeak_upload := last_thingspeak_upload s;
     node_last_seen := node_last_seen s;
     node_message_count := node_message_count s;
     network_topology := network_topology s;
     topology_cache := topology_cache s;
     topology_cache_dirty := topology_cache_dirty s;
     topology_history := topology_history s;
     last_topology_snapshot_time := last_topology_snapshot_time s;
     outbox := outbox s |}.
Definition set_gateway_data v (s : state) : state :=
  {| nodes_data := nodes_data s; gateway_data := v;
     mesh_stats := mesh_stats s; websocket_clients := websocket_clients s;
     last_thingspeak_upload := last_thingspeak_upload s;
     node_last_seen := node_last_seen s;
     node_message_count := node_message_count s;
     network_topology := network_topology s;
     topology_cache := topology_cache s;
     topology_cache_dirty := topology_cache_dirty s;
     topology_history := topology_history s;
     last_topology_snapshot_time := last_topology_snapshot_time s;
     outbox := outbox s |}.
Definition set_mesh_stats v (s : state) : state :=
  {| nodes_data := nodes_data s; gateway_data := gateway_data s;
     mesh_stats := v; websocket_clients := websocket_clients s;
     last_thingspeak_upload := last_thingspeak_upload s;
     node_last_seen := node_last_seen s;
     node_message_count := node_message_count s;
     network_topology := network_topology s;
     topology_cache := topology_cache s;
     topology_cache_dirty := topology_cache_dirty s;
     topology_history := topology_history s;
     last_topology_snapshot_time := last_topology_snapshot_time s;
     outbox := outbox s |}.
Definition set_websocket_clients v (s : state) : state :=
  {| nodes_data := nodes_data s; gateway_data := gateway_data s;
     mesh_stats := mesh_stats s; websocket_clients := v;
     last_thingspeak_upload := last_thingspeak_upload s;
     node_last_seen := node_last_seen s;
     node_message_count := node_message_count s;
     network_topology := network_topology s;
     topology_cache := topology_cache s;
     topology_cache_dirty := topology_cache_dirty s;
     topology_history := topology_history s;
     last_topology_snapshot_time := last_topology_snapshot_time s;
     outbox := outbox s |}.
Definition set_last_thingspeak_upload v (s : state) : state :=
  {| nodes_data := nodes_data s; gateway_data := gateway_data s;
     mesh_stats := mesh_stats s; websocket_clients := websocket_clients s;
     last_thingspeak_upload := v; node_last_seen := node_last_seen s;
     node_message_count := node_message_count s;
     network_topology := network_topology s;
     topology_cache := topology_cache s;
     topology_cache_dirty := topology_cache_dirty s;
     topology_history := topology_history s;
     last_topology_snapshot_time := last_topology_snapshot_time s;
     outbox := outbox s |}.
Definition set_node_last_seen v (s : state) : state :=
  {| nodes_data := nodes_data s; gateway_data := gateway_data s;
     mesh_stats := mesh_stats s; websocket_clients := websocket_clients s;
     last_thingspeak_upload := last_thingspeak_upload s;
     node_last_seen := v; node_message_count := node_message_count s;
     network_topology := network_topology s;
     topology_cache := topology_cache s;
     topology_cache_dirty := topology_cache_dirty s;
     topology_history := topology_history s;
     last_topology_snapshot_time := last_topology_snapshot_time s;
     outbox := outbox s |}.
Definition set_node_message_count v (s : state) : state :=
  {| nodes_data := nodes_data s; gateway_data := gateway_data s;
     mesh_stats := mesh_stats s; websocket_clients := websocket_clients s;
     last_thingspeak_upload := last_thingspeak_upload s;
     node_last_seen := node_last_seen s; node_message_count := v;
     network_topology := network_topology s;
     topology_cache := topology_cache s;
     topology_cache_dirty := topology_cache_dirty s;
     topology_history := topology_history s;
     last_topology_snapshot_time := last_topology_snapshot_time s;
     outbox := outbox s |}.
Definition set_network_topology v (s : state) : state :=
  {| nodes_data := nodes_data s; gateway_data := gateway_data s;
     mesh_stats := mesh_stats s; websocket_clients := websocket_clients s;
     last_thingspeak_upload := last_thingspeak_upload s;
     node_last_seen := node_last_seen s;
     node_message_count := node_message_count s; network_topology := v;
     topology_cache := topology_cache s;
     topology_cache_dirty := topology_cache_dirty s;
     topology_history := topology_history s;
     last_topology_snapshot_time := last_topology_snapshot_time s;
     outbox := outbox s |}.
Definition set_topology_cache v (s : state) : state :=
  {| nodes_data := nodes_data s; gateway_data := gateway_data s;
     mesh_stats := mesh_stats s; websocket_clients := websocket_clients s;
     last_thingspeak_upload := last_thingspeak_upload s;
     node_last_seen := node_last_seen s;
     node_message_count := node_message_count s;
     network_topology := network_topology s; topology_cache := v;
     topology_cache_dirty := topology_cache_dirty s;
     topology_history := topology_history s;
     last_topology_snapshot_time := last_topology_snapshot_time s;
     outbox := outbox s |}.
Definition set_topology_cache_dirty v (s : state) : state :=
  {| nodes_data := nodes_data s; gateway_data := gateway_data s;
     mesh_stats := mesh_stats s; websocket_clients := websocket_clients s;
     last_thingspeak_upload := last_thingspeak_upload s;
     node_last_seen := node_last_seen s;
     node_message_count := node_message_count s;
     network_topology := network_topology s;
     topology_cache := topology_cache s; topology_cache_dirty := v;
     topology_history := topology_history s;
     last_topology_snapshot_time := last_topology_snapshot_time s;
     outbox := outbox s |}.
Definition set_topology_history v (s : state) : state :=
  {| nodes_data := nodes_data s; gateway_data := gateway_data s;
     mesh_stats := mesh_stats s; websocket_clients := websocket_clients s;
     last_thingspeak_upload := last_thingspeak_upload s;
     node_last_seen := node_last_seen s;
     node_message_count := node_message_count s;
     network_topology := network_topology s;
     topology_cache := topology_cache s;
     topology_cache_dirty := topology_cache_dirty s; topology_history := v;
     last_topology_snapshot_time := last_topology_snapshot_time s;
     outbox := outbox s |}.
Definition set_last_topology_snapshot_time v (s : state) : state :=
  {| nodes_data := nodes_data s; gateway_data := gateway_data s;
     mesh_stats := mesh_stats s; websocket_clients := websocket_clients s;
     last_thingspeak_upload := last_thingspeak_upload s;
     node_last_seen := node_last_seen s;
     node_message_count := node_message_count s;
     network_topology := network_topology s;
     topology_cache := topology_cache s;
     topology_cache_dirty := topology_cache_dirty s;
     topology_history := topology_history s;
     last_topology_snapshot_time := v; outbox := outbox s |}.
Definition set_outbox v (s : state) : state :=
  {| nodes_data := nodes_data s; gateway_data := gateway_data s;
     mesh_stats := mesh_stats s; websocket_clients := websocket_clients s;
     last_thingspeak_upload := last_thingspeak_upload s;
     node_last_seen := node_last_seen s;
     node_message_count := node_message_count s;
     network_topology := network_topology s;
     topology_cache := topology_cache s;
     topology_cache_dirty := topology_cache_dirty s;
     topology_history := topology_history s;
     last_topology_snapshot_time := last_topology_snapshot_time s;
     outbox := v |}.

Definition push_outbox (e : effect) (s : state) : state :=
  set_outbox (outbox s ++ [e]) s.

(** What the outside world is like while one event is processed: the
    clock readings of the four functions that call [time.time()], whether
    the [requests] module could be imported, what ThingSpeak answers, and
    which WebSocket connections are closed. *)
Record world : Type := {
  t_ingest : Z;
  t_topology : Z;
  t_snapshot : Z;
  t_upload : Z;
  requests : bool;
  response : http_result;
  closed : handle -> bool
}.

(** The routing information [update_topology] reads from the event:
    the parent it will store. *)
Definition stored_parent (node_id : scalar) (data : dict) : value :=
  let parent_node := dget_or "meshSenderId" (VInt 0) data in
  if py_eq parent_node (SInt 0) || py_eq parent_node node_id
  then (if negb (py_eq (VS node_id) (SInt GATEWAY_NODE_ID))
        then VInt GATEWAY_NODE_ID else VInt 0)
  else parent_node.

(** The dict [update_topology] stores in [network_topology]. *)
Definition topology_entry (node_id : scalar) (data : dict) (now : Z) : dict :=
  let hop_distance := dget_or "hopDistance" (VInt 0) data in
  let rssi := dget_or "rssi" (VInt (-100)) data in
  let time_source := dget_or "timeSource" (VStr "UNKNOWN") data in
  let time_source :=
    if py_eq time_source (SStr "UNKNOWN") then VStr "NONE" else time_source in
  [ ("nodeId", VS node_id);
    ("parentNode", stored_parent node_id data);
    ("hopDistance", hop_distance);
    ("rssi", rssi);
    ("timeSource", time_source);
    ("online", VBool true);
    ("lastSeen", VInt now);
    ("lat", dget_or "lat" (VInt 0) data);
    ("lng", dget_or "lng" (VInt 0) data);
    ("temp", dget_none "temp" data);
    ("humidity", dget_none "humidity" data);
    ("satellites", dget_or "satellites" (VInt 0) data);
    ("neighborCount", dget_or "neighborCount" (VInt 0) data) ].

(** [update_topology(node_id, data)].  It is only called once
    [node_last_seen[node_id] = now] has succeeded, so [node_id] is
    hashable. *)
Definition update_topology (node_id : scalar) (data : dict) (now : Z)
  : M state unit :=
  modify (set_topology_cache_dirty true) ;;
  modify (fun s =>
    set_network_topology
      (kset (key_of node_id) (topology_entry node_id data now)
         (network_topology s)) s).

(** [save_topology_snapshot()] *)
Definition save_topology_snapshot (now : Z) : M state unit :=
  last <- gets last_topology_snapshot_time ;;
  if now - last <? 30 then ret tt
  else
    modify (set_last_topology_snapshot_time now) ;;
    topo <- gets network_topology ;;
    let snapshot := {| timestamp := now; snap_nodes := topo |} in
    modify (fun s => set_topology_history (topology_history s ++ [snapshot]) s) ;;
    history <- gets topology_history ;;
    if (MAX_TOPOLOGY_HISTORY <? List.length history)%nat
    then modify (set_topology_history (last_n MAX_TOPOLOGY_HISTORY history))
    else ret tt.

(** The loop of [get_topology_data] over [network_topology.items()];
    [None] is the [TypeError] of [parent > 0]. *)
Fixpoint build_edges (items : list (key * dict)) : option (list edge) :=
  match items with
  | [] => Some []
  | (node_id, node_data) :: rest =>
      let parent := dget_or "parentNode" (VInt 0) node_data in
      match py_gt0 parent with
      | None => None
      | Some positive =>
          match build_edges rest with
          | None => None
          | Some es =>
              if positive && negb (py_eq_key parent node_id)
              then Some ({| e_from := node_id;
                            e_to := parent;
                            e_rssi := dget_or "rssi" (VInt (-100)) node_data |}
                         :: es)
              else Some es
          end
      end
  end.

(** [get_topology_data()] *)
Definition get_topology_data : M state topology :=
  dirty <- gets topology_cache_dirty ;;
  cache <- gets topology_cache ;;
  history <- gets topology_history ;;
  match dirty, cache with
  | false, Some c =>
      let c' := {| nodes := nodes c; edges := edges c;
                   historyCount := List.length history |} in
      modify (set_topology_cache (Some c')) ;;
      ret c'
  | _, _ =>
      topo <- gets network_topology ;;
      match build_edges topo with
      | None => raise TypeError
      | Some es =>
          let c := {| nodes := map snd topo; edges := es;
                      historyCount := List.length history |} in
          modify (set_topology_cache (Some c)) ;;
          modify (set_topology_cache_dirty false) ;;
          ret c
      end
  end.

(** The ThingSpeak fields and the event keys they are read from. *)
Definition thingspeak_fields : list (string * string) :=
  [ ("field1", "temp"); ("field2", "humidity"); ("field3", "pressure");
    ("field4", "lat"); ("field5", "lng"); ("field6", "rssi");
    ("field7", "satellites"); ("field8", "hopDistance") ].

Definition upload_params (data : dict) : dict :=
  filter (fun kv => negb (is_none (snd kv)))
    (map (fun fk => (fst fk, dget_none (snd fk) data)) thingspeak_fields).

(** [upload_to_thingspeak(node_id, data)] *)
Definition upload_to_thingspeak (node_id : scalar) (data : dict) (now : Z)
    (resp : http_result) : M state unit :=
  if negb (existsb (key_eqb (key_of node_id)) THINGSPEAK_API_KEYS) then ret tt
  else
    uploads <- gets last_thingspeak_upload ;;
    let last_upload := kget_or (key_of node_id) 0 uploads in
    if now - last_upload <? THINGSPEAK_UPDATE_INTERVAL then ret tt
    else
      modify (push_outbox
                (Uploaded (key_of node_id) now (upload_params data) resp)) ;;
      match resp with
      | HttpOk =>
          modify (fun s =>
            set_last_thingspeak_upload
              (kset (key_of node_id) now (last_thingspeak_upload s)) s)
      | HttpRejected => ret tt
      | HttpFailed => ret tt
      end.

(** The loop [for ws in websocket_clients: try: await ws.send(message)
    except ConnectionClosed: disconnected.add(ws)]; it returns
    [disconnected].  [is_closed ws] says that [ws.send] raises
    [ConnectionClosed]; the loop runs as one step, without other
    coroutines taking their turn at its awaits. *)
Fixpoint send_to_all (is_closed : handle -> bool) (m : message)
    (clients disconnected : list handle) : M state (list handle) :=
  match clients with
  | [] => ret disconnected
  | ws :: rest =>
      if is_closed ws
      then send_to_all is_closed m rest (ws :: disconnected)
      else modify (push_outbox (Sent ws m)) ;;
           send_to_all is_closed m rest disconnected
  end.

(** [clients.difference_update(disconnected)] *)
Definition difference_update (clients disconnected : list handle)
  : list handle :=
  filter (fun ws => negb (existsb (Nat.eqb ws) disconnected)) clients.

(** [broadcast_update()] *)
Definition broadcast_update (is_closed : handle -> bool) : M state unit :=
  clients <- gets websocket_clients ;;
  match clients with
  | [] => ret tt
  | _ :: _ =>
      gateway <- gets gateway_data ;;
      nds <- gets nodes_data ;;
      stats <- gets mesh_stats ;;
      topo <- get_topology_data ;;
      disconnected <-
        send_to_all is_closed (MsgUpdate gateway nds stats topo) clients [] ;;
      modify (fun s =>
        set_websocket_clients
          (difference_update (websocket_clients s) disconnected) s)
  end.

(** [broadcast_serial_line(line)] *)
Definition broadcast_serial_line (line : string) (is_closed : handle -> bool)
  : M state unit :=
  clients <- gets websocket_clients ;;
  match clients with
  | [] => ret tt
  | _ :: _ =>
      disconnected <- send_to_all is_closed (MsgSerial line) clients [] ;;
      modify (fun s =>
        set_websocket_clients
          (difference_update (websocket_clients s) disconnected) s)
  end.

(** The dict [process_mesh_data] stores in [nodes_data]:
    [{**data, 'lastUpdate': now, 'online': True, 'messageCount': count}]. *)
Definition node_record (data : dict) (now count : Z) : dict :=
  dset "messageCount" (VInt count)
    (dset "online" (VBool true)
       (dset "lastUpdate" (VInt now) data)).

(** [node_last_seen[node_id] = now] and the increment of
    [node_message_count[node_id]]. *)
Definition count_message (node_id : scalar) (now : Z) : M state unit :=
  modify (fun s =>
    set_node_last_seen (kset (key_of node_id) now (node_last_seen s)) s) ;;
  counts <- gets node_message_count ;;
  let counts :=
    if kmem (key_of node_id) counts then counts
    else kset (key_of node_id) 0 counts in
  modify (set_node_message_count
            (kset (key_of node_id)
               (kget_or (key_of node_id) 0 counts + 1) counts)).

(** The body of [if node_id:] in [process_mesh_data]. *)
Definition store_node_data (node_id : scalar) (data : dict) (w : world)
  : M state unit :=
  let now := t_ingest w in
  count_message node_id now ;;
  count <- gets (fun s =>
    kget_or (key_of node_id) 0 (node_message_count s)) ;;
  modify (fun s =>
    set_nodes_data
      (kset (key_of node_id) (node_record data now count) (nodes_data s)) s) ;;
  update_topology node_id data (t_topology w) ;;
  save_topology_snapshot (t_snapshot w) ;;
  if THINGSPEAK_ENABLED && requests w
  then upload_to_thingspeak node_id data (t_upload w) (response w)
  else ret tt.

(** [process_mesh_data(data)] *)
Definition process_mesh_data (data : dict) (w : world) : M state unit :=
  let msg_type := dget_or "type" (VStr "unknown") data in
  (if py_eq msg_type (SStr "node_data") then
     let node_id := dget_none "nodeId" data in
     if truthy node_id then
       match node_id with
       | VS node_id => store_node_data node_id data w
       | VList _ => raise TypeError
       | VDict _ => raise TypeError
       end
     else ret tt
   else if py_eq msg_type (SStr "gateway_status") then
     modify (set_gateway_data data)
   else if py_eq msg_type (SStr "mesh_stats") then
     modify (set_mesh_stats data)
   else ret tt) ;;
  broadcast_update (closed w).

(** One turn of the [for] loop of [check_offline_nodes], on the pair
    ([nodes_data], [status_changed]). *)
Definition check_node (now : Z) (acc : list (key * dict) * bool)
    (entry : key * Z) : list (key * dict) * bool :=
  let '(node_id, last_seen) := entry in
  let '(nds, status_changed) := acc in
  let time_since_seen := now - last_seen in
  let record := kget_or node_id [] nds in
  let was_online := truthy (dget_or "online" (VBool true) record) in
  if NODE_OFFLINE_TIMEOUT <? time_since_seen then
    if was_online && kmem node_id nds then
      (kset node_id
         (dset "offlineSince" (VInt last_seen)
            (dset "online" (VBool false) record)) nds,
       true)
    else acc
  else
    if negb was_online && kmem node_id nds then
      let record := dset "online" (VBool true) record in
      (kset node_id
         (if dmem "offlineSince" record then ddel "offlineSince" record
          else record) nds,
       true)
    else acc.

(** One round of [check_offline_nodes] after its sleep. *)
Definition check_offline_nodes (now : Z) (is_closed : handle -> bool)
  : M state unit :=
  seen <- gets node_last_seen ;;
  nds <- gets nodes_data ;;
  let '(nds', status_changed) := fold_left (check_node now) seen (nds, false) in
  modify (set_nodes_data nds') ;;
  if status_changed then broadcast_update is_closed else ret tt.

Definition add_client (ws : handle) (clients : list handle) : list handle :=
  if existsb (Nat.eqb ws) clients then clients else clients ++ [ws].
Definition discard_client (ws : handle) (clients : list handle)
  : list handle :=
  filter (fun c => negb (Nat.eqb ws c)) clients.

(** [websocket_handler] up to its message loop: registration and the
    initial push; [finally] deregisters when either fails. *)
Definition websocket_connect (ws : handle) (ws_closed : bool)
  : M state unit :=
  fun s0 =>
    let s1 := set_websocket_clients (add_client ws (websocket_clients s0)) s0 in
    match get_topology_data s1 with
    | (Raised e, s2) =>
        (Raised e,
         set_websocket_clients (discard_client ws (websocket_clients s2)) s2)
    | (Ok topo, s2) =>
        if ws_closed
        then (Ok tt,
              set_websocket_clients
                (discard_client ws (websocket_clients s2)) s2)
        else (Ok tt,
              push_outbox
                (Sent ws (MsgInit (gateway_data s2) (nodes_data s2)
                            (mesh_stats s2) topo)) s2)
    end.

(** The [finally] of [websocket_handler] when the connection ends. *)
Definition websocket_disconnect (ws : handle) : M state unit :=
  modify (fun s =>
    set_websocket_clients (discard_client ws (websocket_clients s)) s).

(** What can happen to the bridge. *)
Inductive input : Type :=
| SerialLine (line : string) (is_closed : handle -> bool)
| MeshData (data : dict) (w : world)
| OfflineCheck (now : Z) (is_closed : handle -> bool)
| Connect (ws : handle) (ws_closed : bool)
| Disconnect (ws : handle)
| ApiTopology.

Definition handle_input (i : input) : M state unit :=
  match i with
  | SerialLine line is_closed => broadcast_serial_line line is_closed
  | MeshData data w => process_mesh_data data w
  | OfflineCheck now is_closed => check_offline_nodes now is_closed
  | Connect ws ws_closed => websocket_connect ws ws_closed
  | Disconnect ws => websocket_disconnect ws
  | ApiTopology => _ <- get_topology_data ;; ret tt
  end.

(** An exception ends the handling of one input and the globals stay as
    they are: [read_serial] logs it and goes on; the offline checker has no
    handler, so after an exception of its broadcast no [OfflineCheck]
    follows, which the runs considered here include. *)
Definition step (s : state) (i : input) : state := exec (handle_input i) s.

Definition run (inputs : list input) (s : state) : state :=
  fold_left step inputs s.

End Serial.

(** ** simulation_bridge.py *)

Module Simulation.

Definition NODE_OFFLINE_TIMEOUT : Z := 10.
Definition GATEWAY_NODE_ID : Z := 1.
Definition MAX_PACKET_EVENTS : nat := 100.
Definition MAX_CONSOLE_LINES : nat := 500.

Record edge : Type := { e_from : key; e_to : value; e_rssi : value }.

Record topology : Type :=
  { nodes : list dict; edges : list edge; packetEvents : list dict }.

(** [mesh_stats] only ever has its three counters. *)
Record stats : Type :=
  { packetsSent : Z; packetsReceived : Z; packetsDropped : Z }.

(** A console line is the time of day and the JSON text of the event it
    logs; the event stands for it. *)
Inductive message : Type :=
| MsgUpdate (gateway : dict) (nds : list (key * dict)) (st : stats)
    (topo : topology)
| MsgInit (gateway : dict) (nds : list (key * dict)) (st : stats)
    (topo : topology)
| MsgSerial (line : dict).

Inductive effect : Type :=
| Sent (ws : handle) (m : message).

Record state : Type := {
  nodes_data : list (key * dict);
  gateway_data : dict;
  mesh_stats : stats;
  websocket_clients : list handle;
  node_last_seen : list (key * Z);
  node_message_count : list (key * Z);
  network_topology : list (key * dict);
  topology_cache : option topology;
  topology_cache_dirty : bool;
  packet_events : list dict;
  console_lines : list dict;
  outbox : list effect
}.

Definition init : state := {|
  nodes_data := [];
  gateway_data := [];
  mesh_stats := {| packetsSent := 0; packetsReceived := 0; packetsDropped := 0 |};
  websocket_clients := [];
  node_last_seen := [];
  node_message_count := [];
  network_topology := [];
  topology_cache := None;
  topology_cache_dirty := true;
  packet_events := [];
  console_lines := [];
  outbox := []
|}.

(** Assignments to one global. *)
Definition set_nodes_data v (s : state) : state :=
  {| nodes_data := v; gateway_data := gateway_data s;
     mesh_stats := mesh_stats s; websocket_clients := websocket_clients s;
     node_last_seen := node_last_seen s;
     node_message_count := node_message_count s;
     network_topology := network_topology s;
     topology_cache := topology_cache s;
     topology_cache_dirty := topology_cache_dirty s;
     packet_events := packet_events s; console_lines := console_lines s;
     outbox := outbox s |}.
Definition set_gateway_data v (s : state) : state :=
  {| nodes_data := nodes_data s; gateway_data := v;
     mesh_stats := mesh_stats s; websocket_clients := websocket_clients s;
     node_last_seen := node_last_seen s;
     node_message_count := node_message_count s;
     network_topology := network_topology s;
     topology_cache := topology_cache s;
     topology_cache_dirty := topology_cache_dirty s;
     packet_events := packet_events s; console_lines := console_lines s;
     outbox := outbox s |}.
Definition set_mesh_stats v (s : state) : state :=
  {| nodes_data := nodes_data s; gateway_data := gateway_data s;
     mesh_stats := v; websocket_clients := websocket_clients s;
     node_last_seen := node_last_seen s;
     node_message_count := node_message_count s;
     network_topology := network_topology s;
     topology_cache := topology_cache s;
     topology_cache_dirty := topology_cache_dirty s;
     packet_events := packet_events s; console_lines := console_lines s;
     outbox := outbox s |}.
Definition set_websocket_clients v (s : state) : state :=
  {| nodes_data := nodes_data s; gateway_data := gateway_data s;
     mesh_stats := mesh_stats s; websocket_clients := v;
     node_last_seen := node_last_seen s;
     node_message_count := node_message_count s;
     network_topology := network_topology s;
     topology_cache := topology_cache s;
     topology_cache_dirty := topology_cache_dirty s;
     packet_events := packet_events s; console_lines := console_lines s;
     outbox := outbox s |}.
Definition set_node_last_seen v (s : state) : state :=
  {| nodes_data := nodes_data s; gateway_data := gateway_data s;
     mesh_stats := mesh_stats s; websocket_clients := websocket_clients s;
     node_last_seen := v; node_message_count := node_message_count s;
     network_topology := network_topology s;
     topology_cache := topology_cache s;
     topology_cache_dirty := topology_cache_dirty s;
     packet_events := packet_events s; console_lines := console_lines s;
     outbox := outbox s |}.
Definition set_node_message_count v (s : state) : state :=
  {| nodes_data := nodes_data s; gateway_data := gateway_data s;
     mesh_stats := mesh_stats s; websocket_clients := websocket_clients s;
     node_last_seen := node_last_seen s; node_message_count := v;
     network_topology := network_topology s;
     topology_cache := topology_cache s;
     topology_cache_dirty := topology_cache_dirty s;
     packet_events := packet_events s; console_lines := console_lines s;
     outbox := outbox s |}.
Definition set_network_topology v (s : state) : state :=
  {| nodes_data := nodes_data s; gateway_data := gateway_data s;
     mesh_stats := mesh_stats s; websocket_clients := websocket_clients s;
     node_last_seen := node_last_seen s;
     node_message_count := node_message_count s; network_topology := v;
     topology_cache := topology_cache s;
     topology_cache_dirty := topology_cache_dirty s;
     packet_events := packet_events s; console_lines := console_lines s;
     outbox := outbox s |}.
Definition set_topology_cache v (s : state) : state :=
  {| nodes_data := nodes_data s; gateway_data := gateway_data s;
     mesh_stats := mesh_stats s; websocket_clients := websocket_clients s;
     node_last_seen := node_last_seen s;
     node_message_count := node_message_count s;
     network_topology := network_topology s; topology_cache := v;
     topology_cache_dirty := topology_cache_dirty s;
     packet_events := packet_events s; console_lines := console_lines s;
     outbox := outbox s |}.
Definition set_topology_cache_dirty v (s : state) : state :=
  {| nodes_data := nodes_data s; gateway_data := gateway_data s;
     mesh_stats := mesh_stats s; websocket_clients := websocket_clients s;
     node_last_seen := node_last_seen s;
     node_message_count := node_message_count s;
     network_topology := network_topology s;
     topology_cache := topology_cache s; topology_cache_dirty := v;
     packet_events := packet_events s; console_lines := console_lines s;
     outbox := outbox s |}.
Definition set_packet_events v (s : state) : state :=
  {| nodes_data := nodes_data s; gateway_data := gateway_data s;
     mesh_stats := mesh_stats s; websocket_clients := websocket_clients s;
     node_last_seen := node_last_seen s;
     node_message_count := node_message_count s;
     network_topology := network_topology s;
     topology_cache := topology_cache s;
     topology_cache_dirty := topology_cache_dirty s; packet_events := v;
     console_lines := console_lines s; outbox := outbox s |}.
Definition set_console_lines v (s : state) : state :=
  {| nodes_data := nodes_data s; gateway_data := gateway_data s;
     mesh_stats := mesh_stats s; websocket_clients := websocket_clients s;
     node_last_seen := node_last_seen s;
     node_message_count := node_message_count s;
     network_topology := network_topology s;
     topology_cache := topology_cache s;
     topology_cache_dirty := topology_cache_dirty s;
     packet_events := packet_events s; console_lines := v;
     outbox := outbox s |}.
Definition set_outbox v (s : state) : state :=
  {| nodes_data := nodes_data s; gateway_data := gateway_data s;
     mesh_stats := mesh_stats s; websocket_clients := websocket_clients s;
     node_last_seen := node_last_seen s;
     node_message_count := node_message_count s;
     network_topology := network_topology s;
     topology_cache := topology_cache s;
     topology_cache_dirty := topology_cache_dirty s;
     packet_events := packet_events s; console_lines := console_lines s;
     outbox := v |}.

Definition push_outbox (e : effect) (s : state) : state :=
  set_outbox (outbox s ++ [e]) s.

(** The clock readings of [process_simulation_event] and of
    [update_topology], and which connections are closed during each of the
    two broadcasts that end the handling of an event. *)
Record world : Type := {
  t_event : Z;
  t_topology : Z;
  closed_update : handle -> bool;
  closed_line : handle -> bool
}.

(** [v.get(k, dflt)] on a value that may not be a dict: anything else has
    no [get] attribute. *)
Definition attr_get (v : value) (k : string) (dflt : value) : outcome value :=
  match v with
  | VDict d => Ok (dget_or k dflt d)
  | _ => Raised AttributeError
  end.

Definition lift {A} (o : outcome A) : M state A := fun s => (o, s).

(** [event.get(flat, event.get('sensors', {}).get(nested)
      if isinstance(event.get('sensors'), dict) else None)] *)
Definition sensor (flat nested : string) (event : dict) : value :=
  dget_or flat
    (match dget_none "sensors" event with
     | VDict d => dget_none nested d
     | _ => VNone
     end)
    event.

(** The dict [update_topology] stores in [network_topology]. *)
Definition topology_entry (node_id : scalar) (data : dict) (now : Z)
    (x y parent_node : value) : dict :=
  [ ("nodeId", VS node_id);
    ("parentNode", parent_node);
    ("hopDistance", dget_or "hopDistance" (VInt 0) data);
    ("rssi", dget_or "rssi" (VInt (-50)) data);
    ("snr", dget_or "snr" (VInt 10) data);
    ("timeSource", dget_or "timeSource" (VStr "SIM") data);
    ("online", VBool true);
    ("lastSeen", VInt now);
    ("x", x);
    ("y", y);
    ("lat", dget_or "lat" (VInt 0) data);
    ("lng", dget_or "lng" (VInt 0) data);
    ("temp", sensor "temp" "temperature" data);
    ("humidity", sensor "humidity" "humidity" data);
    ("neighborCount", dget_or "neighborCount" (VInt 0) data) ].

(** The position [update_topology] reads: the flat keys when [posX] is
    there, the [position] mapping otherwise. *)
Definition topology_position (node_id : scalar) (data : dict)
  : outcome (value * value) :=
  if dmem "posX" data then
    Ok (dget_or "posX" (py_mul100 node_id) data, dget_or "posY" (VInt 0) data)
  else
    let pos := dget_or "position" (VDict []) data in
    match attr_get pos "x" (py_mul100 node_id) with
    | Raised e => Raised e
    | Ok x =>
        match attr_get pos "y" (VInt 0) with
        | Raised e => Raised e
        | Ok y => Ok (x, y)
        end
    end.

(** The parent [update_topology] stores. *)
Definition stored_parent (node_id : scalar) (data : dict) : outcome value :=
  let hop_distance := dget_or "hopDistance" (VInt 0) data in
  let parent_node :=
    dget_or "parentNode" (dget_or "meshSenderId" (VInt 0) data) data in
  if py_eq parent_node (SInt 0) then
    match py_gt0 hop_distance with
    | None => Raised TypeError
    | Some positive =>
        if positive && negb (py_eq (VS node_id) (SInt GATEWAY_NODE_ID))
        then Ok (VInt GATEWAY_NODE_ID)
        else Ok parent_node
    end
  else Ok parent_node.

(** [update_topology(node_id, data)], called with a hashable [node_id]. *)
Definition update_topology (node_id : scalar) (data : dict) (now : Z)
  : M state unit :=
  modify (set_topology_cache_dirty true) ;;
  xy <- lift (topology_position node_id data) ;;
  parent_node <- lift (stored_parent node_id data) ;;
  modify (fun s =>
    set_network_topology
      (kset (key_of node_id)
         (topology_entry node_id data now (fst xy) (snd xy) parent_node)
         (network_topology s)) s).

Fixpoint build_edges (items : list (key * dict)) : option (list edge) :=
  match items with
  | [] => Some []
  | (node_id, node_data) :: rest =>
      let parent := dget_or "parentNode" (VInt 0) node_data in
      match py_gt0 parent with
      | None => None
      | Some positive =>
          match build_edges rest with
          | None => None
          | Some es =>
              if positive && negb (py_eq_key parent node_id)
              then Some ({| e_from := node_id;
                            e_to := parent;
                            e_rssi := dget_or "rssi" (VInt (-100)) node_data |}
                         :: es)
              else Some es
          end
      end
  end.

(** [get_topology_data()] *)
Definition get_topology_data : M state topology :=
  dirty <- gets topology_cache_dirty ;;
  cache <- gets topology_cache ;;
  match dirty, cache with
  | false, Some c => ret c
  | _, _ =>
      topo <- gets network_topology ;;
      match build_edges topo with
      | None => raise TypeError
      | Some es =>
          events <- gets packet_events ;;
          let c := {| nodes := map snd topo; edges := es;
                      packetEvents := last_n 20 events |} in
          modify (set_topology_cache (Some c)) ;;
          modify (set_topology_cache_dirty false) ;;
          ret c
      end
  end.

Fixpoint send_to_all (is_closed : handle -> bool) (m : message)
    (clients disconnected : list handle) : M state (list handle) :=
  match clients with
  | [] => ret disconnected
  | ws :: rest =>
      if is_closed ws
      then send_to_all is_closed m rest (ws :: disconnected)
      else modify (push_outbox (Sent ws m)) ;;
           send_to_all is_closed m rest disconnected
  end.

Definition difference_update (clients disconnected : list handle)
  : list handle :=
  filter (fun ws => negb (existsb (Nat.eqb ws) disconnected)) clients.

(** [broadcast_update()] *)
Definition broadcast_update (is_closed : handle -> bool) : M state unit :=
  clients <- gets websocket_clients ;;
  match clients with
  | [] => ret tt
  | _ :: _ =>
      gateway <- gets gateway_data ;;
      nds <- gets nodes_data ;;
      st <- gets mesh_stats ;;
      topo <- get_topology_data ;;
      disconnected <-
        send_to_all is_closed (MsgUpdate gateway nds st topo) clients [] ;;
      modify (fun s =>
        set_websocket_clients
          (difference_update (websocket_clients s) disconnected) s)
  end.

(** [broadcast_serial_line(line)] *)
Definition broadcast_serial_line (line : dict) (is_closed : handle -> bool)
  : M state unit :=
  clients <- gets websocket_clients ;;
  match clients with
  | [] => ret tt
  | _ :: _ =>
      disconnected <- send_to_all is_closed (MsgSerial line) clients [] ;;
      modify (fun s =>
        set_websocket_clients
          (difference_update (websocket_clients s) disconnected) s)
  end.

(** [f"{v:.0f}"]: a string has no format code 'f', [None] and containers
    take no format string. *)
Definition format_f (v : value) : M state unit :=
  match v with
  | VS (SBool _) => ret tt
  | VS (SInt _) => ret tt
  | VS (SStr _) => raise ValueError
  | _ => raise TypeError
  end.

(** [console_lines.append(log_line)] and the trim that follows. *)
Definition log_console (event : dict) : M state unit :=
  modify (fun s => set_console_lines (console_lines s ++ [event]) s) ;;
  lines <- gets console_lines ;;
  if (MAX_CONSOLE_LINES <? List.length lines)%nat
  then modify (set_console_lines (last_n MAX_CONSOLE_LINES lines))
  else ret tt.

(** [packet_events.append(entry)] and the trim that follows. *)
Definition record_packet (entry : dict) : M state unit :=
  modify (fun s => set_packet_events (packet_events s ++ [entry]) s) ;;
  events <- gets packet_events ;;
  if (MAX_PACKET_EVENTS <? List.length events)%nat
  then modify (set_packet_events (last_n MAX_PACKET_EVENTS events))
  else ret tt.

(** The position [process_simulation_event] reads. *)
Definition event_position (event : dict) : outcome (value * value) :=
  if dmem "posX" event then
    Ok (dget_or "posX" (VInt 0) event, dget_or "posY" (VInt 0) event)
  else
    match attr_get (dget_or "position" (VDict []) event) "x" (VInt 0) with
    | Raised e => Raised e
    | Ok pos_x =>
        match attr_get (dget_or "position" (VDict []) event) "y" (VInt 0) with
        | Raised e => Raised e
        | Ok pos_y => Ok (pos_x, pos_y)
        end
    end.

(** The dict [process_simulation_event] stores in [nodes_data]. *)
Definition node_record (node_id : scalar) (event : dict) (now count : Z)
    (pos_x pos_y : value) : dict :=
  [ ("nodeId", VS node_id);
    ("type", VStr "node_data");
    ("temp", sensor "temp" "temperature" event);
    ("humidity", sensor "humidity" "humidity" event);
    ("pressure", sensor "pressure" "pressure" event);
    ("rssi", dget_or "rssi" (VInt (-50)) event);
    ("snr", dget_or "snr" (VInt 10) event);
    ("hopDistance", dget_or "hopDistance" (VInt 0) event);
    ("lat", dget_or "lat" (VInt 0) event);
    ("lng", dget_or "lng" (VInt 0) event);
    ("satellites", dget_or "satellites" (VInt 0) event);
    ("lastUpdate", VInt now);
    ("online", VBool true);
    ("messageCount", VInt count);
    ("position", VDict [("x", pos_x); ("y", pos_y)]);
    ("neighborCount", dget_or "neighborCount" (VInt 0) event);
    ("isGateway",
      dget_or "isGateway" (VBool (py_eq (VS node_id) (SInt 1))) event);
    ("txCount", dget_or "txCount" (VInt 0) event);
    ("rxCount", dget_or "rxCount" (VInt 0) event) ].

(** [node_last_seen[node_id] = now] and the increment of
    [node_message_count[node_id]]. *)
Definition count_message (node_id : scalar) (now : Z) : M state unit :=
  modify (fun s =>
    set_node_last_seen (kset (key_of node_id) now (node_last_seen s)) s) ;;
  counts <- gets node_message_count ;;
  let counts :=
    if kmem (key_of node_id) counts then counts
    else kset (key_of node_id) 0 counts in
  modify (set_node_message_count
            (kset (key_of node_id)
               (kget_or (key_of node_id) 0 counts + 1) counts)).

(** The body of [if node_id:] in [process_simulation_event]. *)
Definition store_node_status (node_id : scalar) (event : dict) (w : world)
  : M state unit :=
  let now := t_event w in
  count_message node_id now ;;
  pos <- lift (event_position event) ;;
  count <- gets (fun s =>
    kget_or (key_of node_id) 0 (node_message_count s)) ;;
  modify (fun s =>
    set_nodes_data
      (kset (key_of node_id)
         (node_record node_id event now count (fst pos) (snd pos))
         (nodes_data s)) s) ;;
  update_topology node_id event (t_topology w) ;;
  format_f (fst pos) ;;
  format_f (snd pos).

Definition bump_sent (st : stats) : stats :=
  {| packetsSent := packetsSent st + 1;
     packetsReceived := packetsReceived st;
     packetsDropped := packetsDropped st |}.
Definition bump_received (st : stats) : stats :=
  {| packetsSent := packetsSent st;
     packetsReceived := packetsReceived st + 1;
     packetsDropped := packetsDropped st |}.
Definition bump_dropped (st : stats) : stats :=
  {| packetsSent := packetsSent st;
     packetsReceived := packetsReceived st;
     packetsDropped := packetsDropped st + 1 |}.

(** [process_simulation_event(event)] *)
Definition process_simulation_event (event : dict) (w : world)
  : M state unit :=
  let event_type := dget_or "type" (VStr "unknown") event in
  let now := t_event w in
  log_console event ;;
  (if py_eq event_type (SStr "node_status")
      || py_eq event_type (SStr "node_data") then
     let node_id := dget_none "nodeId" event in
     if truthy node_id then
       match node_id with
       | VS node_id => store_node_status node_id event w
       | VList _ => raise TypeError
       | VDict _ => raise TypeError
       end
     else ret tt
   else if py_eq event_type (SStr "packet_sent") then
     modify (fun s => set_mesh_stats (bump_sent (mesh_stats s)) s) ;;
     let from_node :=
       dget_or "fromNode" (dget_or "nodeId" (VInt 0) event) event in
     let pkt_type :=
       dget_or "packetType" (dget_or "event" (VStr "UNKNOWN") event) event in
     record_packet
       [ ("type", VStr "sent");
         ("timestamp", VInt now);
         ("fromNode", from_node);
         ("packetType", pkt_type);
         ("rssi", dget_or "rssi" (VInt (-50)) event);
         ("seq", dget_or "seq" (VInt 0) event) ]
   else if py_eq event_type (SStr "packet_received") then
     modify (fun s => set_mesh_stats (bump_received (mesh_stats s)) s) ;;
     let from_node :=
       dget_or "fromNode" (dget_or "from" (VInt 0) event) event in
     let to_node :=
       dget_or "toNode" (dget_or "nodeId" (VInt 0) event) event in
     let pkt_type :=
       dget_or "packetType" (dget_or "event" (VStr "UNKNOWN") event) event in
     record_packet
       [ ("type", VStr "received");
         ("timestamp", VInt now);
         ("fromNode", from_node);
         ("toNode", to_node);
         ("packetType", pkt_type);
         ("rssi", dget_or "rssi" (VInt (-50)) event);
         ("snr", dget_or "snr" (VInt 0) event);
         ("seq", dget_or "seq" (VInt 0) event) ]
   else if py_eq event_type (SStr "packet_dropped") then
     modify (fun s => set_mesh_stats (bump_dropped (mesh_stats s)) s)
   else ret tt) ;;
  broadcast_update (closed_update w) ;;
  broadcast_serial_line event (closed_line w).

(** One turn of the [for] loop of [check_offline_nodes], on the globals
    and [status_changed].  The topology records it changes in place are
    the ones a cached [nodes] list holds; the flag set with the change
    makes the next [get_topology_data] build a new list before the cached
    one is read again. *)
Definition check_node (now : Z) (acc : state * bool) (entry : key * Z)
  : state * bool :=
  let '(node_id, last_seen) := entry in
  let '(s, status_changed) := acc in
  let time_since_seen := now - last_seen in
  let record := kget_or node_id [] (nodes_data s) in
  let was_online := truthy (dget_or "online" (VBool true) record) in
  let flip (online : bool) : state :=
    let s := set_nodes_data
               (kset node_id (dset "online" (VBool online) record)
                  (nodes_data s)) s in
    let s := match kget node_id (network_topology s) with
             | Some t =>
                 set_network_topology
                   (kset node_id (dset "online" (VBool online) t)
                      (network_topology s)) s
             | None => s
             end in
    set_topology_cache_dirty true s in
  if NODE_OFFLINE_TIMEOUT <? time_since_seen then
    if was_online && kmem node_id (nodes_data s) then (flip false, true)
    else acc
  else
    if negb was_online && kmem node_id (nodes_data s) then (flip true, true)
    else acc.

(** One round of [check_offline_nodes] after its sleep. *)
Definition check_offline_nodes (now : Z) (is_closed : handle -> bool)
  : M state unit :=
  fun s =>
    let '(s', status_changed) :=
      fold_left (check_node now) (node_last_seen s) (s, false) in
    if status_changed then broadcast_update is_closed s' else (Ok tt, s').

Definition add_client (ws : handle) (clients : list handle) : list handle :=
  if existsb (Nat.eqb ws) clients then clients else clients ++ [ws].
Definition discard_client (ws : handle) (clients : list handle)
  : list handle :=
  filter (fun c => negb (Nat.eqb ws c)) clients.

(** [websocket_handler] up to its message loop: registration, the initial
    push and the last 50 console lines. *)
Definition websocket_connect (ws : handle) (ws_closed : bool)
  : M state unit :=
  fun s0 =>
    let s1 := set_websocket_clients (add_client ws (websocket_clients s0)) s0 in
    match get_topology_data s1 with
    | (Raised e, s2) =>
        (Raised e,
         set_websocket_clients (discard_client ws (websocket_clients s2)) s2)
    | (Ok topo, s2) =>
        if ws_closed
        then (Ok tt,
              set_websocket_clients
                (discard_client ws (websocket_clients s2)) s2)
        else (Ok tt,
              set_outbox
                (outbox s2
                 ++ Sent ws (MsgInit (gateway_data s2) (nodes_data s2)
                               (mesh_stats s2) topo)
                 :: map (fun line => Sent ws (MsgSerial line))
                      (last_n 50 (console_lines s2))) s2)
    end.

Definition websocket_disconnect (ws : handle) : M state unit :=
  modify (fun s =>
    set_websocket_clients (discard_client ws (websocket_clients s)) s).

Inductive input : Type :=
| Event (event : dict) (w : world)
| OfflineCheck (now : Z) (is_closed : handle -> bool)
| Connect (ws : handle) (ws_closed : bool)
| Disconnect (ws : handle)
| ApiTopology.

Definition handle_input (i : input) : M state unit :=
  match i with
  | Event event w => process_simulation_event event w
  | OfflineCheck now is_closed => check_offline_nodes now is_closed
  | Connect ws ws_closed => websocket_connect ws ws_closed
  | Disconnect ws => websocket_disconnect ws
  | ApiTopology => _ <- get_topology_data ;; ret tt
  end.

(** An exception ends the handling of one input and the globals stay as
    they are: [receive_udp_events] logs it and goes on. *)
Definition step (s : state) (i : input) : state := exec (handle_input i) s.

Definition run (inputs : list input) (s : state) : state :=
  fold_left step inputs s.

End Simulation.

(** ** Python strings *)

From Stdlib Require Import Ascii.

(** A [str] is a [string]: a sequence of characters, here the code points
    below 256. *)
Module PyStr.

Definition newline : ascii := "010"%char.
Definition carriage_return : ascii := "013"%char.

(** [s.split(sep, 1)] when [sep in s]: the text before the first [sep] and
    the text after it; [None] when [sep] is not in [s]. *)
Fixpoint partition (sep : ascii) (s : string) : option (string * string) :=
  match s with
  | EmptyString => None
  | String c s' =>
      if Ascii.eqb c sep then Some (EmptyString, s')
      else
        match partition sep s' with
        | Some (before, after) => Some (String c before, after)
        | None => None
        end
  end.

(** [s.rstrip(c)] for a character [c] *)
Fixpoint rstrip (c : ascii) (s : string) : string :=
  match s with
  | EmptyString => EmptyString
  | String a s' =>
      match rstrip c s' with
      | EmptyString => if Ascii.eqb a c then EmptyString else String a EmptyString
      | String b r => String a (String b r)
      end
  end.

(** [s.startswith(p)] *)
Definition startswith (p s : string) : bool := String.prefix p s.

(** [s.endswith(p)] *)
Fixpoint endswith (p s : string) : bool :=
  String.eqb s p
  || match s with
     | EmptyString => false
     | String _ s' => endswith p s'
     end.

(** [p in s] *)
Fixpoint contains (p s : string) : bool :=
  String.prefix p s
  || match s with
     | EmptyString => false
     | String _ s' => contains p s'
     end.

(** [s[-n:]] for a positive [n] *)
Definition last_chars (n : nat) (s : string) : string :=
  String.substring (String.length s - n) n s.

(** [c.lower()]: the letters A to Z, and the capital letters of Latin-1
    (192 to 222 but for the multiplication sign, 215), are 32 below their
    lower case. *)
Definition lower_char (c : ascii) : ascii :=
  let n := nat_of_ascii c in
  if ((65 <=? n) && (n <=? 90)
      || (192 <=? n) && (n <=? 222) && negb (n =? 215))%nat
  then ascii_of_nat (n + 32)
  else c.

(** [s.lower()] *)
Fixpoint lower (s : string) : string :=
  match s with
  | EmptyString => EmptyString
  | String c s' => String (lower_char c) (lower s')
  end.

End PyStr.

Import PyStr.

(** ** serial_bridge.py: the serial port, its reader and the client commands *)

From Stdlib Require Import DecimalString.

Module SerialPort.

(** *** Port detection *)

(** What [serial.tools.list_ports.comports()] lists for a port. *)
Record port_info : Type := { device : string; description : string }.

(** The names of the usual USB-serial chips of an ESP32 board. *)
Definition esp32_chips : list string :=
  ["cp210"; "ch340"; "ftdi"; "silicon labs"; "usb serial"].

(** [find_esp32_port()], given the ports listed. *)
Fixpoint find_esp32_port (ports : list port_info) : option string :=
  match ports with
  | [] => None
  | port :: rest =>
      let desc_lower := lower (description port) in
      if existsb (fun chip => contains chip desc_lower) esp32_chips
      then Some (device port)
      else find_esp32_port rest
  end.

(** The port [main] goes on with: [args.port] when it is given and not
    empty, else the port detected; [None] when [main] gives up. *)
Definition select_port (arg : option string) (ports : list port_info)
  : option string :=
  let given :=
    match arg with
    | Some port => negb (String.eqb port "")
    | None => false
    end in
  if given then arg
  else
    match find_esp32_port ports with
    | Some port => if String.eqb port "" then None else Some port
    | None => None
    end.

(** *** The reader *)

(** What the outside world is like while one line is handled: which
    connections are closed during the console broadcast, and the world of
    [process_mesh_data]. *)
Record line_world : Type := {
  closed_console : handle -> bool;
  mesh_world : Serial.world
}.

(** The state of [read_serial]: the globals and its local [line_buffer],
    which an exception caught by the loop leaves as it is. *)
Record reader : Type := { globals : Serial.state; line_buffer : string }.

Definition set_line_buffer (buffer : string) (r : reader) : reader :=
  {| globals := globals r; line_buffer := buffer |}.

(** A computation on the globals, run by the reader. *)
Definition on_globals {A} (c : M Serial.state A) : M reader A :=
  fun r =>
    let (o, g) := c (globals r) in
    (o, {| globals := g; line_buffer := line_buffer r |}).

Section ReadSerial.

(** [json.loads(line)] for a line that starts with an opening brace: the
    object it decodes to, [None] standing for [JSONDecodeError]. *)
Variable json_loads : string -> option dict.

(** What [read_serial] does with one line that is not empty. *)
Definition handle_line (line : string) (lw : line_world)
  : M Serial.state unit :=
  Serial.broadcast_serial_line line (closed_console lw) ;;
  if startswith "{" line && endswith "}" line then
    match json_loads line with
    | Some data => Serial.process_mesh_data data (mesh_world lw)
    | None => ret tt
    end
  else ret tt.

(** The loop [while '\n' in line_buffer].  Every turn shortens the buffer,
    so its length is fuel enough.  The lines handled are numbered from [i]
    on, and line [k] meets the world [env k]. *)
Fixpoint process_lines (fuel : nat) (env : nat -> line_world) (i : nat)
  : M reader unit :=
  match fuel with
  | O => ret tt
  | S fuel' =>
      buffer <- gets line_buffer ;;
      match partition newline buffer with
      | None => ret tt
      | Some (line, rest) =>
          modify (set_line_buffer rest) ;;
          let line := rstrip carriage_return line in
          if String.eqb line "" then process_lines fuel' env i
          else
            on_globals (handle_line line (env i)) ;;
            process_lines fuel' env (S i)
      end
  end.

(** One turn of the loop of [read_serial] in which the port has data:
    the text read is [data]. *)
Definition read_available (data : string) (env : nat -> line_world)
  : M reader unit :=
  modify (fun r => set_line_buffer (line_buffer r ++ data)%string r) ;;
  buffer <- gets line_buffer ;;
  process_lines (String.length buffer) env 0 ;;
  buffer <- gets line_buffer ;;
  if 10000 <? Z.of_nat (String.length buffer)
  then modify (set_line_buffer (last_chars 1000 buffer))
  else ret tt.

End ReadSerial.

(** *** Commands of the clients *)

(** The global [serial_port]: [None], a port that is not open, or an open
    port, whose [write] may raise an exception with the given text. *)
Inductive port_state : Type :=
| NoPort
| PortClosed
| PortOpen (write_error : option string).

(** What handling a command does to the outside world: bytes written to
    the serial port, a response sent to the client. *)
Inductive command_effect : Type :=
| Written (cmd : string)
| Replied (ws : handle) (response : dict).

(** How handling a message of a client ends: it returns, or it raises
    [ConnectionClosed] or another exception. *)
Inductive command_end : Type :=
| Returned
| ConnectionClosed
| Failed (e : exn).

(** [f"{v:02d}"]: the decimal digits of an integer after its sign, with a
    zero in front of a single digit; [True] and [False] are 1 and 0; a
    string has no format code 'd', [None] and containers take no format
    string. *)
Definition format_02d (v : value) : outcome string :=
  let decimal (z : Z) : string :=
    if (0 <=? z) && (z <? 10)
    then ("0" ++ NilZero.string_of_int (Z.to_int z))%string
    else NilZero.string_of_int (Z.to_int z) in
  match v with
  | VS (SInt z) => Ok (decimal z)
  | VS (SBool b) => Ok (decimal (if b then 1 else 0))
  | VS (SStr _) => Raised ValueError
  | _ => Raised TypeError
  end.

(** [f"{hour:02d}:{minute:02d}:{second:02d}"] *)
Definition format_time (hour minute second : value) : outcome string :=
  match format_02d hour with
  | Raised e => Raised e
  | Ok hh =>
      match format_02d minute with
      | Raised e => Raised e
      | Ok mm =>
          match format_02d second with
          | Raised e => Raised e
          | Ok ss => Ok (hh ++ ":" ++ mm ++ ":" ++ ss)%string
          end
      end
  end.

Definition settime_succeeded (time : string) : dict :=
  [ ("type", VStr "command_response"); ("command", VStr "settime");
    ("success", VBool true);
    ("message", VStr ("Time set to " ++ time ++ " UTC")%string) ].

Definition settime_failed (error : string) : dict :=
  [ ("type", VStr "command_response"); ("command", VStr "settime");
    ("success", VBool false); ("error", VStr error) ].

(** [await websocket.send(json.dumps(response))] as the last thing done. *)
Definition reply (ws : handle) (ws_closed : bool) (response : dict)
    (done : list command_effect) : command_end * list command_effect :=
  if ws_closed then (ConnectionClosed, done)
  else (Returned, done ++ [Replied ws response]).

(** [handle_client_command(data, websocket)] *)
Definition handle_client_command (data : dict) (port : port_state)
    (ws : handle) (ws_closed : bool) : command_end * list command_effect :=
  let command := dget_none "command" data in
  if py_eq command (SStr "settime") then
    let hour := dget_or "hour" (VInt 0) data in
    let minute := dget_or "minute" (VInt 0) data in
    let second := dget_or "second" (VInt 0) data in
    match port with
    | PortOpen write_error =>
        match format_time hour minute second with
        | Raised e => (Failed e, [])
        | Ok time =>
            let cmd := ("SETTIME " ++ time ++ String newline "")%string in
            match write_error with
            | None => reply ws ws_closed (settime_succeeded time) [Written cmd]
            | Some error => reply ws ws_closed (settime_failed error) []
            end
        end
    | _ => reply ws ws_closed (settime_failed "Serial port not connected") []
    end
  else (Returned, []).

(** One turn of the loop [async for message in websocket] of
    [websocket_handler]: [parsed] is what [json.loads(message)] returns,
    [None] standing for [JSONDecodeError]. *)
Definition client_message (parsed : option value) (port : port_state)
    (ws : handle) (ws_closed : bool) : command_end * list command_effect :=
  match parsed with
  | None => (Returned, [])
  | Some (VDict data) =>
      if py_eq (dget_none "type" data) (SStr "command")
      then handle_client_command data port ws ws_closed
      else (Returned, [])
  | Some _ => (Failed AttributeError, [])
  end.

End SerialPort.

(** * Vocabulary of the statements *)

(** The connections a sweep finds open. *)
Definition open_clients (is_closed : handle -> bool) (clients : list handle)
  : list handle :=
  filter (fun ws => negb (is_closed ws)) clients.

(** The parts of the globals of the serial bridge that the statements
    follow: the stores of node state, the topology records, the snapshot
    history with the time of the last snapshot, and the uploads (the
    last-upload times with the requests made). *)
Definition serial_counters (s : Serial.state) :=
  (Serial.nodes_data s, Serial.node_last_seen s, Serial.node_message_count s).
Definition serial_history (s : Serial.state) :=
  (Serial.topology_history s, Serial.last_topology_snapshot_time s).
Definition is_upload (e : Serial.effect) : bool :=
  match e with Serial.Uploaded _ _ _ _ => true | Serial.Sent _ _ => false end.
Definition serial_uploads (s : Serial.state) :=
  (Serial.last_thingspeak_upload s, filter is_upload (Serial.outbox s)).
Definition serial_stores (s : Serial.state) :=
  (serial_counters s, Serial.network_topology s, serial_history s,
   serial_uploads s).

(** The node whose record [process_mesh_data] stores for the event: the
    event has type [node_data] and a truthy, hashable [nodeId]. *)
Definition serial_stored_node (data : dict) : option scalar :=
  if py_eq (dget_or "type" (VStr "unknown") data) (SStr "node_data") then
    if truthy (dget_none "nodeId" data) then
      match dget_none "nodeId" data with
      | VS node_id => Some node_id
      | _ => None
      end
    else None
  else None.

(** The last statement of the body of [if node_id:]. *)
Definition serial_upload_step (nid : scalar) (data : dict) (w : Serial.world)
  : M Serial.state unit :=
  if Serial.THINGSPEAK_ENABLED && Serial.requests w
  then Serial.upload_to_thingspeak nid data (Serial.t_upload w)
         (Serial.response w)
  else ret tt.

(** A stored event of node [nid] makes a request to ThingSpeak: uploads
    are enabled, the node has an API key, and the interval has passed
    since the last upload recorded for it. *)
Definition serial_upload_due (nid : scalar) (w : Serial.world)
    (s : Serial.state) : bool :=
  Serial.THINGSPEAK_ENABLED && Serial.requests w
  && existsb (key_eqb (key_of nid)) Serial.THINGSPEAK_API_KEYS
  && negb (Serial.t_upload w
           - kget_or (key_of nid) 0 (Serial.last_thingspeak_upload s)
           <? Serial.THINGSPEAK_UPDATE_INTERVAL).

(** What the offline sweep of the serial bridge leaves alone. *)
Definition serial_rest (s : Serial.state) :=
  (Serial.node_last_seen s, Serial.node_message_count s,
   Serial.network_topology s, serial_history s, serial_uploads s).

(** The inputs other than a stored node event and the offline sweep. *)
Definition serial_quiet (i : Serial.input) : bool :=
  match i with
  | Serial.MeshData data _ =>
      match serial_stored_node data with Some _ => false | None => true end
  | Serial.OfflineCheck _ _ => false
  | _ => true
  end.

(** Two records that differ at most in [online] and [offlineSince]. *)
Definition same_but_liveness (r r' : dict) : Prop :=
  forall f, f <> "online" -> f <> "offlineSince" -> dget f r' = dget f r.

(** Two stores with the same nodes, whose records differ at most in
    [online] and [offlineSince]. *)
Definition sweep_related (nds nds' : list (key * dict)) : Prop :=
  forall k,
    match kget k nds with
    | None => kget k nds' = None
    | Some r => exists r', kget k nds' = Some r' /\ same_but_liveness r r'
    end.

(** The arrival time of an input, when it is a stored event of node
    [k]. *)
Definition serial_arrival (k : key) (i : Serial.input) : option Z :=
  match i with
  | Serial.MeshData data w =>
      match serial_stored_node data with
      | Some node_id =>
          if key_eqb (key_of node_id) k then Some (Serial.t_ingest w) else None
      | None => None
      end
  | _ => None
  end.

(** An optional value as a list of at most one element. *)
Definition option_list {A} (o : option A) : list A :=
  match o with Some a => [a] | None => [] end.

(** The arrival times of the stored events of node [k], oldest first. *)
Definition serial_arrivals (k : key) (inputs : list Serial.input) : list Z :=
  flat_map (fun i => option_list (serial_arrival k i)) inputs.

(** The last element of a list. *)
Fixpoint last_opt {A} (l : list A) : option A :=
  match l with
  | [] => None
  | [x] => Some x
  | _ :: l' => last_opt l'
  end.

(** The tables and the record of node [k] agree with the arrival times
    [ts] of its stored events. *)
Definition serial_counted (k : key) (ts : list Z) (s : Serial.state) : Prop :=
  kget k (Serial.node_last_seen s) = last_opt ts
  /\ kget_or k 0 (Serial.node_message_count s) = Z.of_nat (List.length ts)
  /\ match last_opt ts with
     | None => kget k (Serial.nodes_data s) = None
     | Some t =>
         exists r,
           kget k (Serial.nodes_data s) = Some r
           /\ dget "lastUpdate" r = Some (VInt t)
           /\ dget "messageCount" r = Some (VInt (Z.of_nat (List.length ts)))
     end.

(** The parts of the globals of the simulation bridge that the statements
    follow. *)
Definition sim_stores (s : Simulation.state) :=
  (Simulation.nodes_data s, Simulation.node_last_seen s,
   Simulation.node_message_count s, Simulation.network_topology s,
   Simulation.packet_events s).

(** The node [process_simulation_event] counts the event for: the event
    has type [node_status] or [node_data] and a truthy, hashable
    [nodeId]. *)
Definition sim_stored_node (event : dict) : option scalar :=
  let event_type := dget_or "type" (VStr "unknown") event in
  if py_eq event_type (SStr "node_status") || py_eq event_type (SStr "node_data")
  then
    if truthy (dget_none "nodeId" event) then
      match dget_none "nodeId" event with
      | VS node_id => Some node_id
      | _ => None
      end
    else None
  else None.

(** The entry a packet event adds to [packet_events]. *)
Definition sim_packet_entry (event : dict) (now : Z) : option dict :=
  let event_type := dget_or "type" (VStr "unknown") event in
  if py_eq event_type (SStr "node_status") || py_eq event_type (SStr "node_data")
  then None
  else if py_eq event_type (SStr "packet_sent") then
    Some [ ("type", VStr "sent");
           ("timestamp", VInt now);
           ("fromNode",
             dget_or "fromNode" (dget_or "nodeId" (VInt 0) event) event);
           ("packetType",
             dget_or "packetType" (dget_or "event" (VStr "UNKNOWN") event)
               event);
           ("rssi", dget_or "rssi" (VInt (-50)) event);
           ("seq", dget_or "seq" (VInt 0) event) ]
  else if py_eq event_type (SStr "packet_received") then
    Some [ ("type", VStr "received");
           ("timestamp", VInt now);
           ("fromNode",
             dget_or "fromNode" (dget_or "from" (VInt 0) event) event);
           ("toNode",
             dget_or "toNode" (dget_or "nodeId" (VInt 0) event) event);
           ("packetType",
             dget_or "packetType" (dget_or "event" (VStr "UNKNOWN") event)
               event);
           ("rssi", dget_or "rssi" (VInt (-50)) event);
           ("snr", dget_or "snr" (VInt 0) event);
           ("seq", dget_or "seq" (VInt 0) event) ]
  else None.

(** The snapshot an input appends to [topology_history], if any: a stored
    node event does, with the topology as [update_topology] left it, when
    [save_topology_snapshot] finds the interval elapsed. *)
Definition serial_captured (s : Serial.state) (i : Serial.input)
  : list Serial.snapshot :=
  match i with
  | Serial.MeshData data w =>
      match serial_stored_node data with
      | Some _ =>
          if Serial.t_snapshot w - Serial.last_topology_snapshot_time s <? 30
          then []
          else [ {| Serial.timestamp := Serial.t_snapshot w;
                    Serial.snap_nodes :=
                      Serial.network_topology (Serial.step s i) |} ]
      | None => []
      end
  | _ => []
  end.

(** All the snapshots a run appends, oldest first. *)
Fixpoint serial_snapshots (inputs : list Serial.input) (s : Serial.state)
  : list Serial.snapshot :=
  match inputs with
  | [] => []
  | i :: rest => serial_captured s i ++ serial_snapshots rest (Serial.step s i)
  end.

(** Each time of the list is at least 30 after the one before it, the
    first one at least 30 after [prev]. *)
Fixpoint spaced_from (prev : Z) (times : list Z) : Prop :=
  match times with
  | [] => True
  | t :: rest => 30 <= t - prev /\ spaced_from t rest
  end.

(** All the entries a run appends to [packet_events], oldest first. *)
Definition sim_packets (inputs : list Simulation.input) : list dict :=
  flat_map
    (fun i =>
       match i with
       | Simulation.Event event w =>
           option_list (sim_packet_entry event (Simulation.t_event w))
       | _ => []
       end)
    inputs.

(** What differs between the bridge before and after an offline sweep of
    the simulation bridge. *)
Definition sim_swept (s s' : Simulation.state) : Prop :=
  Simulation.node_last_seen s' = Simulation.node_last_seen s
  /\ Simulation.node_message_count s' = Simulation.node_message_count s
  /\ Simulation.packet_events s' = Simulation.packet_events s
  /\ sweep_related (Simulation.nodes_data s) (Simulation.nodes_data s')
  /\ sweep_related (Simulation.network_topology s)
       (Simulation.network_topology s').

(** The requests made to ThingSpeak so far, oldest first. *)
Definition serial_upload_log (s : Serial.state) : list Serial.effect :=
  filter is_upload (Serial.outbox s).

(** Every request of [log] for node [k] is made at least
    [THINGSPEAK_UPDATE_INTERVAL] after [t]. *)
Fixpoint later_uploads_spaced (k : key) (t : Z) (log : list Serial.effect)
  : Prop :=
  match log with
  | [] => True
  | Serial.Uploaded k' t' _ _ :: rest =>
      (k' = k -> Serial.THINGSPEAK_UPDATE_INTERVAL <= t' - t)
      /\ later_uploads_spaced k t rest
  | Serial.Sent _ _ :: rest => later_uploads_spaced k t rest
  end.

(** After a request that succeeded, the next request for the same node
    comes at least [THINGSPEAK_UPDATE_INTERVAL] later. *)
Fixpoint successes_respected (log : list Serial.effect) : Prop :=
  match log with
  | [] => True
  | Serial.Uploaded k t _ Serial.HttpOk :: rest =>
      later_uploads_spaced k t rest /\ successes_respected rest
  | _ :: rest => successes_respected rest
  end.

(** After any request, whatever its answer, the next request for the same
    node comes at least [THINGSPEAK_UPDATE_INTERVAL] later. *)
Fixpoint attempts_respected (log : list Serial.effect) : Prop :=
  match log with
  | [] => True
  | Serial.Uploaded k t _ _ :: rest =>
      later_uploads_spaced k t rest /\ attempts_respected rest
  | Serial.Sent _ _ :: rest => attempts_respected rest
  end.

(** The last-upload times never lag behind a success of the log. *)
Definition successes_recorded (s : Serial.state) : Prop :=
  forall k t p,
    In (Serial.Uploaded k t p Serial.HttpOk) (serial_upload_log s) ->
    t <= kget_or k 0 (Serial.last_thingspeak_upload s).

(** [store[k][f]], when the store has a record for [k] and the record a
    field [f]. *)
Definition field_of (k : key) (f : string) (store : list (key * dict))
  : option value :=
  match kget k store with
  | Some record => dget f record
  | None => None
  end.

(** A sensor reading by the rule of the specification: the flat key when
    the event has it, else the key of the nested [sensors] mapping, else
    [None]. *)
Definition preferring_flat (flat nested : string) (event : dict) : value :=
  match dget flat event with
  | Some v => v
  | None =>
      match dget "sensors" event with
      | Some (VDict d) => dget_none nested d
      | _ => VNone
      end
  end.

(** No store of the serial bridge has an entry for [k]. *)
Definition serial_unknown (k : key) (s : Serial.state) : Prop :=
  kget k (Serial.nodes_data s) = None
  /\ kget k (Serial.node_last_seen s) = None
  /\ kget k (Serial.node_message_count s) = None
  /\ kget k (Serial.network_topology s) = None.

(** No store of the simulation bridge has an entry for [k]. *)
Definition sim_unknown (k : key) (s : Simulation.state) : Prop :=
  kget k (Simulation.nodes_data s) = None
  /\ kget k (Simulation.node_last_seen s) = None
  /\ kget k (Simulation.node_message_count s) = None
  /\ kget k (Simulation.network_topology s) = None.

(** The arrival time of an input, when the simulation bridge counts it
    for node [k]: it passes [if node_id:] with a hashable identifier. *)
Definition sim_arrival (k : key) (i : Simulation.input) : option Z :=
  match i with
  | Simulation.Event event w =>
      match sim_stored_node event with
      | Some node_id =>
          if key_eqb (key_of node_id) k then Some (Simulation.t_event w)
          else None
      | None => None
      end
  | _ => None
  end.

(** The times at which the simulation bridge counted an event for node
    [k], oldest first. *)
Definition sim_arrivals (k : key) (inputs : list Simulation.input) : list Z :=
  flat_map (fun i => option_list (sim_arrival k i)) inputs.

(** ** Sample inputs *)

(** A reading of node 2, relayed by node 1. *)
Definition reading_of_node_2 : dict :=
  [ ("type", VStr "node_data"); ("nodeId", VInt 2); ("hopDistance", VInt 1);
    ("meshSenderId", VInt 1); ("rssi", VInt (-60)); ("temp", VInt 70) ].

(** No WebSocket connection is closed. *)
Definition nobody_closed : handle -> bool := fun _ => false.

(** The serial bridge handles an event at time [t]; ThingSpeak answers
    [resp]. *)
Definition serial_world_at (t : Z) (resp : Serial.http_result) : Serial.world :=
  {| Serial.t_ingest := t; Serial.t_topology := t; Serial.t_snapshot := t;
     Serial.t_upload := t; Serial.requests := true; Serial.response := resp;
     Serial.closed := nobody_closed |}.

(** The simulation bridge handles an event at time [t]. *)
Definition sim_world_at (t : Z) : Simulation.world :=
  {| Simulation.t_event := t; Simulation.t_topology := t;
     Simulation.closed_update := nobody_closed;
     Simulation.closed_line := nobody_closed |}.

(** A node that reports no parent and no hop distance. *)
Definition orphan_of_node_2 : dict :=
  [ ("type", VStr "node_data"); ("nodeId", VInt 2); ("parentNode", VInt 0);
    ("hopDistance", VInt 0); ("posX", VInt 300); ("posY", VInt 0) ].

(** Node 5 reports its position in both encodings, and its temperature
    both flat and nested. *)
Definition both_encodings_of_node_5 : dict :=
  [ ("type", VStr "node_status"); ("nodeId", VInt 5);
    ("posX", VInt 300); ("posY", VInt 0);
    ("position", VDict [("x", VInt 310); ("y", VInt 5)]);
    ("temp", VInt 70);
    ("sensors", VDict [("temperature", VInt 99); ("humidity", VInt 40)]);
    ("hopDistance", VInt 1) ].

(** Node 5 reports its position in the nested encoding only. *)
Definition nested_position_of_node_5 : dict :=
  [ ("type", VStr "node_status"); ("nodeId", VInt 5);
    ("position", VDict [("x", VInt 310); ("y", VInt 5)]);
    ("hopDistance", VInt 1) ].

(** A node event without a [nodeId], and one whose [nodeId] is 0. *)
Definition reading_without_node_id : dict :=
  [ ("type", VStr "node_data"); ("temp", VInt 70) ].
Definition reading_of_node_0 : dict :=
  [ ("type", VStr "node_data"); ("nodeId", VInt 0); ("temp", VInt 70) ].

(** Node 2 reports that it has no position: JSON [null]. *)
Definition unknown_position_of_node_2 : dict :=
  [ ("type", VStr "node_data"); ("nodeId", VInt 2); ("position", VNone) ].

(** [n] readings of node 2, one every 30 ticks from time 30 on. *)
Definition readings_every_30 (n : nat) : list Serial.input :=
  map
    (fun i =>
       Serial.MeshData reading_of_node_2
         (serial_world_at (30 * Z.of_nat (S i)) Serial.HttpFailed))
    (seq 0 n).

(** * Vocabulary of the further properties *)

(** The packet counters and the console log of the simulation bridge. *)
Definition sim_logs (s : Simulation.state) :=
  (Simulation.mesh_stats s, Simulation.console_lines s).

(** The events a run hands to [process_simulation_event], oldest first. *)
Definition sim_events (inputs : list Simulation.input) : list dict :=
  flat_map
    (fun i =>
       match i with
       | Simulation.Event event _ => [event]
       | _ => []
       end)
    inputs.

(** [event.get('type', 'unknown') == t] *)
Definition has_type (t : string) (event : dict) : bool :=
  py_eq (dget_or "type" (VStr "unknown") event) (SStr t).

(** How many events of a list have type [t]. *)
Definition count_type (t : string) (events : list dict) : Z :=
  Z.of_nat (List.length (filter (has_type t) events)).

(** The cached topology view of the simulation bridge and its flag. *)
Definition sim_cache (s : Simulation.state) :=
  (Simulation.topology_cache s, Simulation.topology_cache_dirty s).

(** The view is cached and the flag says it is valid. *)
Definition sim_cache_valid (c : Simulation.topology) (s : Simulation.state)
  : Prop :=
  Simulation.topology_cache s = Some c
  /\ Simulation.topology_cache_dirty s = false.

(** A request to ThingSpeak stems from an event of [inputs]: a stored
    event of the node, handled with [requests] available, at the time and
    with the answer of the request, whose readings are the parameters. *)
Definition upload_stems_from (inputs : list Serial.input) (e : Serial.effect)
  : Prop :=
  match e with
  | Serial.Uploaded k t p r =>
      exists data w nid,
        In (Serial.MeshData data w) inputs
        /\ serial_stored_node data = Some nid
        /\ key_of nid = k
        /\ Serial.requests w = true
        /\ t = Serial.t_upload w
        /\ r = Serial.response w
        /\ p = Serial.upload_params data
  | Serial.Sent _ _ => True
  end.

(** What the offline sweep of the serial bridge relies on: the last-seen
    table has one entry for a node, every node of the table has a record
    and no other node has one, [online] is a Boolean and an offline record
    carries the last-seen time as [offlineSince]. *)
Definition serial_liveness_inv (s : Serial.state) : Prop :=
  NoDup (map fst (Serial.node_last_seen s))
  /\ forall k,
       match kget k (Serial.node_last_seen s) with
       | None => kget k (Serial.nodes_data s) = None
       | Some t =>
           exists r b,
             kget k (Serial.nodes_data s) = Some r
             /\ dget "online" r = Some (VBool b)
             /\ (b = false -> dget "offlineSince" r = Some (VInt t))
       end.

(** What the offline sweep of the simulation bridge relies on: the
    last-seen table has one entry for a node, and [online] is a Boolean
    in every record. *)
Definition sim_liveness_inv (s : Simulation.state) : Prop :=
  NoDup (map fst (Simulation.node_last_seen s))
  /\ forall k r,
       kget k (Simulation.nodes_data s) = Some r ->
       exists b, dget "online" r = Some (VBool b).

(** The [parentNode] of a topology record can be compared with 0: it is a
    number (or absent). *)
Definition numeric_parent (record : dict) : bool :=
  match py_gt0 (dget_or "parentNode" (VInt 0) record) with
  | Some _ => true
  | None => false
  end.

(** [get_topology_data] has to rebuild the view. *)
Definition serial_cache_stale (s : Serial.state) : Prop :=
  Serial.topology_cache_dirty s = true \/ Serial.topology_cache s = None.
Definition sim_cache_stale (s : Simulation.state) : Prop :=
  Simulation.topology_cache_dirty s = true
  \/ Simulation.topology_cache s = None.

(** Node 2 names its parent instead of giving its identifier. *)
Definition reading_with_named_parent : dict :=
  [ ("type", VStr "node_data"); ("nodeId", VInt 2);
    ("meshSenderId", VStr "gateway"); ("parentNode", VStr "gateway");
    ("hopDistance", VInt 1) ].

(** The lines of a text, each with the text that follows its newline:
    what [split('\n', 1)] gives from one turn of the reader's loop to the
    next. *)
Fixpoint frames (s : string) : list (string * string) :=
  match s with
  | EmptyString => []
  | String c s' =>
      if Ascii.eqb c newline then (EmptyString, s') :: frames s'
      else
        match frames s' with
        | [] => []
        | (line, rest) :: more => (String c line, rest) :: more
        end
  end.

(** What follows the last newline of a text: the whole text when it has
    no newline. *)
Definition pending_text (s : string) : string :=
  last (map snd (frames s)) s.

(** The lines of a text that the reader handles: the lines ended by a
    newline, without their trailing carriage returns, but for the empty
    ones. *)
Definition frame_lines (fs : list (string * string)) : list string :=
  filter (fun line => negb (String.eqb line ""))
    (map (fun frame => rstrip carriage_return (fst frame)) fs).
Definition handled_lines (s : string) : list string := frame_lines (frames s).

(** Handling lines in order, the first one in the world [env i]; an
    exception ends it. *)
Fixpoint handle_lines (json_loads : string -> option dict)
    (env : nat -> SerialPort.line_world) (i : nat) (lines : list string)
  : M Serial.state unit :=
  match lines with
  | [] => ret tt
  | line :: more =>
      SerialPort.handle_line json_loads line (env i) ;;
      handle_lines json_loads env (S i) more
  end.

(** The reader's loop, turn by turn over the frames of the buffer. *)
Fixpoint handle_frames (json_loads : string -> option dict)
    (env : nat -> SerialPort.line_world) (i : nat)
    (fs : list (string * string)) : M SerialPort.reader unit :=
  match fs with
  | [] => ret tt
  | (raw, rest) :: more =>
      modify (SerialPort.set_line_buffer rest) ;;
      let line := rstrip carriage_return raw in
      if String.eqb line "" then handle_frames json_loads env i more
      else
        SerialPort.on_globals (SerialPort.handle_line json_loads line (env i)) ;;
        handle_frames json_loads env (S i) more
  end.

(** What the reader keeps of a buffer left without newline. *)
Definition capped (buffer : string) : string :=
  if 10000 <? Z.of_nat (String.length buffer)
  then last_chars 1000 buffer else buffer.

(** A character is in a text. *)
Fixpoint has_char (c : ascii) (s : string) : bool :=
  match s with
  | EmptyString => false
  | String a s' => Ascii.eqb a c || has_char c s'
  end.

(** The end of a line as a Windows terminal sends it, and as a Unix one
    does. *)
Definition crlf : string := String carriage_return (String newline "").
Definition lf : string := String newline "".

(** Every line is handled while no connection is closed, at time [t]. *)
Definition quiet_line_world (t : Z) : nat -> SerialPort.line_world :=
  fun _ =>
    {| SerialPort.closed_console := nobody_closed;
       SerialPort.mesh_world := serial_world_at t Serial.HttpOk |}.

(** A decoder that knows one line: an event whose [nodeId] is a list. *)
Definition loads_unhashable (line : string) : option dict :=
  if String.eqb line "{}"
  then Some [("type", VStr "node_data"); ("nodeId", VList [VInt 1])]
  else None.

(** A reader that has read nothing yet. *)
Definition fresh_reader : SerialPort.reader :=
  {| SerialPort.globals := Serial.init; SerialPort.line_buffer := "" |}.

(** What the serial bridge has sent grows from [s] to [s']. *)
Definition serial_outbox_grows (s s' : Serial.state) : Prop :=
  exists more, Serial.outbox s' = Serial.outbox s ++ more.

(** A line is handed to [process_mesh_data]: it starts and ends with a
    brace and decodes to an object. *)
Definition decoded_line (json_loads : string -> option dict) (line : string)
  : option dict :=
  if startswith "{" line && endswith "}" line then json_loads line else None.

From Stdlib Require Import DecimalPos DecimalZ.

(** The integer a decimal text denotes. *)
Definition decimal_value (s : string) : option Z :=
  option_map Z.of_int (NilZero.int_of_string s).

(** The [settime] command of a client, with its three fields. *)
Definition settime_command (hour minute second : value) : dict :=
  [ ("type", VStr "command"); ("command", VStr "settime");
    ("hour", hour); ("minute", minute); ("second", second) ].

(** A port whose description names one of the chips, whatever the case of
    its letters. *)
Definition names_chip (port : SerialPort.port_info) : Prop :=
  exists before name after,
    SerialPort.description port = (before ++ name ++ after)%string
    /\ In (lower name) SerialPort.esp32_chips.

(** ** generate_html.py: the pass over the lines of the document *)

(** The document is read as UTF-8: a text is a sequence of code points. *)
Module Html.

Definition text : Type := list N.

Definition codes (s : string) : text :=
  map N_of_ascii (list_ascii_of_string s).

Definition newline : N := 10.

Definition text_eqb (a b : text) : bool :=
  if list_eq_dec N.eq_dec a b then true else false.

(** [c.isspace()]: tab to carriage return, the separators 28 to 31, the
    space, the next-line control, the no-break space, and the spaces of
    the higher planes. *)
Definition is_space (c : N) : bool :=
  ((9 <=? c) && (c <=? 13) || (28 <=? c) && (c <=? 32)
   || (c =? 133) || (c =? 160) || (c =? 5760)
   || (8192 <=? c) && (c <=? 8202)
   || (c =? 8232) || (c =? 8233) || (c =? 8239) || (c =? 8287)
   || (c =? 12288))%N.

(** [s.lstrip()], [s.rstrip()] and [s.strip()] *)
Fixpoint lstrip (s : text) : text :=
  match s with
  | [] => []
  | c :: s' => if is_space c then lstrip s' else s
  end.

Fixpoint rstrip (s : text) : text :=
  match s with
  | [] => []
  | c :: s' =>
      match rstrip s' with
      | [] => if is_space c then [] else [c]
      | r => c :: r
      end
  end.

Definition strip (s : text) : text := rstrip (lstrip s).

(** [s.split(sep)] for a character [sep]: never empty. *)
Fixpoint split (sep : N) (s : text) : list text :=
  match s with
  | [] => [[]]
  | c :: s' =>
      if (c =? sep)%N then [] :: split sep s'
      else
        match split sep s' with
        | [] => [[c]]
        | piece :: pieces => (c :: piece) :: pieces
        end
  end.

(** [sep.join(pieces)] for a character [sep] *)
Fixpoint join (sep : N) (pieces : list text) : text :=
  match pieces with
  | [] => []
  | [piece] => piece
  | piece :: rest => piece ++ sep :: join sep rest
  end.

Definition mermaid_fence : text := codes "```mermaid".
Definition code_fence : text := codes "```".
Definition div_open : text :=
  codes "<div class=" ++ [34%N] ++ codes "mermaid" ++ [34%N] ++ codes ">".
Definition div_close : text := codes "</div>".

(** The loop [for line in lines] of [convert], from the value of
    [in_mermaid] when it reaches [lines]: the lines appended to
    [new_lines]. *)
Fixpoint mermaid_lines (in_mermaid : bool) (lines : list text) : list text :=
  match lines with
  | [] => []
  | line :: rest =>
      if text_eqb (strip line) mermaid_fence
      then div_open :: mermaid_lines true rest
      else if text_eqb (strip line) code_fence && in_mermaid
      then div_close :: mermaid_lines false rest
      else line :: mermaid_lines in_mermaid rest
  end.

(** [processed_text], from the text read. *)
Definition processed_text (t : text) : text :=
  join newline (mermaid_lines false (split newline t)).

End Html.

(** The value of [in_mermaid] when the loop is through [lines]. *)
Fixpoint in_mermaid_after (in_mermaid : bool) (lines : list Html.text) : bool :=
  match lines with
  | [] => in_mermaid
  | line :: rest =>
      if Html.text_eqb (Html.strip line) Html.mermaid_fence
      then in_mermaid_after true rest
      else if Html.text_eqb (Html.strip line) Html.code_fence && in_mermaid
      then in_mermaid_after false rest
      else in_mermaid_after in_mermaid rest
  end.

(** Line [i] is in a mermaid block: an earlier line opens one, and no
    line between the two is a closing fence. *)
Definition in_block (lines : list Html.text) (i : nat) : Prop :=
  exists j opening,
    (j < i)%nat
    /\ nth_error lines j = Some opening
    /\ Html.strip opening = Html.mermaid_fence
    /\ forall k line,
         (j < k < i)%nat -> nth_error lines k = Some line ->
         Html.strip line <> Html.code_fence.

(** * Properties *)

(** ** Dictionaries and lists *)

Section DictFacts.
Context {K V : Type} (eqb : K -> K -> bool).
Hypothesis eqb_eq : forall a b, eqb a b = true <-> a = b.

Lemma eqb_refl k : eqb k k = true.
Proof. now apply eqb_eq. Qed.

Lemma eqb_neq a b : a <> b -> eqb a b = false.
Proof.
  intros Hne. destruct (eqb a b) eqn:E; [|reflexivity].
  apply eqb_eq in E. contradiction.
Qed.

Lemma get_set_same k (v : V) d : get eqb k (set eqb k v d) = Some v.
Proof.
  induction d as [|[k' v'] d IH]; simpl.
  - now rewrite eqb_refl.
  - destruct (eqb k k') eqn:E; simpl; rewrite ?eqb_refl, ?E; auto.
Qed.

Lemma get_set_other k k' (v : V) d :
  k <> k' -> get eqb k' (set eqb k v d) = get eqb k' d.
Proof.
  intros Hne. induction d as [|[k0 v0] d IH]; simpl.
  - rewrite (eqb_neq k' k); auto.
  - destruct (eqb k k0) eqn:E; simpl.
    + apply eqb_eq in E. subst k0.
      now rewrite (eqb_neq k' k) by auto.
    + now rewrite IH.
Qed.

Lemma get_del_same k (d : list (K * V)) : get eqb k (del eqb k d) = None.
Proof.
  induction d as [|[k' v'] d IH]; simpl; auto.
  destruct (eqb k k') eqn:E; simpl; rewrite ?E; auto.
Qed.

Lemma get_del_other k k' (d : list (K * V)) :
  k <> k' -> get eqb k' (del eqb k d) = get eqb k' d.
Proof.
  intros Hne. induction d as [|[k0 v0] d IH]; simpl; auto.
  destruct (eqb k k0) eqn:E; simpl.
  - apply eqb_eq in E. subst k0. now rewrite (eqb_neq k' k) by auto.
  - now rewrite IH.
Qed.

Lemma mem_set_same k (v : V) d : mem eqb k (set eqb k v d) = true.
Proof. unfold mem. now rewrite get_set_same. Qed.

Lemma mem_set_other k k' (v : V) d :
  k <> k' -> mem eqb k' (set eqb k v d) = mem eqb k' d.
Proof. intros. unfold mem. now rewrite get_set_other. Qed.
End DictFacts.

Lemma key_eqb_eq a b : key_eqb a b = true <-> a = b.
Proof.
  destruct a, b; simpl; split; intros H; try congruence; try discriminate.
  - apply Z.eqb_eq in H. congruence.
  - inversion H. apply Z.eqb_refl.
  - apply String.eqb_eq in H. congruence.
  - inversion H. apply String.eqb_refl.
Qed.

Lemma kget_kset_same {V} k (v : V) (d : list (key * V)) : kget k (kset k v d) = Some v.
Proof. apply get_set_same, key_eqb_eq. Qed.

Lemma kget_kset_other {V} k k' (v : V) (d : list (key * V)) :
  k <> k' -> kget k' (kset k v d) = kget k' d.
Proof. apply get_set_other, key_eqb_eq. Qed.

Lemma dget_dset_same k v (d : dict) : dget k (dset k v d) = Some v.
Proof. apply get_set_same, String.eqb_eq. Qed.

Lemma dget_dset_other k k' v (d : dict) :
  k <> k' -> dget k' (dset k v d) = dget k' d.
Proof. apply get_set_other, String.eqb_eq. Qed.

Lemma dget_ddel_same k (d : dict) : dget k (ddel k d) = None.
Proof. apply get_del_same. Qed.

Lemma dget_ddel_other k k' (d : dict) : k <> k' -> dget k' (ddel k d) = dget k' d.
Proof. apply get_del_other, String.eqb_eq. Qed.

Lemma key_eq_dec (a b : key) : {a = b} + {a <> b}.
Proof.
  destruct (key_eqb a b) eqn:E.
  - left. now apply key_eqb_eq.
  - right. intros ->. rewrite (proj2 (key_eqb_eq b b) eq_refl) in E.
    discriminate.
Qed.

(** [l[-n:]] *)

Lemma last_n_short {A} n (l : list A) :
  (List.length l <= n)%nat -> last_n n l = l.
Proof.
  intros H. unfold last_n.
  replace (List.length l - n)%nat with 0%nat by lia. reflexivity.
Qed.

Lemma last_n_length {A} n (l : list A) :
  List.length (last_n n l) = Nat.min n (List.length l).
Proof. unfold last_n. rewrite length_skipn. lia. Qed.

Lemma last_n_suffix {A} n (l : list A) :
  exists evicted, l = evicted ++ last_n n l.
Proof.
  exists (firstn (List.length l - n) l). unfold last_n.
  now rewrite firstn_skipn.
Qed.

(** ** The monad *)

Lemma exec_bind {S A B} (c : M S A) (f : A -> M S B) s :
  exec (bind c f) s =
  match c s with
  | (Ok a, s') => exec (f a) s'
  | (Raised _, s') => s'
  end.
Proof. unfold exec, bind. now destruct (c s) as [[a|e] s']. Qed.

(** What a continuation leaves alone, the whole computation leaves as its
    first part left it. *)
Lemma exec_bind_frame {S A B X} (proj : S -> X) (c : M S A) (f : A -> M S B) :
  (forall a s, proj (exec (f a) s) = proj s) ->
  forall s, proj (exec (bind c f) s) = proj (exec c s).
Proof.
  intros Hf s. rewrite exec_bind. unfold exec at 2.
  destruct (c s) as [[a|e] s']; simpl; auto.
Qed.

(** ** The broadcast sweep *)

Lemma serial_send_to_all is_closed m clients : forall disconnected s,
  Serial.send_to_all is_closed m clients disconnected s =
  (Ok (rev (filter is_closed clients) ++ disconnected),
   Serial.set_outbox
     (Serial.outbox s
      ++ map (fun ws => Serial.Sent ws m)
           (filter (fun ws => negb (is_closed ws)) clients)) s).
Proof.
  induction clients as [|ws rest IH]; intros disconnected s; simpl.
  - unfold ret. rewrite app_nil_r. now destruct s.
  - destruct (is_closed ws); simpl.
    + rewrite IH. now rewrite <- app_assoc.
    + unfold bind, modify. rewrite IH. unfold Serial.push_outbox. simpl.
      now rewrite <- app_assoc.
Qed.

Lemma simulation_send_to_all is_closed m clients : forall disconnected s,
  Simulation.send_to_all is_closed m clients disconnected s =
  (Ok (rev (filter is_closed clients) ++ disconnected),
   Simulation.set_outbox
     (Simulation.outbox s
      ++ map (fun ws => Simulation.Sent ws m)
           (filter (fun ws => negb (is_closed ws)) clients)) s).
Proof.
  induction clients as [|ws rest IH]; intros disconnected s; simpl.
  - unfold ret. rewrite app_nil_r. now destruct s.
  - destruct (is_closed ws); simpl.
    + rewrite IH. now rewrite <- app_assoc.
    + unfold bind, modify. rewrite IH. unfold Simulation.push_outbox. simpl.
      now rewrite <- app_assoc.
Qed.

Lemma existsb_eqb_in ws l : existsb (Nat.eqb ws) l = true <-> In ws l.
Proof.
  rewrite existsb_exists. split.
  - intros [x [Hin Heq]]. apply Nat.eqb_eq in Heq. now subst.
  - intros Hin. exists ws. split; auto. apply Nat.eqb_refl.
Qed.

(** Removing the connections found closed keeps exactly the open ones. *)
Lemma difference_update_closed is_closed clients :
  filter
    (fun ws => negb (existsb (Nat.eqb ws) (rev (filter is_closed clients) ++ [])))
    clients
  = filter (fun ws => negb (is_closed ws)) clients.
Proof.
  rewrite app_nil_r. apply filter_ext_in. intros ws Hin. f_equal.
  destruct (is_closed ws) eqn:E.
  - apply existsb_eqb_in. rewrite <- in_rev. apply filter_In. auto.
  - destruct (existsb (Nat.eqb ws) (rev (filter is_closed clients))) eqn:E';
      auto.
    apply existsb_eqb_in in E'. rewrite <- in_rev in E'.
    apply filter_In in E'. destruct E' as [_ E']. congruence.
Qed.

(** ** The topology cache *)

Lemma serial_get_topology_data_hit s c :
  Serial.topology_cache_dirty s = false ->
  Serial.topology_cache s = Some c ->
  Serial.get_topology_data s =
  (let c' := {| Serial.nodes := Serial.nodes c;
                Serial.edges := Serial.edges c;
                Serial.historyCount := List.length (Serial.topology_history s) |}
   in (Ok c', Serial.set_topology_cache (Some c') s)).
Proof.
  intros Hd Hc. unfold Serial.get_topology_data, bind, gets, modify, ret.
  now rewrite Hd, Hc.
Qed.

Lemma serial_get_topology_data_miss s :
  Serial.topology_cache_dirty s = true \/ Serial.topology_cache s = None ->
  Serial.get_topology_data s =
  match Serial.build_edges (Serial.network_topology s) with
  | None => (Raised TypeError, s)
  | Some es =>
      let c := {| Serial.nodes := map snd (Serial.network_topology s);
                  Serial.edges := es;
                  Serial.historyCount := List.length (Serial.topology_history s) |}
      in (Ok c,
          Serial.set_topology_cache_dirty false
            (Serial.set_topology_cache (Some c) s))
  end.
Proof.
  intros H. unfold Serial.get_topology_data, bind, gets, modify, ret, raise.
  destruct (Serial.topology_cache_dirty s) eqn:Hd;
    destruct (Serial.topology_cache s) eqn:Hc;
    try (destruct H; congruence);
    destruct (Serial.build_edges (Serial.network_topology s)); reflexivity.
Qed.

Lemma simulation_get_topology_data_hit s c :
  Simulation.topology_cache_dirty s = false ->
  Simulation.topology_cache s = Some c ->
  Simulation.get_topology_data s = (Ok c, s).
Proof.
  intros Hd Hc. unfold Simulation.get_topology_data, bind, gets, modify, ret.
  now rewrite Hd, Hc.
Qed.

Lemma simulation_get_topology_data_miss s :
  Simulation.topology_cache_dirty s = true
  \/ Simulation.topology_cache s = None ->
  Simulation.get_topology_data s =
  match Simulation.build_edges (Simulation.network_topology s) with
  | None => (Raised TypeError, s)
  | Some es =>
      let c := {| Simulation.nodes := map snd (Simulation.network_topology s);
                  Simulation.edges := es;
                  Simulation.packetEvents :=
                    last_n 20 (Simulation.packet_events s) |}
      in (Ok c,
          Simulation.set_topology_cache_dirty false
            (Simulation.set_topology_cache (Some c) s))
  end.
Proof.
  intros H.
  unfold Simulation.get_topology_data, bind, gets, modify, ret, raise.
  destruct (Simulation.topology_cache_dirty s) eqn:Hd;
    destruct (Simulation.topology_cache s) eqn:Hc;
    try (destruct H; congruence);
    destruct (Simulation.build_edges (Simulation.network_topology s));
    reflexivity.
Qed.

(** A call that returns leaves a clean cache holding what it returned,
    with an up-to-date history count. *)
Lemma serial_get_topology_data_post s t s1 :
  Serial.get_topology_data s = (Ok t, s1) ->
  Serial.topology_cache_dirty s1 = false
  /\ Serial.topology_cache s1 = Some t
  /\ Serial.historyCount t = List.length (Serial.topology_history s1).
Proof.
  intros H.
  destruct (Serial.topology_cache_dirty s) eqn:Hd.
  - rewrite serial_get_topology_data_miss in H by auto.
    destruct (Serial.build_edges (Serial.network_topology s));
      inversion H; subst; simpl; auto.
  - destruct (Serial.topology_cache s) as [c|] eqn:Hc.
    + rewrite (serial_get_topology_data_hit s c) in H by auto.
      inversion H; subst; simpl; auto.
    + rewrite serial_get_topology_data_miss in H by auto.
      destruct (Serial.build_edges (Serial.network_topology s));
        inversion H; subst; simpl; auto.
Qed.

Lemma simulation_get_topology_data_post s t s1 :
  Simulation.get_topology_data s = (Ok t, s1) ->
  Simulation.topology_cache_dirty s1 = false
  /\ Simulation.topology_cache s1 = Some t.
Proof.
  intros H.
  destruct (Simulation.topology_cache_dirty s) eqn:Hd.
  - rewrite simulation_get_topology_data_miss in H by auto.
    destruct (Simulation.build_edges (Simulation.network_topology s));
      inversion H; subst; simpl; auto.
  - destruct (Simulation.topology_cache s) as [c|] eqn:Hc.
    + rewrite (simulation_get_topology_data_hit s c) in H by auto.
      inversion H; subst; auto.
    + rewrite simulation_get_topology_data_miss in H by auto.
      destruct (Simulation.build_edges (Simulation.network_topology s));
        inversion H; subst; simpl; auto.
Qed.

Lemma serial_get_topology_data_again s t s1 :
  Serial.get_topology_data s = (Ok t, s1) ->
  Serial.get_topology_data s1 = (Ok t, s1).
Proof.
  intros H. apply serial_get_topology_data_post in H.
  destruct H as (Hd & Hc & Hn).
  rewrite (serial_get_topology_data_hit s1 t) by auto. simpl.
  rewrite <- Hn. destruct t; simpl.
  destruct s1; simpl in *. now rewrite Hc.
Qed.

Lemma simulation_get_topology_data_again s t s1 :
  Simulation.get_topology_data s = (Ok t, s1) ->
  Simulation.get_topology_data s1 = (Ok t, s1).
Proof.
  intros H. apply simulation_get_topology_data_post in H.
  destruct H as (Hd & Hc).
  now apply simulation_get_topology_data_hit.
Qed.

(** C5.  Once [get_topology_data()] has returned a view, any number of
    further calls with nothing else happening in between return that same
    view (the same nodes, the same edges) and leave the globals as the
    first call left them.  This holds in both bridges. *)
Theorem get_topology_data_idempotent :
  (forall s t s1,
      Serial.get_topology_data s = (Ok t, s1) ->
      forall n,
        Nat.iter n (exec Serial.get_topology_data) s1 = s1
        /\ Serial.get_topology_data
             (Nat.iter n (exec Serial.get_topology_data) s1) = (Ok t, s1))
  /\
  (forall s t s1,
      Simulation.get_topology_data s = (Ok t, s1) ->
      forall n,
        Nat.iter n (exec Simulation.get_topology_data) s1 = s1
        /\ Simulation.get_topology_data
             (Nat.iter n (exec Simulation.get_topology_data) s1) = (Ok t, s1)).
Proof.
  split; intros s t s1 H n.
  - assert (Hs : Nat.iter n (exec Serial.get_topology_data) s1 = s1).
    { induction n; simpl; auto. rewrite IHn. unfold exec.
      now rewrite (serial_get_topology_data_again _ _ _ H). }
    rewrite Hs. split; auto.
    now apply serial_get_topology_data_again with s.
  - assert (Hs : Nat.iter n (exec Simulation.get_topology_data) s1 = s1).
    { induction n; simpl; auto. rewrite IHn. unfold exec.
      now rewrite (simulation_get_topology_data_again _ _ _ H). }
    rewrite Hs. split; auto.
    now apply simulation_get_topology_data_again with s.
Qed.

Lemma serial_broadcast_serial_line_spec line is_closed s :
  let s' := exec (Serial.broadcast_serial_line line is_closed) s in
  Serial.websocket_clients s'
  = open_clients is_closed (Serial.websocket_clients s)
  /\ Serial.outbox s'
     = Serial.outbox s
       ++ map (fun ws => Serial.Sent ws (Serial.MsgSerial line))
            (open_clients is_closed (Serial.websocket_clients s)).
Proof.
  unfold Serial.broadcast_serial_line, exec, bind, gets, modify, ret.
  destruct (Serial.websocket_clients s) as [|ws rest] eqn:Hc; cbv beta iota.
  - simpl. rewrite Hc. now rewrite app_nil_r.
  - rewrite <- Hc. rewrite serial_send_to_all. simpl.
    unfold Serial.difference_update.
    now rewrite difference_update_closed.
Qed.

Lemma serial_broadcast_update_spec is_closed s t s1 :
  Serial.get_topology_data s = (Ok t, s1) ->
  let s' := exec (Serial.broadcast_update is_closed) s in
  let m := Serial.MsgUpdate (Serial.gateway_data s) (Serial.nodes_data s)
             (Serial.mesh_stats s) t in
  Serial.websocket_clients s'
  = open_clients is_closed (Serial.websocket_clients s)
  /\ Serial.outbox s'
     = Serial.outbox s
       ++ map (fun ws => Serial.Sent ws m)
            (open_clients is_closed (Serial.websocket_clients s)).
Proof.
  intros Ht.
  assert (Hframe : Serial.websocket_clients s1 = Serial.websocket_clients s
                   /\ Serial.outbox s1 = Serial.outbox s).
  { destruct (Serial.topology_cache_dirty s) eqn:Hd.
    - rewrite serial_get_topology_data_miss in Ht by auto.
      destruct (Serial.build_edges (Serial.network_topology s));
        inversion Ht; subst; simpl; auto.
    - destruct (Serial.topology_cache s) as [c|] eqn:Hc.
      + rewrite (serial_get_topology_data_hit s c) in Ht by auto.
        inversion Ht; subst; simpl; auto.
      + rewrite serial_get_topology_data_miss in Ht by auto.
        destruct (Serial.build_edges (Serial.network_topology s));
          inversion Ht; subst; simpl; auto. }
  destruct Hframe as [Hc1 Ho1].
  unfold Serial.broadcast_update, exec, bind, gets, modify, ret.
  destruct (Serial.websocket_clients s) as [|ws rest] eqn:Hc; cbv beta iota.
  - simpl. rewrite Hc. now rewrite app_nil_r.
  - rewrite <- Hc. rewrite Ht. rewrite serial_send_to_all. simpl.
    rewrite Hc1, <- Hc, Ho1. unfold Serial.difference_update.
    now rewrite difference_update_closed.
Qed.

Lemma simulation_broadcast_serial_line_spec line is_closed s :
  let s' := exec (Simulation.broadcast_serial_line line is_closed) s in
  Simulation.websocket_clients s'
  = open_clients is_closed (Simulation.websocket_clients s)
  /\ Simulation.outbox s'
     = Simulation.outbox s
       ++ map (fun ws => Simulation.Sent ws (Simulation.MsgSerial line))
            (open_clients is_closed (Simulation.websocket_clients s)).
Proof.
  unfold Simulation.broadcast_serial_line, exec, bind, gets, modify, ret.
  destruct (Simulation.websocket_clients s) as [|ws rest] eqn:Hc; cbv beta iota.
  - simpl. rewrite Hc. now rewrite app_nil_r.
  - rewrite <- Hc. rewrite simulation_send_to_all. simpl.
    unfold Simulation.difference_update.
    now rewrite difference_update_closed.
Qed.

Lemma simulation_get_topology_data_frame s t s1 :
  Simulation.get_topology_data s = (Ok t, s1) ->
  Simulation.websocket_clients s1 = Simulation.websocket_clients s
  /\ Simulation.outbox s1 = Simulation.outbox s.
Proof.
  intros Ht.
  destruct (Simulation.topology_cache_dirty s) eqn:Hd.
  - rewrite simulation_get_topology_data_miss in Ht by auto.
    destruct (Simulation.build_edges (Simulation.network_topology s));
      inversion Ht; subst; simpl; auto.
  - destruct (Simulation.topology_cache s) as [c|] eqn:Hc.
    + rewrite (simulation_get_topology_data_hit s c) in Ht by auto.
      inversion Ht; subst; simpl; auto.
    + rewrite simulation_get_topology_data_miss in Ht by auto.
      destruct (Simulation.build_edges (Simulation.network_topology s));
        inversion Ht; subst; simpl; auto.
Qed.

Lemma simulation_broadcast_update_spec is_closed s t s1 :
  Simulation.get_topology_data s = (Ok t, s1) ->
  let s' := exec (Simulation.broadcast_update is_closed) s in
  let m := Simulation.MsgUpdate (Simulation.gateway_data s)
             (Simulation.nodes_data s) (Simulation.mesh_stats s) t in
  Simulation.websocket_clients s'
  = open_clients is_closed (Simulation.websocket_clients s)
  /\ Simulation.outbox s'
     = Simulation.outbox s
       ++ map (fun ws => Simulation.Sent ws m)
            (open_clients is_closed (Simulation.websocket_clients s)).
Proof.
  intros Ht.
  destruct (simulation_get_topology_data_frame _ _ _ Ht) as [Hc1 Ho1].
  unfold Simulation.broadcast_update, exec, bind, gets, modify, ret.
  destruct (Simulation.websocket_clients s) as [|ws rest] eqn:Hc; cbv beta iota.
  - simpl. rewrite Hc. now rewrite app_nil_r.
  - rewrite <- Hc. rewrite Ht. rewrite simulation_send_to_all. simpl.
    rewrite Hc1, <- Hc, Ho1. unfold Simulation.difference_update.
    now rewrite difference_update_closed.
Qed.

(** After a reading of node 2 the first call returns; three more calls
    later the next call returns the same view and the same globals. *)
Lemma get_topology_data_idempotent_witness :
  let s0 :=
    Serial.step Serial.init
      (Serial.MeshData reading_of_node_2 (serial_world_at 1000 Serial.HttpOk))
  in
  let u0 :=
    Simulation.step Simulation.init
      (Simulation.Event reading_of_node_2 (sim_world_at 1000)) in
  (returned Serial.get_topology_data s0 = true
   /\ Serial.get_topology_data
        (Nat.iter 3%nat (exec Serial.get_topology_data)
           (exec Serial.get_topology_data s0))
      = Serial.get_topology_data s0)
  /\ (returned Simulation.get_topology_data u0 = true
      /\ Simulation.get_topology_data
           (Nat.iter 3%nat (exec Simulation.get_topology_data)
              (exec Simulation.get_topology_data u0))
         = Simulation.get_topology_data u0).
Proof.
  intros s0 u0. split; split.
  - reflexivity.
  - exact (proj2 (proj1 get_topology_data_idempotent s0 _ _ eq_refl 3%nat)).
  - reflexivity.
  - exact (proj2 (proj2 get_topology_data_idempotent u0 _ _ eq_refl 3%nat)).
Defined.

(** C8.  A broadcast sweep over any set of registered connections, any of
    which may be closed: the message goes to every connection that is not
    closed, whatever happened with the others, and the connections left
    registered are exactly those that were not closed.  The sweep starts
    once the message has been built, that is once [get_topology_data()]
    has returned. *)
Theorem broadcast_update_isolates_failures :
  (forall s is_closed t s1,
      Serial.get_topology_data s = (Ok t, s1) ->
      let s' := exec (Serial.broadcast_update is_closed) s in
      let m := Serial.MsgUpdate (Serial.gateway_data s) (Serial.nodes_data s)
                 (Serial.mesh_stats s) t in
      Serial.websocket_clients s'
      = open_clients is_closed (Serial.websocket_clients s)
      /\ Serial.outbox s'
         = Serial.outbox s
           ++ map (fun ws => Serial.Sent ws m)
                (open_clients is_closed (Serial.websocket_clients s)))
  /\
  (forall s is_closed t s1,
      Simulation.get_topology_data s = (Ok t, s1) ->
      let s' := exec (Simulation.broadcast_update is_closed) s in
      let m := Simulation.MsgUpdate (Simulation.gateway_data s)
                 (Simulation.nodes_data s) (Simulation.mesh_stats s) t in
      Simulation.websocket_clients s'
      = open_clients is_closed (Simulation.websocket_clients s)
      /\ Simulation.outbox s'
         = Simulation.outbox s
           ++ map (fun ws => Simulation.Sent ws m)
                (open_clients is_closed (Simulation.websocket_clients s))).
Proof.
  split; intros s is_closed t s1 Ht.
  - exact (serial_broadcast_update_spec is_closed s t s1 Ht).
  - exact (simulation_broadcast_update_spec is_closed s t s1 Ht).
Qed.

(** Three connections, the second one closed: the first and the third get
    the update and stay registered. *)
Lemma broadcast_update_isolates_failures_witness :
  let empty_serial :=
    {| Serial.nodes := []; Serial.edges := []; Serial.historyCount := 0 |} in
  let empty_simulation :=
    {| Simulation.nodes := []; Simulation.edges := [];
       Simulation.packetEvents := [] |} in
  let s := Serial.set_websocket_clients [1; 2; 3]%nat Serial.init in
  let s' := exec (Serial.broadcast_update (Nat.eqb 2)) s in
  let u := Simulation.set_websocket_clients [1; 2; 3]%nat Simulation.init in
  let u' := exec (Simulation.broadcast_update (Nat.eqb 2)) u in
  (Serial.websocket_clients s' = [1; 3]%nat
   /\ Serial.outbox s'
      = [ Serial.Sent 1%nat
            (Serial.MsgUpdate [] [] [] empty_serial);
          Serial.Sent 3%nat
            (Serial.MsgUpdate [] [] [] empty_serial) ])
  /\
  (Simulation.websocket_clients u' = [1; 3]%nat
   /\ Simulation.outbox u'
      = [ Simulation.Sent 1%nat
            (Simulation.MsgUpdate [] [] (Simulation.mesh_stats u)
               empty_simulation);
          Simulation.Sent 3%nat
            (Simulation.MsgUpdate [] [] (Simulation.mesh_stats u)
               empty_simulation) ]).
Proof.
  split.
  - exact (proj1 broadcast_update_isolates_failures
             (Serial.set_websocket_clients [1; 2; 3]%nat Serial.init)
             (Nat.eqb 2) _ _ eq_refl).
  - exact (proj2 broadcast_update_isolates_failures
             (Simulation.set_websocket_clients [1; 2; 3]%nat Simulation.init)
             (Nat.eqb 2) _ _ eq_refl).
Defined.

Lemma serial_update_topology_eq nid data now s :
  Serial.update_topology nid data now s =
  (Ok tt,
   Serial.set_network_topology
     (kset (key_of nid) (Serial.topology_entry nid data now)
        (Serial.network_topology s))
     (Serial.set_topology_cache_dirty true s)).
Proof. reflexivity. Qed.

Lemma serial_save_topology_snapshot_eq now s :
  Serial.save_topology_snapshot now s =
  (Ok tt,
   if now - Serial.last_topology_snapshot_time s <? 30 then s
   else
     Serial.set_topology_history
       (last_n Serial.MAX_TOPOLOGY_HISTORY
          (Serial.topology_history s
           ++ [{| Serial.timestamp := now;
                  Serial.snap_nodes := Serial.network_topology s |}]))
       (Serial.set_last_topology_snapshot_time now s)).
Proof.
  unfold Serial.save_topology_snapshot, bind, gets, modify, ret.
  destruct (now - Serial.last_topology_snapshot_time s <? 30); [reflexivity|].
  cbn [Serial.topology_history Serial.network_topology
       Serial.set_last_topology_snapshot_time Serial.set_topology_history].
  destruct (Nat.ltb_spec Serial.MAX_TOPOLOGY_HISTORY
              (List.length
                 (Serial.topology_history s
                  ++ [{| Serial.timestamp := now;
                         Serial.snap_nodes := Serial.network_topology s |}]))).
  - reflexivity.
  - rewrite last_n_short by assumption. reflexivity.
Qed.

Lemma serial_upload_to_thingspeak_eq nid data now resp s :
  Serial.upload_to_thingspeak nid data now resp s =
  (Ok tt,
   if negb (existsb (key_eqb (key_of nid)) Serial.THINGSPEAK_API_KEYS) then s
   else if now - kget_or (key_of nid) 0 (Serial.last_thingspeak_upload s)
           <? Serial.THINGSPEAK_UPDATE_INTERVAL then s
   else
     let s1 := Serial.push_outbox
                 (Serial.Uploaded (key_of nid) now (Serial.upload_params data)
                    resp) s in
     match resp with
     | Serial.HttpOk =>
         Serial.set_last_thingspeak_upload
           (kset (key_of nid) now (Serial.last_thingspeak_upload s)) s1
     | _ => s1
     end).
Proof.
  unfold Serial.upload_to_thingspeak, bind, gets, modify, ret.
  destruct (negb (existsb (key_eqb (key_of nid)) Serial.THINGSPEAK_API_KEYS));
    [reflexivity|].
  destruct (now - kget_or (key_of nid) 0 (Serial.last_thingspeak_upload s)
            <? Serial.THINGSPEAK_UPDATE_INTERVAL); [reflexivity|].
  destruct resp; reflexivity.
Qed.

Lemma serial_count_message_eq nid now s :
  Serial.count_message nid now s =
  (Ok tt,
   let counts := Serial.node_message_count s in
   let counts := if kmem (key_of nid) counts then counts
                 else kset (key_of nid) 0 counts in
   Serial.set_node_message_count
     (kset (key_of nid) (kget_or (key_of nid) 0 counts + 1) counts)
     (Serial.set_node_last_seen
        (kset (key_of nid) now (Serial.node_last_seen s)) s)).
Proof. reflexivity. Qed.

Lemma exec_bind_ok {S A B} (c : M S A) (f : A -> M S B) a s' s :
  c s = (Ok a, s') -> exec (bind c f) s = exec (f a) s'.
Proof. intros H. rewrite exec_bind. now rewrite H. Qed.

Lemma serial_get_topology_data_stores s :
  serial_stores (exec Serial.get_topology_data s) = serial_stores s.
Proof.
  unfold exec, Serial.get_topology_data, bind, gets, modify, ret, raise.
  destruct (Serial.topology_cache_dirty s), (Serial.topology_cache s);
    try destruct (Serial.build_edges (Serial.network_topology s));
    reflexivity.
Qed.

Lemma filter_is_upload_sent (m : Serial.message) l :
  filter is_upload (map (fun ws => Serial.Sent ws m) l) = [].
Proof. induction l; simpl; auto. Qed.

Lemma serial_broadcast_update_stores c s :
  serial_stores (exec (Serial.broadcast_update c) s) = serial_stores s.
Proof.
  unfold Serial.broadcast_update.
  unfold exec, bind at 1, gets at 1.
  destruct (Serial.websocket_clients s) eqn:Hc; [reflexivity|].
  rewrite <- Hc.
  unfold bind, gets, modify.
  pose proof (serial_get_topology_data_stores s) as H. unfold exec in H.
  destruct (Serial.get_topology_data s) as [[t|e] s1]; simpl in *; auto.
  rewrite serial_send_to_all. simpl. rewrite <- H.
  unfold serial_stores, serial_uploads, serial_counters, serial_history. simpl.
  rewrite filter_app, filter_is_upload_sent, app_nil_r. reflexivity.
Qed.

Lemma serial_broadcast_serial_line_stores line c s :
  serial_stores (exec (Serial.broadcast_serial_line line c) s) = serial_stores s.
Proof.
  unfold Serial.broadcast_serial_line.
  unfold exec, bind at 1, gets at 1.
  destruct (Serial.websocket_clients s) eqn:Hc; [reflexivity|].
  rewrite <- Hc.
  unfold bind, gets, modify.
  rewrite serial_send_to_all. simpl.
  unfold serial_stores, serial_uploads, serial_counters, serial_history. simpl.
  rewrite filter_app, filter_is_upload_sent, app_nil_r. reflexivity.
Qed.

Lemma serial_process_mesh_data_stored data w nid :
  serial_stored_node data = Some nid ->
  forall s,
    serial_stores (exec (Serial.process_mesh_data data w) s)
    = serial_stores (exec (Serial.store_node_data nid data w) s).
Proof.
  intros H s. unfold Serial.process_mesh_data.
  rewrite (exec_bind_frame serial_stores)
    by (intros; apply serial_broadcast_update_stores).
  unfold serial_stored_node in H.
  destruct (py_eq (dget_or "type" (VStr "unknown") data) (SStr "node_data"));
    [|discriminate].
  destruct (truthy (dget_none "nodeId" data)); [|discriminate].
  destruct (dget_none "nodeId" data); inversion H; subst. reflexivity.
Qed.

Lemma serial_process_mesh_data_dropped data w :
  serial_stored_node data = None ->
  forall s, serial_stores (exec (Serial.process_mesh_data data w) s) = serial_stores s.
Proof.
  intros H s. unfold Serial.process_mesh_data.
  rewrite (exec_bind_frame serial_stores)
    by (intros; apply serial_broadcast_update_stores).
  unfold serial_stored_node in H.
  destruct (py_eq (dget_or "type" (VStr "unknown") data) (SStr "node_data")).
  - destruct (truthy (dget_none "nodeId" data)); [|reflexivity].
    destruct (dget_none "nodeId" data); try discriminate; reflexivity.
  - destruct (py_eq _ (SStr "gateway_status")); [reflexivity|].
    destruct (py_eq _ (SStr "mesh_stats")); reflexivity.
Qed.

Lemma serial_store_node_data_eq nid data w s :
  Serial.store_node_data nid data w s =
  (Ok tt,
   let s1 := exec (Serial.count_message nid (Serial.t_ingest w)) s in
   let s2 :=
     Serial.set_nodes_data
       (kset (key_of nid)
          (Serial.node_record data (Serial.t_ingest w)
             (kget_or (key_of nid) 0 (Serial.node_message_count s1)))
          (Serial.nodes_data s1)) s1 in
   let s3 := exec (Serial.update_topology nid data (Serial.t_topology w)) s2 in
   let s4 := exec (Serial.save_topology_snapshot (Serial.t_snapshot w)) s3 in
   exec (serial_upload_step nid data w) s4).
Proof.
  unfold Serial.store_node_data, serial_upload_step.
  unfold bind at 1. rewrite serial_count_message_eq.
  unfold bind at 1, gets at 1.
  unfold bind at 1, modify at 1.
  unfold bind at 1. rewrite serial_update_topology_eq.
  unfold bind at 1. rewrite serial_save_topology_snapshot_eq.
  unfold exec. rewrite serial_count_message_eq.
  rewrite serial_update_topology_eq.
  rewrite serial_save_topology_snapshot_eq.
  cbv zeta. cbn [snd].
  destruct (Serial.THINGSPEAK_ENABLED && Serial.requests w).
  - rewrite !serial_upload_to_thingspeak_eq. reflexivity.
  - reflexivity.
Qed.

Lemma serial_update_topology_frame nid data now s :
  let s' := exec (Serial.update_topology nid data now) s in
  serial_counters s' = serial_counters s /\ serial_history s' = serial_history s
  /\ serial_uploads s' = serial_uploads s.
Proof. repeat split; reflexivity. Qed.

Lemma serial_save_topology_snapshot_frame now s :
  let s' := exec (Serial.save_topology_snapshot now) s in
  serial_counters s' = serial_counters s
  /\ Serial.network_topology s' = Serial.network_topology s
  /\ serial_uploads s' = serial_uploads s
  /\ Serial.topology_cache_dirty s' = Serial.topology_cache_dirty s.
Proof.
  unfold exec. rewrite serial_save_topology_snapshot_eq. cbn [snd].
  destruct (now - Serial.last_topology_snapshot_time s <? 30);
    repeat split; reflexivity.
Qed.

Lemma serial_upload_step_frame nid data w s :
  let s' := exec (serial_upload_step nid data w) s in
  serial_counters s' = serial_counters s
  /\ Serial.network_topology s' = Serial.network_topology s
  /\ serial_history s' = serial_history s
  /\ Serial.topology_cache_dirty s' = Serial.topology_cache_dirty s.
Proof.
  unfold exec, serial_upload_step.
  destruct (Serial.THINGSPEAK_ENABLED && Serial.requests w);
    [|repeat split; reflexivity].
  rewrite serial_upload_to_thingspeak_eq. cbn [snd].
  destruct (negb _); [repeat split; reflexivity|].
  destruct (_ <? _); [repeat split; reflexivity|].
  destruct (Serial.response w); repeat split; reflexivity.
Qed.

Lemma kget_or_kset_same {V} k (v dflt : V) (d : list (key * V)) :
  kget_or k dflt (kset k v d) = v.
Proof. unfold get_or. now rewrite kget_kset_same. Qed.

Lemma kget_or_kset_other {V} k k' (v dflt : V) (d : list (key * V)) :
  k <> k' -> kget_or k' dflt (kset k v d) = kget_or k' dflt d.
Proof. intros. unfold get_or. now rewrite kget_kset_other. Qed.

(** [if k not in counts: counts[k] = 0] changes no [counts.get(k', 0)]. *)
Lemma kget_or_zero_init k k' (counts : list (key * Z)) :
  kget_or k' 0 (if kmem k counts then counts else kset k 0 counts)
  = kget_or k' 0 counts.
Proof.
  destruct (kmem k counts) eqn:Hm; [reflexivity|].
  destruct (key_eq_dec k k') as [<-|Hne].
  - rewrite kget_or_kset_same. unfold mem in Hm. unfold get_or.
    now destruct (kget k counts).
  - now apply kget_or_kset_other.
Qed.

Lemma kget_zero_init k k' (counts : list (key * Z)) :
  k <> k' ->
  kget k' (if kmem k counts then counts else kset k 0 counts)
  = kget k' counts.
Proof.
  intros Hne. destruct (kmem k counts); [reflexivity|].
  now apply kget_kset_other.
Qed.

(** What [store_node_data] does to the stores of node state. *)
Lemma serial_store_node_data_counters nid data w s :
  let k := key_of nid in
  let count := kget_or k 0 (Serial.node_message_count s) + 1 in
  let s' := exec (Serial.store_node_data nid data w) s in
  Serial.node_last_seen s' = kset k (Serial.t_ingest w) (Serial.node_last_seen s)
  /\ kget k (Serial.node_message_count s') = Some count
  /\ (forall k', k <> k' ->
        kget k' (Serial.node_message_count s')
        = kget k' (Serial.node_message_count s))
  /\ Serial.nodes_data s'
     = kset k (Serial.node_record data (Serial.t_ingest w) count)
         (Serial.nodes_data s).
Proof.
  intros k count s'. subst s' count k.
  replace (exec (Serial.store_node_data nid data w) s)
    with (snd (Serial.store_node_data nid data w s)) by reflexivity.
  rewrite serial_store_node_data_eq. cbv zeta. cbn [snd].
  set (s1 := exec (Serial.count_message nid (Serial.t_ingest w)) s).
  set (s2 := Serial.set_nodes_data _ s1).
  set (s3 := exec (Serial.update_topology nid data (Serial.t_topology w)) s2).
  set (s4 := exec (Serial.save_topology_snapshot (Serial.t_snapshot w)) s3).
  destruct (serial_upload_step_frame nid data w s4) as (H5 & _).
  destruct (serial_save_topology_snapshot_frame (Serial.t_snapshot w) s3)
    as (H4 & _).
  destruct (serial_update_topology_frame nid data (Serial.t_topology w) s2)
    as (H3 & _).
  cbv zeta in H5, H4, H3. fold s3 in H4, H3. fold s4 in H4, H5.
  assert (Hc : serial_counters (exec (serial_upload_step nid data w) s4) = serial_counters s2)
    by congruence.
  unfold serial_counters in Hc. injection Hc as Hnd Hls Hmc.
  rewrite Hnd, Hls, Hmc. clear Hnd Hls Hmc H5 H4 H3.
  subst s2 s1.
  cbn [Serial.nodes_data Serial.node_last_seen Serial.node_message_count
       Serial.set_nodes_data].
  rewrite kget_or_kset_same, kget_or_zero_init.
  split; [reflexivity|].
  split; [apply kget_kset_same|].
  split; [|reflexivity].
  intros k' Hne. rewrite kget_kset_other by assumption.
  now apply kget_zero_init.
Qed.

Ltac serial_store_chain nid data w s :=
  replace (exec (Serial.store_node_data nid data w) s)
    with (snd (Serial.store_node_data nid data w s)) by reflexivity;
  rewrite serial_store_node_data_eq; cbv zeta; cbn [snd];
  set (s1 := exec (Serial.count_message nid (Serial.t_ingest w)) s);
  set (s2 := Serial.set_nodes_data _ s1);
  set (s3 := exec (Serial.update_topology nid data (Serial.t_topology w)) s2);
  set (s4 := exec (Serial.save_topology_snapshot (Serial.t_snapshot w)) s3).

Lemma serial_store_node_data_topology nid data w s :
  let s' := exec (Serial.store_node_data nid data w) s in
  Serial.network_topology s'
  = kset (key_of nid) (Serial.topology_entry nid data (Serial.t_topology w))
      (Serial.network_topology s)
  /\ Serial.topology_cache_dirty s' = true.
Proof.
  intros s'. subst s'. serial_store_chain nid data w s.
  destruct (serial_upload_step_frame nid data w s4) as (_ & H5 & _ & H5').
  destruct (serial_save_topology_snapshot_frame (Serial.t_snapshot w) s3)
    as (_ & H4 & _ & H4').
  cbv zeta in H5, H5', H4, H4'. fold s4 in H4, H4'.
  rewrite H5, H5', H4, H4'. split; reflexivity.
Qed.

Lemma serial_store_node_data_history nid data w s :
  let s' := exec (Serial.store_node_data nid data w) s in
  serial_history s'
  = if Serial.t_snapshot w - Serial.last_topology_snapshot_time s <? 30
    then serial_history s
    else (last_n Serial.MAX_TOPOLOGY_HISTORY
            (Serial.topology_history s
             ++ [{| Serial.timestamp := Serial.t_snapshot w;
                    Serial.snap_nodes := Serial.network_topology s' |}]),
          Serial.t_snapshot w).
Proof.
  intros s'.
  destruct (serial_store_node_data_topology nid data w s) as [Ht _].
  cbv zeta in Ht. subst s'. rewrite Ht. clear Ht.
  serial_store_chain nid data w s.
  destruct (serial_upload_step_frame nid data w s4) as (_ & _ & H5 & _).
  cbv zeta in H5. rewrite H5. clear H5.
  subst s4. unfold exec at 1. rewrite serial_save_topology_snapshot_eq.
  cbn [snd].
  replace (Serial.last_topology_snapshot_time s3)
    with (Serial.last_topology_snapshot_time s) by reflexivity.
  destruct (Serial.t_snapshot w - Serial.last_topology_snapshot_time s <? 30);
    reflexivity.
Qed.

Lemma serial_store_node_data_uploads nid data w s :
  let s' := exec (Serial.store_node_data nid data w) s in
  serial_uploads s'
  = if serial_upload_due nid w s
    then ((match Serial.response w with
           | Serial.HttpOk =>
               kset (key_of nid) (Serial.t_upload w)
                 (Serial.last_thingspeak_upload s)
           | _ => Serial.last_thingspeak_upload s
           end),
          filter is_upload (Serial.outbox s)
          ++ [Serial.Uploaded (key_of nid) (Serial.t_upload w)
                (Serial.upload_params data) (Serial.response w)])
    else serial_uploads s.
Proof.
  intros s'. subst s'. serial_store_chain nid data w s.
  assert (H4 : serial_uploads s4 = serial_uploads s).
  { destruct (serial_save_topology_snapshot_frame (Serial.t_snapshot w) s3)
      as (_ & _ & H & _). cbv zeta in H. fold s4 in H. rewrite H.
    reflexivity. }
  unfold serial_upload_due, serial_upload_step, exec.
  destruct (Serial.THINGSPEAK_ENABLED && Serial.requests w); [|exact H4].
  rewrite serial_upload_to_thingspeak_eq. cbn [snd andb].
  unfold serial_uploads in H4. injection H4 as Hl Ho.
  rewrite Hl.
  destruct (existsb (key_eqb (key_of nid)) Serial.THINGSPEAK_API_KEYS);
    cbn [negb andb]; [|unfold serial_uploads; congruence].
  destruct (Serial.t_upload w
            - kget_or (key_of nid) 0 (Serial.last_thingspeak_upload s)
            <? Serial.THINGSPEAK_UPDATE_INTERVAL);
    cbn [negb]; [unfold serial_uploads; congruence|].
  cbv zeta. unfold serial_uploads.
  destruct (Serial.response w);
    cbn [Serial.last_thingspeak_upload Serial.outbox
         Serial.set_last_thingspeak_upload Serial.push_outbox
         Serial.set_outbox];
    rewrite filter_app, Ho, ?Hl; reflexivity.
Qed.

(** The offline sweep *)

Lemma serial_check_offline_nodes_eq now c s :
  exec (Serial.check_offline_nodes now c) s =
  let r := fold_left (Serial.check_node now) (Serial.node_last_seen s)
             (Serial.nodes_data s, false) in
  let s1 := Serial.set_nodes_data (fst r) s in
  if snd r then exec (Serial.broadcast_update c) s1 else s1.
Proof.
  unfold Serial.check_offline_nodes, exec, bind, gets, modify, ret.
  destruct (fold_left _ _ _) as [nds' changed]. cbn [fst snd].
  destruct changed; reflexivity.
Qed.

Lemma stores_rest s s' : serial_stores s' = serial_stores s ->
  Serial.nodes_data s' = Serial.nodes_data s /\ serial_rest s' = serial_rest s.
Proof.
  unfold serial_stores, serial_counters, serial_rest, serial_history, serial_uploads. intros H.
  injection H. intros. split; congruence.
Qed.

Lemma serial_check_offline_nodes_stores now c s :
  let s' := exec (Serial.check_offline_nodes now c) s in
  Serial.nodes_data s'
  = fst (fold_left (Serial.check_node now) (Serial.node_last_seen s)
           (Serial.nodes_data s, false))
  /\ serial_rest s' = serial_rest s.
Proof.
  intros s'. subst s'. rewrite serial_check_offline_nodes_eq. cbv zeta.
  destruct (snd _).
  - destruct (stores_rest _ _ (serial_broadcast_update_stores c
        (Serial.set_nodes_data
           (fst (fold_left (Serial.check_node now) (Serial.node_last_seen s)
                   (Serial.nodes_data s, false))) s))) as [H1 H2].
    rewrite H1, H2. split; reflexivity.
  - split; reflexivity.
Qed.

Lemma serial_websocket_connect_stores ws b s :
  serial_stores (exec (Serial.websocket_connect ws b) s) = serial_stores s.
Proof.
  unfold exec, Serial.websocket_connect.
  pose proof (serial_get_topology_data_stores
                (Serial.set_websocket_clients
                   (Serial.add_client ws (Serial.websocket_clients s)) s)) as H.
  unfold exec in H.
  replace (serial_stores (Serial.set_websocket_clients
                     (Serial.add_client ws (Serial.websocket_clients s)) s))
    with (serial_stores s) in H by reflexivity.
  destruct (Serial.get_topology_data _) as [[t|e] s2]; cbn [snd] in *.
  - destruct b; cbn [snd]; rewrite <- H.
    + reflexivity.
    + unfold serial_stores, serial_uploads, serial_counters, serial_history. simpl.
      rewrite filter_app. simpl. now rewrite app_nil_r.
  - rewrite <- H. reflexivity.
Qed.

Lemma serial_step_quiet i s :
  serial_quiet i = true -> serial_stores (Serial.step s i) = serial_stores s.
Proof.
  unfold Serial.step. destruct i; cbn [serial_quiet Serial.handle_input];
    intros H; try discriminate.
  - apply serial_broadcast_serial_line_stores.
  - destruct (serial_stored_node data) eqn:E; [discriminate|].
    now apply serial_process_mesh_data_dropped.
  - apply serial_websocket_connect_stores.
  - reflexivity.
  - rewrite (exec_bind_frame serial_stores) by reflexivity.
    apply serial_get_topology_data_stores.
Qed.

Lemma same_but_liveness_refl r : same_but_liveness r r.
Proof. intros f _ _. reflexivity. Qed.

Lemma sweep_related_refl nds : sweep_related nds nds.
Proof.
  intros k. destruct (kget k nds) as [r|] eqn:E; auto.
  exists r. split; auto using same_but_liveness_refl.
Qed.

Lemma sweep_related_trans a b c :
  sweep_related a b -> sweep_related b c -> sweep_related a c.
Proof.
  intros Hab Hbc k. specialize (Hab k). specialize (Hbc k).
  destruct (kget k a) as [r|].
  - destruct Hab as (r' & Hb & Hrr'). rewrite Hb in Hbc.
    destruct Hbc as (r'' & Hc & Hr'r''). exists r''. split; auto.
    intros f H1 H2. rewrite Hr'r'' by assumption. now apply Hrr'.
  - rewrite Hab in Hbc. exact Hbc.
Qed.

(** Overwriting the record of a node that has one with a record that
    differs in liveness only. *)
Lemma sweep_related_kset k r r' nds :
  kget k nds = Some r -> same_but_liveness r r' ->
  sweep_related nds (kset k r' nds).
Proof.
  intros Hk Hr k'. destruct (key_eq_dec k k') as [<-|Hne].
  - rewrite Hk, kget_kset_same. eauto.
  - rewrite kget_kset_other by assumption.
    destruct (kget k' nds) as [r0|]; auto.
    exists r0. split; auto using same_but_liveness_refl.
Qed.

Lemma mem_get {K V} (eqb : K -> K -> bool) k (d : list (K * V)) :
  mem eqb k d = true -> exists v, get eqb k d = Some v.
Proof. unfold mem. destruct (get eqb k d); [eauto|discriminate]. Qed.

Lemma get_or_some {K V} (eqb : K -> K -> bool) k (dflt v : V) d :
  get eqb k d = Some v -> get_or eqb k dflt d = v.
Proof. unfold get_or. now intros ->. Qed.

Lemma serial_check_node_related now nds b entry :
  sweep_related nds (fst (Serial.check_node now (nds, b) entry)).
Proof.
  destruct entry as [node_id last_seen]. unfold Serial.check_node.
  destruct (Serial.NODE_OFFLINE_TIMEOUT <? now - last_seen).
  - destruct (truthy _ && kmem node_id nds) eqn:E;
      [|apply sweep_related_refl].
    apply andb_true_iff in E. destruct E as [_ Hm].
    apply mem_get in Hm. destruct Hm as [r Hr].
    cbn [fst]. rewrite (get_or_some _ _ _ _ _ Hr).
    apply sweep_related_kset with r; auto.
    intros f H1 H2. rewrite !get_set_other by (apply String.eqb_eq || auto).
    reflexivity.
  - destruct (negb (truthy _) && kmem node_id nds) eqn:E;
      [|apply sweep_related_refl].
    apply andb_true_iff in E. destruct E as [_ Hm].
    apply mem_get in Hm. destruct Hm as [r Hr].
    cbn [fst]. rewrite (get_or_some _ _ _ _ _ Hr).
    apply sweep_related_kset with r; auto.
    intros f H1 H2.
    destruct (dmem "offlineSince" (dset "online" (VBool true) r)).
    + rewrite get_del_other by (apply String.eqb_eq || auto).
      rewrite get_set_other by (apply String.eqb_eq || auto). reflexivity.
    + rewrite get_set_other by (apply String.eqb_eq || auto). reflexivity.
Qed.

Lemma serial_sweep_related now seen : forall nds b,
  sweep_related nds (fst (fold_left (Serial.check_node now) seen (nds, b))).
Proof.
  induction seen as [|e seen IH]; intros nds b; cbn [fold_left].
  - apply sweep_related_refl.
  - destruct (Serial.check_node now (nds, b) e) as [nds1 b1] eqn:E.
    apply sweep_related_trans with nds1.
    + pose proof (serial_check_node_related now nds b e) as H.
      now rewrite E in H.
    + apply IH.
Qed.

Lemma last_opt_app_one {A} (l : list A) x : last_opt (l ++ [x]) = Some x.
Proof.
  induction l as [|y l IH]; simpl; auto.
  rewrite IH. destruct (l ++ [x]) eqn:E; auto.
  destruct l; discriminate.
Qed.

Lemma serial_run_app l i s :
  Serial.run (l ++ [i]) s = Serial.step (Serial.run l s) i.
Proof. unfold Serial.run. now rewrite fold_left_app. Qed.

Lemma serial_arrivals_app k l i :
  serial_arrivals k (l ++ [i])
  = serial_arrivals k l ++ option_list (serial_arrival k i).
Proof.
  unfold serial_arrivals. rewrite flat_map_app. simpl. now rewrite app_nil_r.
Qed.

Lemma serial_node_record_fields data now count :
  dget "lastUpdate" (Serial.node_record data now count) = Some (VInt now)
  /\ dget "messageCount" (Serial.node_record data now count)
     = Some (VInt count)
  /\ dget "online" (Serial.node_record data now count) = Some (VBool true)
  /\ dget "offlineSince" (Serial.node_record data now count)
     = dget "offlineSince" data.
Proof.
  unfold Serial.node_record. repeat split.
  - rewrite !get_set_other by (apply String.eqb_eq || discriminate).
    apply get_set_same, String.eqb_eq.
  - apply get_set_same, String.eqb_eq.
  - rewrite get_set_other by (apply String.eqb_eq || discriminate).
    apply get_set_same, String.eqb_eq.
  - rewrite !get_set_other by (apply String.eqb_eq || discriminate).
    reflexivity.
Qed.

Lemma serial_counted_step k ts s i :
  serial_counted k ts s ->
  serial_counted k (ts ++ option_list (serial_arrival k i)) (Serial.step s i).
Proof.
  intros (Hls & Hmc & Hnd).
  destruct (serial_quiet i) eqn:Hq.
  - (* nothing stored *)
    assert (Ha : serial_arrival k i = None).
    { destruct i; cbn in *; auto. now destruct (serial_stored_node data). }
    rewrite Ha. cbn [option_list]. rewrite app_nil_r.
    pose proof (serial_step_quiet i s Hq) as H.
    unfold serial_stores, serial_counters in H. injection H as H1 H2 H3 _ _ _.
    unfold serial_counted. now rewrite H1, H2, H3.
  - destruct i; cbn in Hq; try discriminate.
    + (* a stored node event *)
      destruct (serial_stored_node data) as [nid|] eqn:Hs; [|discriminate].
      unfold Serial.step. cbn [Serial.handle_input].
      pose proof (serial_process_mesh_data_stored data w nid Hs s) as H.
      unfold serial_stores, serial_counters in H. injection H as H1 H2 H3 _ _ _.
      destruct (serial_store_node_data_counters nid data w s)
        as (S1 & S2 & S3 & S4). cbv zeta in S1, S2, S3, S4.
      unfold serial_counted. rewrite H1, H2, H3, S1, S4.
      cbn [serial_arrival]. rewrite Hs.
      destruct (key_eqb (key_of nid) k) eqn:Hk.
      * apply key_eqb_eq in Hk. subst k. cbn [option_list].
        rewrite last_opt_app_one, !kget_kset_same.
        rewrite length_app. cbn [List.length].
        unfold get_or at 1. rewrite S2, Hmc.
        replace (Z.of_nat (List.length ts) + 1)
          with (Z.of_nat (List.length ts + 1)) by lia.
        split; [reflexivity|]. split; [reflexivity|].
        eexists. split; [reflexivity|].
        destruct (serial_node_record_fields data (Serial.t_ingest w)
                    (Z.of_nat (List.length ts + 1))) as (F1 & F2 & _).
        auto.
      * assert (Hne : key_of nid <> k).
        { intros E. rewrite E, (proj2 (key_eqb_eq k k) eq_refl) in Hk.
          discriminate. }
        cbn [option_list]. rewrite app_nil_r.
        rewrite !kget_kset_other by assumption.
        unfold get_or. rewrite S3 by assumption.
        auto.
    + (* the offline sweep *)
      cbn [serial_arrival option_list]. rewrite app_nil_r.
      unfold Serial.step. cbn [Serial.handle_input].
      destruct (serial_check_offline_nodes_stores now is_closed s)
        as [H1 H2]. cbv zeta in H1, H2.
      unfold serial_rest in H2. injection H2 as H2 H3 _ _ _.
      unfold serial_counted. rewrite H1, H2, H3.
      split; [assumption|]. split; [assumption|].
      pose proof (serial_sweep_related now (Serial.node_last_seen s)
                    (Serial.nodes_data s) false k) as Hr.
      destruct (last_opt ts) as [t|].
      * destruct Hnd as (r & Hr0 & Hlu & Hcnt). rewrite Hr0 in Hr.
        destruct Hr as (r' & Hr' & Hsame). exists r'.
        split; [assumption|].
        rewrite !Hsame by discriminate. auto.
      * rewrite Hnd in Hr. exact Hr.
Qed.

Lemma serial_counted_run k inputs :
  serial_counted k (serial_arrivals k inputs) (Serial.run inputs Serial.init).
Proof.
  induction inputs as [|i inputs IH] using rev_ind.
  - repeat split.
  - rewrite serial_run_app, serial_arrivals_app.
    now apply serial_counted_step.
Qed.

(** Simulation *)

Lemma simulation_get_topology_data_stores s :
  sim_stores (exec Simulation.get_topology_data s) = sim_stores s.
Proof.
  unfold exec, Simulation.get_topology_data, bind, gets, modify, ret, raise.
  destruct (Simulation.topology_cache_dirty s), (Simulation.topology_cache s);
    try destruct (Simulation.build_edges (Simulation.network_topology s));
    reflexivity.
Qed.

Lemma simulation_broadcast_update_stores c s :
  sim_stores (exec (Simulation.broadcast_update c) s) = sim_stores s.
Proof.
  unfold Simulation.broadcast_update.
  unfold exec, bind at 1, gets at 1.
  destruct (Simulation.websocket_clients s) eqn:Hc; [reflexivity|].
  rewrite <- Hc.
  unfold bind, gets, modify.
  pose proof (simulation_get_topology_data_stores s) as H. unfold exec in H.
  destruct (Simulation.get_topology_data s) as [[t|e] s1]; simpl in *; auto.
  rewrite simulation_send_to_all. simpl. exact H.
Qed.

Lemma simulation_broadcast_serial_line_stores line c s :
  sim_stores (exec (Simulation.broadcast_serial_line line c) s) = sim_stores s.
Proof.
  unfold Simulation.broadcast_serial_line.
  unfold exec, bind at 1, gets at 1.
  destruct (Simulation.websocket_clients s) eqn:Hc; [reflexivity|].
  rewrite <- Hc.
  unfold bind, gets, modify.
  rewrite simulation_send_to_all. reflexivity.
Qed.

Lemma simulation_log_console_eq event s :
  Simulation.log_console event s =
  (Ok tt,
   Simulation.set_console_lines
     (last_n Simulation.MAX_CONSOLE_LINES
        (Simulation.console_lines s ++ [event])) s).
Proof.
  unfold Simulation.log_console, bind, gets, modify, ret.
  cbn [Simulation.console_lines Simulation.set_console_lines].
  destruct (Nat.ltb_spec Simulation.MAX_CONSOLE_LINES
              (List.length (Simulation.console_lines s ++ [event]))).
  - reflexivity.
  - rewrite last_n_short by assumption. reflexivity.
Qed.

Lemma simulation_record_packet_eq entry s :
  Simulation.record_packet entry s =
  (Ok tt,
   Simulation.set_packet_events
     (last_n Simulation.MAX_PACKET_EVENTS
        (Simulation.packet_events s ++ [entry])) s).
Proof.
  unfold Simulation.record_packet, bind, gets, modify, ret.
  cbn [Simulation.packet_events Simulation.set_packet_events].
  destruct (Nat.ltb_spec Simulation.MAX_PACKET_EVENTS
              (List.length (Simulation.packet_events s ++ [entry]))).
  - reflexivity.
  - rewrite last_n_short by assumption. reflexivity.
Qed.

Lemma simulation_update_topology_eq nid data now s :
  Simulation.update_topology nid data now s =
  let s1 := Simulation.set_topology_cache_dirty true s in
  match Simulation.topology_position nid data with
  | Raised e => (Raised e, s1)
  | Ok xy =>
      match Simulation.stored_parent nid data with
      | Raised e => (Raised e, s1)
      | Ok parent_node =>
          (Ok tt,
           Simulation.set_network_topology
             (kset (key_of nid)
                (Simulation.topology_entry nid data now (fst xy) (snd xy)
                   parent_node)
                (Simulation.network_topology s)) s1)
      end
  end.
Proof.
  unfold Simulation.update_topology, bind, modify, Simulation.lift.
  destruct (Simulation.topology_position nid data); [|reflexivity].
  destruct (Simulation.stored_parent nid data); reflexivity.
Qed.

Lemma simulation_count_message_eq nid now s :
  Simulation.count_message nid now s =
  (Ok tt,
   let counts := Simulation.node_message_count s in
   let counts := if kmem (key_of nid) counts then counts
                 else kset (key_of nid) 0 counts in
   Simulation.set_node_message_count
     (kset (key_of nid) (kget_or (key_of nid) 0 counts + 1) counts)
     (Simulation.set_node_last_seen
        (kset (key_of nid) now (Simulation.node_last_seen s)) s)).
Proof. reflexivity. Qed.

(** Both readings of the position fail on the same events. *)
Lemma simulation_positions_agree nid event :
  match Simulation.event_position event,
        Simulation.topology_position nid event with
  | Ok _, Ok _ => True
  | Raised e, Raised e' => e = e'
  | _, _ => False
  end.
Proof.
  unfold Simulation.event_position, Simulation.topology_position.
  destruct (dmem "posX" event); [exact I|].
  destruct (dget_or "position" (VDict []) event); cbn; auto.
Qed.

Lemma simulation_format_f_state v s : snd (Simulation.format_f v s) = s.
Proof. destruct v as [[| | |]| |]; reflexivity. Qed.

Lemma simulation_store_node_status_exec nid event w s :
  exec (Simulation.store_node_status nid event w) s =
  let s1 := exec (Simulation.count_message nid (Simulation.t_event w)) s in
  match Simulation.event_position event with
  | Raised _ => s1
  | Ok pos =>
      exec (Simulation.update_topology nid event (Simulation.t_topology w))
        (Simulation.set_nodes_data
           (kset (key_of nid)
              (Simulation.node_record nid event (Simulation.t_event w)
                 (kget_or (key_of nid) 0 (Simulation.node_message_count s1))
                 (fst pos) (snd pos))
              (Simulation.nodes_data s1)) s1)
  end.
Proof.
  unfold Simulation.store_node_status. cbv zeta.
  rewrite exec_bind. unfold exec at 2.
  rewrite !simulation_count_message_eq. cbn [snd]. cbv zeta.
  set (s1 := Simulation.set_node_message_count _ _).
  rewrite exec_bind. unfold Simulation.lift.
  destruct (Simulation.event_position event) as [pos|e]; [|reflexivity].
  rewrite exec_bind. unfold gets at 1.
  rewrite exec_bind. unfold modify at 1.
  rewrite exec_bind. unfold exec at 2.
  destruct (Simulation.update_topology nid event (Simulation.t_topology w) _)
    as [[u|e] s3]; [|reflexivity].
  rewrite exec_bind. cbn [snd].
  pose proof (simulation_format_f_state (fst pos) s3) as F1.
  destruct (Simulation.format_f (fst pos) s3) as [[u1|e1] s4];
    cbn [snd] in F1; subst s4; [|reflexivity].
  unfold exec. apply simulation_format_f_state.
Qed.

(** What [store_node_status] does to the stores of node state. *)
Lemma simulation_store_node_status_counters nid event w s :
  let k := key_of nid in
  let count := kget_or k 0 (Simulation.node_message_count s) + 1 in
  let s' := exec (Simulation.store_node_status nid event w) s in
  Simulation.node_last_seen s'
  = kset k (Simulation.t_event w) (Simulation.node_last_seen s)
  /\ kget k (Simulation.node_message_count s') = Some count
  /\ (forall k', k <> k' ->
        kget k' (Simulation.node_message_count s')
        = kget k' (Simulation.node_message_count s))
  /\ Simulation.nodes_data s'
     = match Simulation.event_position event with
       | Ok pos =>
           kset k (Simulation.node_record nid event (Simulation.t_event w)
                     count (fst pos) (snd pos))
             (Simulation.nodes_data s)
       | Raised _ => Simulation.nodes_data s
       end
  /\ Simulation.packet_events s' = Simulation.packet_events s.
Proof.
  intros k count s'. subst s' count k.
  rewrite simulation_store_node_status_exec. cbv zeta.
  assert (Hframe : forall s0,
    let s3 := exec (Simulation.update_topology nid event
                      (Simulation.t_topology w)) s0 in
    Simulation.node_last_seen s3 = Simulation.node_last_seen s0
    /\ Simulation.node_message_count s3 = Simulation.node_message_count s0
    /\ Simulation.nodes_data s3 = Simulation.nodes_data s0
    /\ Simulation.packet_events s3 = Simulation.packet_events s0).
  { intros s0. unfold exec. rewrite simulation_update_topology_eq. cbv zeta.
    destruct (Simulation.topology_position nid event);
      [|repeat split; reflexivity].
    destruct (Simulation.stored_parent nid event); repeat split; reflexivity. }
  change (exec (Simulation.count_message nid (Simulation.t_event w)) s)
    with (snd (Simulation.count_message nid (Simulation.t_event w) s)).
  rewrite simulation_count_message_eq. cbn [snd]. cbv zeta.
  destruct (Simulation.event_position event) as [pos|e].
  - match goal with
    | |- context [exec (Simulation.update_topology _ _ _) ?s0] =>
        destruct (Hframe s0) as (F1 & F2 & F3 & F4)
    end.
    cbv zeta in F1, F2, F3, F4. rewrite F1, F2, F3, F4.
    cbn [Simulation.nodes_data Simulation.node_last_seen
         Simulation.node_message_count Simulation.packet_events
         Simulation.set_nodes_data Simulation.set_node_message_count
         Simulation.set_node_last_seen].
    rewrite kget_or_kset_same, kget_or_zero_init.
    split; [reflexivity|].
    split; [apply kget_kset_same|].
    split; [|split; reflexivity].
    intros k' Hne. rewrite kget_kset_other by assumption.
    now apply kget_zero_init.
  - cbn [Simulation.nodes_data Simulation.node_last_seen
         Simulation.node_message_count Simulation.packet_events
         Simulation.set_node_message_count Simulation.set_node_last_seen].
    split; [reflexivity|].
    split; [rewrite kget_kset_same, kget_or_zero_init; reflexivity|].
    split; [|split; reflexivity].
    intros k' Hne. rewrite kget_kset_other by assumption.
    now apply kget_zero_init.
Qed.

Lemma simulation_store_node_status_topology nid event w s :
  let s' := exec (Simulation.store_node_status nid event w) s in
  Simulation.network_topology s'
  = match Simulation.topology_position nid event,
          Simulation.stored_parent nid event with
    | Ok xy, Ok parent_node =>
        kset (key_of nid)
          (Simulation.topology_entry nid event (Simulation.t_topology w)
             (fst xy) (snd xy) parent_node)
          (Simulation.network_topology s)
    | _, _ => Simulation.network_topology s
    end
  /\ Simulation.topology_cache_dirty s'
     = match Simulation.event_position event with
       | Ok _ => true
       | Raised _ => Simulation.topology_cache_dirty s
       end.
Proof.
  intros s'. subst s'.
  rewrite simulation_store_node_status_exec. cbv zeta.
  change (exec (Simulation.count_message nid (Simulation.t_event w)) s)
    with (snd (Simulation.count_message nid (Simulation.t_event w) s)).
  rewrite simulation_count_message_eq. cbn [snd]. cbv zeta.
  pose proof (simulation_positions_agree nid event) as Hp.
  destruct (Simulation.event_position event) as [pos|e].
  - unfold exec. rewrite simulation_update_topology_eq. cbv zeta.
    destruct (Simulation.topology_position nid event) as [xy|e];
      [|contradiction].
    destruct (Simulation.stored_parent nid event); split; reflexivity.
  - destruct (Simulation.topology_position nid event) as [xy|e'];
      [contradiction|].
    split; reflexivity.
Qed.

Lemma simulation_process_stored event w nid :
  sim_stored_node event = Some nid ->
  forall s,
    sim_stores (exec (Simulation.process_simulation_event event w) s)
    = sim_stores (exec (Simulation.store_node_status nid event w)
                    (exec (Simulation.log_console event) s)).
Proof.
  intros H s. unfold Simulation.process_simulation_event. cbv zeta.
  rewrite exec_bind. unfold exec at 2.
  rewrite !simulation_log_console_eq. cbn [snd].
  rewrite (exec_bind_frame sim_stores).
  2:{ intros. rewrite (exec_bind_frame sim_stores)
        by (intros; apply simulation_broadcast_serial_line_stores).
      apply simulation_broadcast_update_stores. }
  unfold sim_stored_node in H. cbv zeta in H.
  destruct (py_eq _ (SStr "node_status") || py_eq _ (SStr "node_data"));
    [|discriminate].
  destruct (truthy (dget_none "nodeId" event)); [|discriminate].
  destruct (dget_none "nodeId" event); inversion H; subst.
  unfold exec. rewrite simulation_log_console_eq. reflexivity.
Qed.

Lemma simulation_process_other event w :
  sim_stored_node event = None ->
  forall s,
    let s' := exec (Simulation.process_simulation_event event w) s in
    Simulation.nodes_data s' = Simulation.nodes_data s
    /\ Simulation.node_last_seen s' = Simulation.node_last_seen s
    /\ Simulation.node_message_count s' = Simulation.node_message_count s
    /\ Simulation.network_topology s' = Simulation.network_topology s
    /\ Simulation.packet_events s'
       = match sim_packet_entry event (Simulation.t_event w) with
         | Some entry =>
             last_n Simulation.MAX_PACKET_EVENTS
               (Simulation.packet_events s ++ [entry])
         | None => Simulation.packet_events s
         end.
Proof.
  intros H s s'.
  assert (E : sim_stores s'
    = (Simulation.nodes_data s, Simulation.node_last_seen s,
       Simulation.node_message_count s, Simulation.network_topology s,
       match sim_packet_entry event (Simulation.t_event w) with
       | Some entry =>
           last_n Simulation.MAX_PACKET_EVENTS
             (Simulation.packet_events s ++ [entry])
       | None => Simulation.packet_events s
       end)).
  { subst s'. unfold Simulation.process_simulation_event. cbv zeta.
    rewrite exec_bind, simulation_log_console_eq.
    rewrite (exec_bind_frame sim_stores).
    2:{ intros. rewrite (exec_bind_frame sim_stores)
          by (intros; apply simulation_broadcast_serial_line_stores).
        apply simulation_broadcast_update_stores. }
    unfold sim_stored_node in H. unfold sim_packet_entry. cbv zeta in *.
    destruct (py_eq _ (SStr "node_status") || py_eq _ (SStr "node_data")).
    - destruct (truthy (dget_none "nodeId" event)); [|reflexivity].
      destruct (dget_none "nodeId" event); try discriminate; reflexivity.
    - destruct (py_eq _ (SStr "packet_sent")).
      + unfold exec, bind at 1, modify at 1.
        rewrite simulation_record_packet_eq. reflexivity.
      + destruct (py_eq _ (SStr "packet_received")).
        * unfold exec, bind at 1, modify at 1.
          rewrite simulation_record_packet_eq. reflexivity.
        * destruct (py_eq _ (SStr "packet_dropped")); reflexivity. }
  unfold sim_stores in E. injection E as -> -> -> -> ->. repeat split.
Qed.

(** ** The history rings *)

Lemma last_n_app {A} n (a b : list A) :
  last_n n (last_n n a ++ b) = last_n n (a ++ b).
Proof.
  unfold last_n. rewrite !length_app, length_skipn.
  destruct (Nat.le_gt_cases (List.length a) n) as [Hle|Hgt].
  - replace (List.length a - n)%nat with 0%nat by lia. simpl.
    now rewrite Nat.sub_0_r.
  - rewrite !skipn_app, length_skipn, skipn_skipn.
    f_equal; f_equal; lia.
Qed.

Lemma last_n_bound {A} n (l : list A) : (List.length (last_n n l) <= n)%nat.
Proof. rewrite last_n_length. lia. Qed.

Lemma serial_stores_inv a b :
  serial_stores a = serial_stores b ->
  serial_counters a = serial_counters b
  /\ Serial.network_topology a = Serial.network_topology b
  /\ serial_history a = serial_history b
  /\ serial_uploads a = serial_uploads b.
Proof.
  unfold serial_stores. intros H. injection H. intros.
  unfold serial_counters, serial_history, serial_uploads.
  repeat split; congruence.
Qed.

Lemma serial_rest_inv a b :
  serial_rest a = serial_rest b ->
  Serial.node_last_seen a = Serial.node_last_seen b
  /\ Serial.node_message_count a = Serial.node_message_count b
  /\ Serial.network_topology a = Serial.network_topology b
  /\ serial_history a = serial_history b
  /\ serial_uploads a = serial_uploads b.
Proof.
  unfold serial_rest. intros H. injection H. intros.
  unfold serial_history, serial_uploads.
  repeat split; congruence.
Qed.

Lemma serial_step_history s i :
  serial_history (Serial.step s i)
  = match serial_captured s i with
    | [] => serial_history s
    | snap :: _ =>
        (last_n Serial.MAX_TOPOLOGY_HISTORY
           (Serial.topology_history s ++ [snap]),
         Serial.timestamp snap)
    end.
Proof.
  destruct (serial_quiet i) eqn:Hq.
  - destruct (serial_stores_inv _ _ (serial_step_quiet i s Hq))
      as (_ & _ & H & _).
    rewrite H. destruct i; cbn in *; auto.
    now destruct (serial_stored_node data).
  - destruct i; cbn in Hq; try discriminate.
    + destruct (serial_stored_node data) as [nid|] eqn:Hs; [|discriminate].
      destruct (serial_stores_inv _ _
                  (serial_process_mesh_data_stored data w nid Hs s))
        as (_ & Ht & Hh & _).
      unfold serial_captured. rewrite Hs.
      unfold Serial.step at 1 2. cbn [Serial.handle_input].
      rewrite Hh, Ht.
      rewrite (serial_store_node_data_history nid data w s).
      destruct (Serial.t_snapshot w - Serial.last_topology_snapshot_time s
                <? 30); reflexivity.
    + cbn [serial_captured]. unfold Serial.step. cbn [Serial.handle_input].
      destruct (serial_check_offline_nodes_stores now is_closed s) as [_ H].
      cbv zeta in H. apply serial_rest_inv in H. tauto.
Qed.

Lemma serial_captured_interval s i :
  match serial_captured s i with
  | [] => True
  | snap :: rest =>
      rest = []
      /\ 30 <= Serial.timestamp snap - Serial.last_topology_snapshot_time s
  end.
Proof.
  destruct i; cbn; auto.
  destruct (serial_stored_node data); auto.
  destruct (Z.ltb_spec (Serial.t_snapshot w
                        - Serial.last_topology_snapshot_time s) 30); auto.
Qed.

Lemma serial_run_history inputs : forall s,
  (List.length (Serial.topology_history s) <= Serial.MAX_TOPOLOGY_HISTORY)%nat ->
  Serial.topology_history (Serial.run inputs s)
  = last_n Serial.MAX_TOPOLOGY_HISTORY
      (Serial.topology_history s ++ serial_snapshots inputs s).
Proof.
  induction inputs as [|i rest IH]; intros s Hlen.
  - cbn. rewrite app_nil_r. now rewrite last_n_short.
  - cbn [Serial.run fold_left serial_snapshots].
    fold (Serial.run rest (Serial.step s i)).
    pose proof (serial_step_history s i) as Hstep.
    pose proof (serial_captured_interval s i) as Hwait.
    unfold serial_history in Hstep.
    destruct (serial_captured s i) as [|snap more].
    + injection Hstep as Hs _. rewrite IH by (now rewrite Hs).
      now rewrite Hs.
    + destruct Hwait as [-> _]. injection Hstep as Hs _.
      rewrite IH by (rewrite Hs; apply last_n_bound).
      rewrite Hs, last_n_app. now rewrite <- app_assoc.
Qed.

Lemma serial_run_spaced inputs : forall s,
  spaced_from (Serial.last_topology_snapshot_time s)
    (map Serial.timestamp (serial_snapshots inputs s)).
Proof.
  induction inputs as [|i rest IH]; intros s; cbn [serial_snapshots].
  - exact I.
  - pose proof (serial_step_history s i) as Hstep.
    pose proof (serial_captured_interval s i) as Hwait.
    unfold serial_history in Hstep. specialize (IH (Serial.step s i)).
    destruct (serial_captured s i) as [|snap more].
    + injection Hstep as _ Ht. rewrite Ht in IH. exact IH.
    + destruct Hwait as [-> Hg]. injection Hstep as _ Ht.
      rewrite Ht in IH. cbn. split; assumption.
Qed.

Lemma sim_swept_refl s : sim_swept s s.
Proof. repeat split; apply sweep_related_refl. Qed.

Lemma sim_swept_trans a b c : sim_swept a b -> sim_swept b c -> sim_swept a c.
Proof.
  intros (A1 & A2 & A3 & A4 & A5) (B1 & B2 & B3 & B4 & B5).
  repeat split; try congruence; eapply sweep_related_trans; eauto.
Qed.

Lemma same_but_liveness_online (b : bool) (r : dict) :
  same_but_liveness r (dset "online" (VBool b) r).
Proof.
  intros f H1 H2. now rewrite get_set_other by (apply String.eqb_eq || auto).
Qed.

(** One turn of the sweep of the simulation bridge: nothing but [online]
    changes, and a change raises both [status_changed] and the dirty
    flag. *)
Lemma simulation_check_node_spec now s b entry :
  let r := Simulation.check_node now (s, b) entry in
  sim_swept s (fst r)
  /\ (r = (s, b)
      \/ (snd r = true /\ Simulation.topology_cache_dirty (fst r) = true)).
Proof.
  destruct entry as [node_id last_seen]. unfold Simulation.check_node.
  assert (Hflip : forall online,
    kmem node_id (Simulation.nodes_data s) = true ->
    sim_swept s
      (Simulation.set_topology_cache_dirty true
         match kget node_id
                 (Simulation.network_topology
                    (Simulation.set_nodes_data
                       (kset node_id
                          (dset "online" (VBool online)
                             (kget_or node_id [] (Simulation.nodes_data s)))
                          (Simulation.nodes_data s)) s)) with
         | Some t =>
             Simulation.set_network_topology
               (kset node_id (dset "online" (VBool online) t)
                  (Simulation.network_topology
                     (Simulation.set_nodes_data
                        (kset node_id
                           (dset "online" (VBool online)
                              (kget_or node_id [] (Simulation.nodes_data s)))
                           (Simulation.nodes_data s)) s)))
               (Simulation.set_nodes_data
                  (kset node_id
                     (dset "online" (VBool online)
                        (kget_or node_id [] (Simulation.nodes_data s)))
                     (Simulation.nodes_data s)) s)
         | None =>
             Simulation.set_nodes_data
               (kset node_id
                  (dset "online" (VBool online)
                     (kget_or node_id [] (Simulation.nodes_data s)))
                  (Simulation.nodes_data s)) s
         end)).
  { intros online Hm. apply mem_get in Hm. destruct Hm as [r Hr].
    rewrite (get_or_some _ _ _ _ _ Hr).
    cbn [Simulation.network_topology Simulation.set_nodes_data].
    destruct (kget node_id (Simulation.network_topology s)) as [t|] eqn:Ht.
    - repeat split; cbn.
      + apply sweep_related_kset with r; auto using same_but_liveness_online.
      + apply sweep_related_kset with t; auto using same_but_liveness_online.
    - repeat split; cbn.
      + apply sweep_related_kset with r; auto using same_but_liveness_online.
      + apply sweep_related_refl. }
  cbv zeta.
  destruct (Simulation.NODE_OFFLINE_TIMEOUT <? now - last_seen).
  - destruct (truthy _ && kmem node_id (Simulation.nodes_data s)) eqn:E.
    + apply andb_true_iff in E. destruct E as [_ Hm]. cbn [fst snd].
      split; [now apply Hflip|]. right. split; reflexivity.
    + split; [apply sim_swept_refl|now left].
  - destruct (negb (truthy _) && kmem node_id (Simulation.nodes_data s)) eqn:E.
    + apply andb_true_iff in E. destruct E as [_ Hm]. cbn [fst snd].
      split; [now apply Hflip|]. right. split; reflexivity.
    + split; [apply sim_swept_refl|now left].
Qed.

Lemma simulation_sweep_spec now seen : forall s b,
  let r := fold_left (Simulation.check_node now) seen (s, b) in
  sim_swept s (fst r)
  /\ ((snd r = b
       /\ Simulation.topology_cache_dirty (fst r)
          = Simulation.topology_cache_dirty s)
      \/ (snd r = true /\ Simulation.topology_cache_dirty (fst r) = true)).
Proof.
  induction seen as [|e seen IH]; intros s b; cbn [fold_left].
  - split; [apply sim_swept_refl|]. left. split; reflexivity.
  - destruct (simulation_check_node_spec now s b e) as [Hs Hd].
    cbv zeta in Hs, Hd.
    destruct (Simulation.check_node now (s, b) e) as [s1 b1].
    cbn [fst snd] in Hs, Hd.
    destruct (IH s1 b1) as [Hs' Hd']. cbv zeta in Hs', Hd'.
    split; [eapply sim_swept_trans; eauto|].
    destruct Hd' as [[Hb Hdirty]|Hset]; [|now right].
    destruct Hd as [Hsame|[Hb1 Hd1]].
    + injection Hsame as -> ->. left. split; assumption.
    + right. split; congruence.
Qed.

Lemma simulation_check_offline_nodes_eq now c s :
  exec (Simulation.check_offline_nodes now c) s =
  let r := fold_left (Simulation.check_node now) (Simulation.node_last_seen s)
             (s, false) in
  if snd r then exec (Simulation.broadcast_update c) (fst r) else fst r.
Proof.
  unfold Simulation.check_offline_nodes, exec.
  destruct (fold_left _ _ _) as [s' changed]. cbn [fst snd].
  destruct changed; reflexivity.
Qed.

Lemma sim_stores_inv a b :
  sim_stores a = sim_stores b ->
  Simulation.nodes_data a = Simulation.nodes_data b
  /\ Simulation.node_last_seen a = Simulation.node_last_seen b
  /\ Simulation.node_message_count a = Simulation.node_message_count b
  /\ Simulation.network_topology a = Simulation.network_topology b
  /\ Simulation.packet_events a = Simulation.packet_events b.
Proof.
  unfold sim_stores. intros H. injection H. intros. repeat split; congruence.
Qed.

Lemma sim_swept_stores a b c :
  sim_swept a b -> sim_stores c = sim_stores b -> sim_swept a c.
Proof.
  intros (A1 & A2 & A3 & A4 & A5) H. apply sim_stores_inv in H.
  destruct H as (H1 & H2 & H3 & H4 & H5).
  unfold sim_swept. rewrite H1, H2, H3, H4, H5. repeat split; assumption.
Qed.

Lemma simulation_check_offline_nodes_swept now c s :
  sim_swept s (exec (Simulation.check_offline_nodes now c) s).
Proof.
  rewrite simulation_check_offline_nodes_eq. cbv zeta.
  destruct (simulation_sweep_spec now (Simulation.node_last_seen s) s false)
    as [Hs _]. cbv zeta in Hs.
  destruct (snd _); [|assumption].
  eapply sim_swept_stores; [eassumption|].
  apply simulation_broadcast_update_stores.
Qed.

Lemma simulation_websocket_connect_stores ws b s :
  sim_stores (exec (Simulation.websocket_connect ws b) s) = sim_stores s.
Proof.
  unfold exec, Simulation.websocket_connect.
  pose proof (simulation_get_topology_data_stores
                (Simulation.set_websocket_clients
                   (Simulation.add_client ws (Simulation.websocket_clients s))
                   s)) as H.
  unfold exec in H.
  replace (sim_stores (Simulation.set_websocket_clients
                         (Simulation.add_client ws
                            (Simulation.websocket_clients s)) s))
    with (sim_stores s) in H by reflexivity.
  destruct (Simulation.get_topology_data _) as [[t|e] s2]; cbn [snd] in *.
  - destruct b; cbn [snd]; rewrite <- H; reflexivity.
  - rewrite <- H. reflexivity.
Qed.

Lemma sim_stored_not_packet event nid now :
  sim_stored_node event = Some nid -> sim_packet_entry event now = None.
Proof.
  unfold sim_stored_node, sim_packet_entry. cbv zeta.
  destruct (py_eq _ (SStr "node_status") || py_eq _ (SStr "node_data"));
    [reflexivity|discriminate].
Qed.

Lemma simulation_log_console_stores event s :
  sim_stores (exec (Simulation.log_console event) s) = sim_stores s.
Proof. unfold exec. rewrite simulation_log_console_eq. reflexivity. Qed.

Lemma simulation_step_packets s i :
  Simulation.packet_events (Simulation.step s i)
  = match i with
    | Simulation.Event event w =>
        match sim_packet_entry event (Simulation.t_event w) with
        | Some entry =>
            last_n Simulation.MAX_PACKET_EVENTS
              (Simulation.packet_events s ++ [entry])
        | None => Simulation.packet_events s
        end
    | _ => Simulation.packet_events s
    end.
Proof.
  unfold Simulation.step. destruct i; cbn [Simulation.handle_input].
  - destruct (sim_stored_node event) as [nid|] eqn:Hs.
    + rewrite (sim_stored_not_packet _ _ _ Hs).
      destruct (sim_stores_inv _ _ (simulation_process_stored event w nid Hs s))
        as (_ & _ & _ & _ & H).
      rewrite H.
      destruct (simulation_store_node_status_counters nid event w
                  (exec (Simulation.log_console event) s))
        as (_ & _ & _ & _ & H').
      cbv zeta in H'. rewrite H'.
      destruct (sim_stores_inv _ _ (simulation_log_console_stores event s))
        as (_ & _ & _ & _ & H'').
      exact H''.
    + destruct (simulation_process_other event w Hs s) as (_ & _ & _ & _ & H).
      exact H.
  - destruct (simulation_check_offline_nodes_swept now is_closed s)
      as (_ & _ & H & _).
    exact H.
  - destruct (sim_stores_inv _ _ (simulation_websocket_connect_stores ws ws_closed s))
      as (_ & _ & _ & _ & H).
    exact H.
  - reflexivity.
  - rewrite (exec_bind_frame Simulation.packet_events) by reflexivity.
    destruct (sim_stores_inv _ _ (simulation_get_topology_data_stores s))
      as (_ & _ & _ & _ & H).
    exact H.
Qed.

Lemma simulation_run_packets inputs : forall s,
  (List.length (Simulation.packet_events s) <= Simulation.MAX_PACKET_EVENTS)%nat ->
  Simulation.packet_events (Simulation.run inputs s)
  = last_n Simulation.MAX_PACKET_EVENTS
      (Simulation.packet_events s ++ sim_packets inputs).
Proof.
  induction inputs as [|i rest IH]; intros s Hlen.
  - cbn. rewrite app_nil_r. now rewrite last_n_short.
  - cbn [Simulation.run fold_left]. fold (Simulation.run rest (Simulation.step s i)).
    pose proof (simulation_step_packets s i) as Hstep.
    unfold sim_packets. cbn [flat_map]. fold (sim_packets rest).
    destruct i;
      try (rewrite IH by (now rewrite Hstep); now rewrite Hstep).
    destruct (sim_packet_entry event (Simulation.t_event w)) as [entry|].
    + rewrite IH by (rewrite Hstep; apply last_n_bound).
      rewrite Hstep, last_n_app. cbn [option_list]. now rewrite <- app_assoc.
    + rewrite IH by (now rewrite Hstep). now rewrite Hstep.
Qed.

Lemma spaced_from_suffix prev a : forall b,
  spaced_from prev (a ++ b) ->
  match b with
  | [] => True
  | t :: rest => spaced_from t rest
  end.
Proof.
  revert prev. induction a as [|x a IH]; intros prev b H.
  - destruct b as [|t rest]; [exact I|]. cbn in H. tauto.
  - cbn in H. destruct H as [_ H]. now apply (IH x).
Qed.

(** C6.  Both history rings are bounded and first-in first-out over every
    run of the bridges from their initial state.  [topology_history] (serial
    bridge) holds the last 100 of the snapshots taken so far, in the order
    taken, and each snapshot was taken at least 30 after the one before it
    (the first at least 30 after the initial capture time 0), so that the
    snapshots it holds are at least 30 apart.
    [packet_events] (simulation bridge) holds the last 100 of the packet
    entries logged so far, in the order logged. *)
Theorem history_rings_bounded_fifo :
  (forall inputs,
      let s := Serial.run inputs Serial.init in
      let taken := serial_snapshots inputs Serial.init in
      Serial.topology_history s = last_n Serial.MAX_TOPOLOGY_HISTORY taken
      /\ (List.length (Serial.topology_history s) <= 100)%nat
      /\ (exists evicted, taken = evicted ++ Serial.topology_history s)
      /\ spaced_from 0 (map Serial.timestamp taken)
      /\ match map Serial.timestamp (Serial.topology_history s) with
         | [] => True
         | t :: rest => spaced_from t rest
         end)
  /\
  (forall inputs,
      let s := Simulation.run inputs Simulation.init in
      let logged := sim_packets inputs in
      Simulation.packet_events s = last_n Simulation.MAX_PACKET_EVENTS logged
      /\ (List.length (Simulation.packet_events s) <= 100)%nat
      /\ (exists evicted, logged = evicted ++ Simulation.packet_events s)).
Proof.
  split; intros inputs s.
  - intros taken.
    assert (H : Serial.topology_history s
                = last_n Serial.MAX_TOPOLOGY_HISTORY taken).
    { subst s taken. rewrite serial_run_history by (cbn; lia). reflexivity. }
    rewrite H. split; [reflexivity|]. split; [|split; [|split]].
    + apply (last_n_bound Serial.MAX_TOPOLOGY_HISTORY).
    + apply last_n_suffix.
    + apply (serial_run_spaced inputs Serial.init).
    + destruct (last_n_suffix Serial.MAX_TOPOLOGY_HISTORY taken)
        as [evicted He].
      pose proof (serial_run_spaced inputs Serial.init) as Hs.
      fold taken in Hs. rewrite He, map_app in Hs.
      exact (spaced_from_suffix _ _ _ Hs).
  - intros logged.
    assert (H : Simulation.packet_events s
                = last_n Simulation.MAX_PACKET_EVENTS logged).
    { subst s logged. rewrite simulation_run_packets by (cbn; lia).
      reflexivity. }
    rewrite H. repeat split.
    + apply (last_n_bound Simulation.MAX_PACKET_EVENTS).
    + apply last_n_suffix.
Qed.

(** The scenario of the specification: 101 readings 30 apart each take a
    snapshot; the ring then holds 100 of them, those of times 60 to 3030,
    and the first one, of time 30, is gone. *)
Example one_hundred_and_one_snapshots :
  map Serial.timestamp
    (Serial.topology_history
       (Serial.run (readings_every_30 101) Serial.init))
  = map (fun i => 30 * Z.of_nat (i + 2)) (seq 0 100).
Proof. vm_compute. reflexivity. Qed.

(** ** The ThingSpeak rate limit *)

Lemma later_uploads_spaced_app k t log k' t' p r :
  later_uploads_spaced k t log ->
  (k' = k -> Serial.THINGSPEAK_UPDATE_INTERVAL <= t' - t) ->
  later_uploads_spaced k t (log ++ [Serial.Uploaded k' t' p r]).
Proof.
  intros Hl Hnew. induction log as [|e log IH]; cbn.
  - auto.
  - destruct e; cbn in Hl; [auto|]. destruct Hl. auto.
Qed.

Lemma successes_respected_app log k t p r :
  successes_respected log ->
  (forall t0 p0,
      In (Serial.Uploaded k t0 p0 Serial.HttpOk) log ->
      Serial.THINGSPEAK_UPDATE_INTERVAL <= t - t0) ->
  successes_respected (log ++ [Serial.Uploaded k t p r]).
Proof.
  intros Hl Hnew. induction log as [|e log IH]; cbn.
  - destruct r; cbn; auto.
  - destruct e as [ws m|k0 t0 p0 r0]; cbn in Hl.
    + apply IH; auto. intros. apply (Hnew t0 p0). now right.
    + destruct r0; cbn.
      * destruct Hl as [Hs Hr]. split.
        -- apply later_uploads_spaced_app; auto.
           intros ->. apply (Hnew t0 p0). now left.
        -- apply IH; auto. intros. apply (Hnew t1 p1). now right.
      * apply IH; auto. intros. apply (Hnew t1 p1). now right.
      * apply IH; auto. intros. apply (Hnew t1 p1). now right.
Qed.

Lemma serial_step_uploads s i :
  serial_uploads (Serial.step s i)
  = match i with
    | Serial.MeshData data w =>
        match serial_stored_node data with
        | Some nid =>
            if serial_upload_due nid w s
            then ((match Serial.response w with
                   | Serial.HttpOk =>
                       kset (key_of nid) (Serial.t_upload w)
                         (Serial.last_thingspeak_upload s)
                   | _ => Serial.last_thingspeak_upload s
                   end),
                  serial_upload_log s
                  ++ [Serial.Uploaded (key_of nid) (Serial.t_upload w)
                        (Serial.upload_params data) (Serial.response w)])
            else serial_uploads s
        | None => serial_uploads s
        end
    | _ => serial_uploads s
    end.
Proof.
  destruct (serial_quiet i) eqn:Hq.
  - destruct (serial_stores_inv _ _ (serial_step_quiet i s Hq))
      as (_ & _ & _ & H).
    rewrite H. destruct i; cbn in *; auto.
    now destruct (serial_stored_node data).
  - destruct i; cbn in Hq; try discriminate.
    + destruct (serial_stored_node data) as [nid|] eqn:Hs; [|discriminate].
      destruct (serial_stores_inv _ _
                  (serial_process_mesh_data_stored data w nid Hs s))
        as (_ & _ & _ & Hu).
      unfold Serial.step. cbn [Serial.handle_input]. rewrite Hu.
      apply serial_store_node_data_uploads.
    + unfold Serial.step. cbn [Serial.handle_input].
      destruct (serial_check_offline_nodes_stores now is_closed s) as [_ H].
      cbv zeta in H. apply serial_rest_inv in H. tauto.
Qed.

Lemma serial_step_rate_limit s i :
  successes_respected (serial_upload_log s) /\ successes_recorded s ->
  successes_respected (serial_upload_log (Serial.step s i))
  /\ successes_recorded (Serial.step s i).
Proof.
  intros [Hresp Hrec].
  pose proof (serial_step_uploads s i) as Hstep.
  unfold serial_uploads in Hstep. fold (serial_upload_log s) in Hstep.
  fold (serial_upload_log (Serial.step s i)) in Hstep.
  assert (Hsame :
    (Serial.last_thingspeak_upload (Serial.step s i),
     serial_upload_log (Serial.step s i))
    = (Serial.last_thingspeak_upload s, serial_upload_log s) ->
    successes_respected (serial_upload_log (Serial.step s i))
    /\ successes_recorded (Serial.step s i)).
  { intros E. injection E as E1 E2. unfold successes_recorded.
    rewrite E1, E2. auto. }
  destruct i; auto.
  destruct (serial_stored_node data) as [nid|]; auto.
  destruct (serial_upload_due nid w s) eqn:Hdue; auto.
  injection Hstep as Hlast Hlog.
  unfold serial_upload_due in Hdue.
  apply andb_true_iff in Hdue. destruct Hdue as [_ Hwait].
  apply negb_true_iff, Z.ltb_ge in Hwait.
  assert (Hold : forall t0 p0,
    In (Serial.Uploaded (key_of nid) t0 p0 Serial.HttpOk) (serial_upload_log s) ->
    Serial.THINGSPEAK_UPDATE_INTERVAL <= Serial.t_upload w - t0).
  { intros t0 p0 Hin. specialize (Hrec _ _ _ Hin). lia. }
  split.
  - rewrite Hlog. now apply successes_respected_app.
  - intros k t p Hin. rewrite Hlog in Hin. rewrite Hlast.
    apply in_app_or in Hin. destruct Hin as [Hin|[Heq|[]]].
    + specialize (Hrec _ _ _ Hin).
      destruct (Serial.response w); auto.
      destruct (key_eq_dec (key_of nid) k) as [<-|Hne].
      * rewrite kget_or_kset_same. specialize (Hold _ _ Hin).
        unfold Serial.THINGSPEAK_UPDATE_INTERVAL in Hold. lia.
      * now rewrite kget_or_kset_other.
    + injection Heq as <- <- _ Hr. rewrite Hr.
      rewrite kget_or_kset_same. lia.
Qed.

Lemma serial_run_rate_limit inputs :
  successes_respected (serial_upload_log (Serial.run inputs Serial.init))
  /\ successes_recorded (Serial.run inputs Serial.init).
Proof.
  induction inputs as [|i inputs IH] using rev_ind.
  - split; [exact I|]. intros k t p [].
  - rewrite serial_run_app. now apply serial_step_rate_limit.
Qed.

(** C7, as stated, fails.  Node 2 reports at time 1000 and the upload
    fails; it reports again at time 1001 and the bridge makes a second
    request, one tick after the first. *)
Lemma thingspeak_retry_after_failure :
  let log :=
    serial_upload_log
      (Serial.run
         [ Serial.MeshData reading_of_node_2
             (serial_world_at 1000 Serial.HttpFailed);
           Serial.MeshData reading_of_node_2
             (serial_world_at 1001 Serial.HttpOk) ]
         Serial.init) in
  log = [ Serial.Uploaded (KInt 2) 1000
            [("field1", VInt 70); ("field6", VInt (-60)); ("field8", VInt 1)]
            Serial.HttpFailed;
          Serial.Uploaded (KInt 2) 1001
            [("field1", VInt 70); ("field6", VInt (-60)); ("field8", VInt 1)]
            Serial.HttpOk ]
  /\ ~ attempts_respected log.
Proof.
  split.
  - vm_compute. reflexivity.
  - vm_compute. intros [[H _] _]. apply H; reflexivity.
Qed.

(** C7, amended.  Over every run of the serial bridge, each request to
    ThingSpeak that succeeded is followed by no request for the same node
    until [THINGSPEAK_UPDATE_INTERVAL] (20) has passed since it.  A stored
    node event makes a request exactly when the node has an API key and
    that interval has passed since the last-upload time of the node, and
    the last-upload time is set to the time of the request only when the
    request succeeded: a failed request leaves it as it was. *)
Theorem thingspeak_rate_limit_after_success :
  (forall inputs,
      successes_respected (serial_upload_log (Serial.run inputs Serial.init)))
  /\
  (forall s data w nid,
      serial_stored_node data = Some nid ->
      let s' := Serial.step s (Serial.MeshData data w) in
      (Serial.last_thingspeak_upload s', serial_upload_log s')
      = if serial_upload_due nid w s
        then ((match Serial.response w with
               | Serial.HttpOk =>
                   kset (key_of nid) (Serial.t_upload w)
                     (Serial.last_thingspeak_upload s)
               | _ => Serial.last_thingspeak_upload s
               end),
              serial_upload_log s
              ++ [Serial.Uploaded (key_of nid) (Serial.t_upload w)
                    (Serial.upload_params data) (Serial.response w)])
        else (Serial.last_thingspeak_upload s, serial_upload_log s)).
Proof.
  split.
  - intros inputs. apply serial_run_rate_limit.
  - intros s data w nid Hs s'. subst s'.
    pose proof (serial_step_uploads s (Serial.MeshData data w)) as H.
    cbn beta iota in H. rewrite Hs in H. exact H.
Qed.

(** The first reading of node 2, at time 1000, is uploaded; the upload
    fails and no last-upload time is recorded. *)
Lemma thingspeak_rate_limit_after_success_witness :
  let s' :=
    Serial.step Serial.init
      (Serial.MeshData reading_of_node_2
         (serial_world_at 1000 Serial.HttpFailed)) in
  serial_stored_node reading_of_node_2 = Some (SInt 2)
  /\ (Serial.last_thingspeak_upload s', serial_upload_log s')
     = ([],
        [ Serial.Uploaded (KInt 2) 1000
            [("field1", VInt 70); ("field6", VInt (-60)); ("field8", VInt 1)]
            Serial.HttpFailed ]).
Proof.
  split.
  - reflexivity.
  - exact (proj2 thingspeak_rate_limit_after_success Serial.init
             reading_of_node_2 (serial_world_at 1000 Serial.HttpFailed)
             (SInt 2) eq_refl).
Defined.

(** ** The parent a topology record gets *)

Lemma field_of_kset_same k f record (store : list (key * dict)) :
  field_of k f (kset k record store) = dget f record.
Proof. unfold field_of. now rewrite kget_kset_same. Qed.

Lemma field_of_kset_other k k' f record (store : list (key * dict)) :
  k <> k' -> field_of k' f (kset k record store) = field_of k' f store.
Proof. intros. unfold field_of. now rewrite kget_kset_other. Qed.

Lemma serial_build_edges_no_loop items : forall es,
  Serial.build_edges items = Some es ->
  Forall (fun e => py_eq_key (Serial.e_to e) (Serial.e_from e) = false) es.
Proof.
  induction items as [|[node_id node_data] rest IH]; intros es H.
  - injection H as <-. constructor.
  - cbn [Serial.build_edges] in H.
    destruct (py_gt0 _) as [positive|]; [|discriminate].
    destruct (Serial.build_edges rest) as [es'|]; [|discriminate].
    destruct (positive && negb (py_eq_key _ node_id)) eqn:E;
      injection H as <-; auto.
    constructor; auto. cbn.
    apply andb_true_iff in E. destruct E as [_ E].
    now apply negb_true_iff in E.
Qed.

Lemma simulation_build_edges_no_loop items : forall es,
  Simulation.build_edges items = Some es ->
  Forall
    (fun e => py_eq_key (Simulation.e_to e) (Simulation.e_from e) = false) es.
Proof.
  induction items as [|[node_id node_data] rest IH]; intros es H.
  - injection H as <-. constructor.
  - cbn [Simulation.build_edges] in H.
    destruct (py_gt0 _) as [positive|]; [|discriminate].
    destruct (Simulation.build_edges rest) as [es'|]; [|discriminate].
    destruct (positive && negb (py_eq_key _ node_id)) eqn:E;
      injection H as <-; auto.
    constructor; auto. cbn.
    apply andb_true_iff in E. destruct E as [_ E].
    now apply negb_true_iff in E.
Qed.

Lemma serial_topology_entry_parent nid data now :
  dget "parentNode" (Serial.topology_entry nid data now)
  = Some (Serial.stored_parent nid data).
Proof. reflexivity. Qed.

Lemma simulation_topology_entry_fields nid data now x y parent_node :
  let entry := Simulation.topology_entry nid data now x y parent_node in
  dget "parentNode" entry = Some parent_node
  /\ dget "x" entry = Some x
  /\ dget "y" entry = Some y
  /\ dget "temp" entry = Some (Simulation.sensor "temp" "temperature" data)
  /\ dget "humidity" entry
     = Some (Simulation.sensor "humidity" "humidity" data).
Proof. repeat split; reflexivity. Qed.

(** C3, as stated, fails in the simulation bridge.  Node 2 reports parent
    0 with hop distance 0; it is not the root, and the record stored for
    it has parent 0, not [GATEWAY_NODE_ID]. *)
Lemma simulation_parent_not_inferred :
  let s' :=
    Simulation.step Simulation.init
      (Simulation.Event orphan_of_node_2 (sim_world_at 5)) in
  field_of (KInt 2) "parentNode" (Simulation.network_topology s')
  = Some (VInt 0)
  /\ VInt 0 <> VInt Simulation.GATEWAY_NODE_ID.
Proof. split; [vm_compute; reflexivity | discriminate]. Qed.

(** C3, amended.  Serial bridge: when the reported parent
    ([meshSenderId], 0 when absent) is 0 or the node itself,
    [update_topology] stores parent [GATEWAY_NODE_ID] for a node that is
    not the root and parent 0 for the root.  Simulation bridge: when the
    reported parent ([parentNode], else [meshSenderId], else 0) is 0 and
    the record is stored, the stored parent is [GATEWAY_NODE_ID] if the hop
    distance is positive and the node is not the root, and the reported 0
    otherwise.  In both bridges the edges [get_topology_data] builds never
    join a node to itself. *)
Theorem parent_inference :
  (forall nid data now s,
      let reported := dget_or "meshSenderId" (VInt 0) data in
      py_eq reported (SInt 0) || py_eq reported nid = true ->
      field_of (key_of nid) "parentNode"
        (Serial.network_topology
           (exec (Serial.update_topology nid data now) s))
      = Some (if py_eq (VS nid) (SInt Serial.GATEWAY_NODE_ID)
              then VInt 0 else VInt Serial.GATEWAY_NODE_ID))
  /\
  (forall nid data now s xy positive,
      let reported :=
        dget_or "parentNode" (dget_or "meshSenderId" (VInt 0) data) data in
      py_eq reported (SInt 0) = true ->
      Simulation.topology_position nid data = Ok xy ->
      py_gt0 (dget_or "hopDistance" (VInt 0) data) = Some positive ->
      field_of (key_of nid) "parentNode"
        (Simulation.network_topology
           (exec (Simulation.update_topology nid data now) s))
      = Some (if positive
                 && negb (py_eq (VS nid) (SInt Simulation.GATEWAY_NODE_ID))
              then VInt Simulation.GATEWAY_NODE_ID else reported))
  /\
  (forall items es,
      Serial.build_edges items = Some es ->
      Forall (fun e => py_eq_key (Serial.e_to e) (Serial.e_from e) = false) es)
  /\
  (forall items es,
      Simulation.build_edges items = Some es ->
      Forall
        (fun e => py_eq_key (Simulation.e_to e) (Simulation.e_from e) = false)
        es).
Proof.
  repeat split.
  - intros nid data now s reported H. subst reported.
    unfold exec. rewrite serial_update_topology_eq.
    cbn [snd Serial.network_topology Serial.set_network_topology].
    rewrite field_of_kset_same, serial_topology_entry_parent.
    unfold Serial.stored_parent. rewrite H.
    now destruct (py_eq (VS nid) (SInt Serial.GATEWAY_NODE_ID)).
  - intros nid data now s xy positive reported H Hpos Hhop. subst reported.
    unfold exec. rewrite simulation_update_topology_eq. cbv zeta.
    rewrite Hpos. unfold Simulation.stored_parent. rewrite H, Hhop.
    destruct (positive
              && negb (py_eq (VS nid) (SInt Simulation.GATEWAY_NODE_ID)));
      cbn [snd Simulation.network_topology Simulation.set_network_topology];
      rewrite field_of_kset_same; reflexivity.
  - apply serial_build_edges_no_loop.
  - apply simulation_build_edges_no_loop.
Qed.

(** Node 2 reports itself as [meshSenderId] to the serial bridge and gets
    the gateway as parent; node 7 reports parent 0 at hop distance 2 to the
    simulation bridge and gets the gateway as parent; the edges built from
    a node 1 with parent 1 and a node 2 with parent 1 are the one edge from
    2 to 1. *)
Lemma parent_inference_witness :
  field_of (KInt 2) "parentNode"
    (Serial.network_topology
       (exec (Serial.update_topology (SInt 2)
                [("nodeId", VInt 2); ("meshSenderId", VInt 2)] 5)
          Serial.init))
  = Some (VInt 1)
  /\ field_of (KInt 7) "parentNode"
       (Simulation.network_topology
          (exec (Simulation.update_topology (SInt 7)
                   [("nodeId", VInt 7); ("hopDistance", VInt 2)] 5)
             Simulation.init))
     = Some (VInt 1)
  /\ Forall (fun e => py_eq_key (Serial.e_to e) (Serial.e_from e) = false)
       [ {| Serial.e_from := KInt 2; Serial.e_to := VInt 1;
            Serial.e_rssi := VInt (-100) |} ]
  /\ Forall
       (fun e => py_eq_key (Simulation.e_to e) (Simulation.e_from e) = false)
       [ {| Simulation.e_from := KInt 2; Simulation.e_to := VInt 1;
            Simulation.e_rssi := VInt (-100) |} ].
Proof.
  destruct parent_inference as (Hserial & Hsim & Hedges & Hedges').
  split; [|split; [|split]].
  - exact (Hserial (SInt 2) [("nodeId", VInt 2); ("meshSenderId", VInt 2)] 5
             Serial.init eq_refl).
  - exact (Hsim (SInt 7) [("nodeId", VInt 7); ("hopDistance", VInt 2)] 5
             Simulation.init (VInt 700, VInt 0) true eq_refl eq_refl eq_refl).
  - exact (Hedges [ (KInt 1, [("parentNode", VInt 1)]);
                    (KInt 2, [("parentNode", VInt 1)]) ] _ eq_refl).
  - exact (Hedges' [ (KInt 1, [("parentNode", VInt 1)]);
                     (KInt 2, [("parentNode", VInt 1)]) ] _ eq_refl).
Defined.


(** ** Position and sensor encodings *)

Lemma sensor_preferring_flat flat nested event :
  Simulation.sensor flat nested event = preferring_flat flat nested event.
Proof.
  unfold Simulation.sensor, preferring_flat, get_or, dget_none, get_or.
  destruct (dget flat event); [reflexivity|].
  destruct (dget "sensors" event) as [[| |]|]; reflexivity.
Qed.

Lemma simulation_node_record_fields nid event now count pos_x pos_y :
  let record := Simulation.node_record nid event now count pos_x pos_y in
  dget "position" record = Some (VDict [("x", pos_x); ("y", pos_y)])
  /\ dget "temp" record = Some (Simulation.sensor "temp" "temperature" event)
  /\ dget "humidity" record
     = Some (Simulation.sensor "humidity" "humidity" event)
  /\ dget "lastUpdate" record = Some (VInt now)
  /\ dget "messageCount" record = Some (VInt count)
  /\ dget "online" record = Some (VBool true)
  /\ dget "offlineSince" record = None.
Proof. repeat split; reflexivity. Qed.

Lemma dmem_dget k (d : dict) v : dget k d = Some v -> dmem k d = true.
Proof. unfold mem. now intros ->. Qed.

Lemma dmem_dget_none k (d : dict) : dget k d = None -> dmem k d = false.
Proof. unfold mem. now intros ->. Qed.

(** What a stored node event leaves in the two stores of the simulation
    bridge, for its own node. *)
Lemma simulation_step_stored event w nid s :
  sim_stored_node event = Some nid ->
  let s' := Simulation.step s (Simulation.Event event w) in
  let k := key_of nid in
  let count := kget_or k 0 (Simulation.node_message_count s) + 1 in
  (forall pos,
      Simulation.event_position event = Ok pos ->
      kget k (Simulation.nodes_data s')
      = Some (Simulation.node_record nid event (Simulation.t_event w) count
                (fst pos) (snd pos)))
  /\ (forall xy parent_node,
        Simulation.topology_position nid event = Ok xy ->
        Simulation.stored_parent nid event = Ok parent_node ->
        kget k (Simulation.network_topology s')
        = Some (Simulation.topology_entry nid event (Simulation.t_topology w)
                  (fst xy) (snd xy) parent_node)).
Proof.
  intros Hs s' k count. subst s' k count.
  unfold Simulation.step. cbn [Simulation.handle_input].
  destruct (sim_stores_inv _ _ (simulation_process_stored event w nid Hs s))
    as (H1 & _ & _ & H4 & _).
  rewrite H1, H4.
  destruct (simulation_store_node_status_counters nid event w
              (exec (Simulation.log_console event) s))
    as (_ & _ & _ & Hnd & _).
  destruct (simulation_store_node_status_topology nid event w
              (exec (Simulation.log_console event) s)) as (Hnt & _).
  cbv zeta in Hnd, Hnt. rewrite Hnd, Hnt.
  destruct (sim_stores_inv _ _ (simulation_log_console_stores event s))
    as (L1 & _ & L3 & L4 & _).
  rewrite L1, L3, L4.
  split.
  - intros pos ->. apply kget_kset_same.
  - intros xy parent_node -> ->. apply kget_kset_same.
Qed.

(** C9.  A node event the simulation bridge stores (type [node_status] or
    [node_data], a truthy, hashable [nodeId]).  When the event has a flat
    [posX] key, the position stored in [nodes_data] is ([posX], [posY])
    ([posY] defaulting to 0), whatever the event has under [position], and
    so are [x] and [y] of the topology record when [update_topology] stores
    one.  Only when [posX] is absent is the [position] mapping read
    ([position.x], [position.y]).  The temperature and the humidity stored
    are the flat keys [temp] and [humidity] when the event has them, and
    the keys [temperature] and [humidity] of the [sensors] mapping
    otherwise. *)
Theorem flat_encoding_preferred :
  forall event w s nid,
    sim_stored_node event = Some nid ->
    let s' := Simulation.step s (Simulation.Event event w) in
    let k := key_of nid in
    (forall pos_x,
        dget "posX" event = Some pos_x ->
        let pos_y := dget_or "posY" (VInt 0) event in
        field_of k "position" (Simulation.nodes_data s')
        = Some (VDict [("x", pos_x); ("y", pos_y)])
        /\ (forall parent_node,
              Simulation.stored_parent nid event = Ok parent_node ->
              field_of k "x" (Simulation.network_topology s') = Some pos_x
              /\ field_of k "y" (Simulation.network_topology s')
                 = Some pos_y))
    /\ (forall nested,
          dget "posX" event = None ->
          dget_or "position" (VDict []) event = VDict nested ->
          field_of k "position" (Simulation.nodes_data s')
          = Some (VDict [ ("x", dget_or "x" (VInt 0) nested);
                          ("y", dget_or "y" (VInt 0) nested) ])
          /\ (forall parent_node,
                Simulation.stored_parent nid event = Ok parent_node ->
                field_of k "x" (Simulation.network_topology s')
                = Some (dget_or "x" (py_mul100 nid) nested)
                /\ field_of k "y" (Simulation.network_topology s')
                   = Some (dget_or "y" (VInt 0) nested)))
    /\ (forall pos,
          Simulation.event_position event = Ok pos ->
          field_of k "temp" (Simulation.nodes_data s')
          = Some (preferring_flat "temp" "temperature" event)
          /\ field_of k "humidity" (Simulation.nodes_data s')
             = Some (preferring_flat "humidity" "humidity" event)).
Proof.
  intros event w s nid Hs s' k.
  destruct (simulation_step_stored event w nid s Hs) as [Hnd Hnt].
  cbv zeta in Hnd, Hnt. fold s' k in Hnd, Hnt.
  split; [|split].
  - intros pos_x Hx pos_y.
    assert (Hpos : Simulation.event_position event = Ok (pos_x, pos_y)).
    { unfold Simulation.event_position. rewrite (dmem_dget _ _ _ Hx).
      unfold get_or at 1. now rewrite Hx. }
    assert (Htp : Simulation.topology_position nid event = Ok (pos_x, pos_y)).
    { unfold Simulation.topology_position. rewrite (dmem_dget _ _ _ Hx).
      unfold get_or at 1. now rewrite Hx. }
    split.
    + unfold field_of. rewrite (Hnd _ Hpos). reflexivity.
    + intros parent_node Hp. unfold field_of.
      rewrite (Hnt _ _ Htp Hp). split; reflexivity.
  - intros nested Hx Hn.
    assert (Hpos : Simulation.event_position event
                   = Ok (dget_or "x" (VInt 0) nested,
                         dget_or "y" (VInt 0) nested)).
    { unfold Simulation.event_position. rewrite (dmem_dget_none _ _ Hx), Hn.
      reflexivity. }
    assert (Htp : Simulation.topology_position nid event
                  = Ok (dget_or "x" (py_mul100 nid) nested,
                        dget_or "y" (VInt 0) nested)).
    { unfold Simulation.topology_position.
      rewrite (dmem_dget_none _ _ Hx). cbv zeta. rewrite Hn. reflexivity. }
    split.
    + unfold field_of. rewrite (Hnd _ Hpos). reflexivity.
    + intros parent_node Hp. unfold field_of.
      rewrite (Hnt _ _ Htp Hp). split; reflexivity.
  - intros pos Hpos. unfold field_of. rewrite (Hnd _ Hpos).
    rewrite <- !sensor_preferring_flat. split; reflexivity.
Qed.

(** Node 5 reports position (300, 0) flat and (310, 5) nested, temperature
    70 flat and 99 nested, humidity 40 nested only: the bridge stores
    (300, 0), 70 and 40. *)
Lemma flat_encoding_preferred_witness :
  let s' :=
    Simulation.step Simulation.init
      (Simulation.Event both_encodings_of_node_5 (sim_world_at 5)) in
  sim_stored_node both_encodings_of_node_5 = Some (SInt 5)
  /\ (field_of (KInt 5) "position" (Simulation.nodes_data s')
      = Some (VDict [("x", VInt 300); ("y", VInt 0)])
      /\ field_of (KInt 5) "x" (Simulation.network_topology s')
         = Some (VInt 300)
      /\ field_of (KInt 5) "y" (Simulation.network_topology s')
         = Some (VInt 0))
  /\ (field_of (KInt 5) "temp" (Simulation.nodes_data s') = Some (VInt 70)
      /\ field_of (KInt 5) "humidity" (Simulation.nodes_data s')
         = Some (VInt 40)).
Proof.
  destruct (flat_encoding_preferred both_encodings_of_node_5 (sim_world_at 5)
              Simulation.init (SInt 5) eq_refl) as (Hflat & _ & Hsensors).
  destruct (Hflat (VInt 300) eq_refl) as [Hpos Htopo].
  destruct (Htopo (VInt 1) eq_refl) as [Hx Hy].
  destruct (Hsensors (VInt 300, VInt 0) eq_refl) as [Ht Hh].
  repeat split; assumption.
Defined.

(** The scenario of the specification: node 5 reports [{posX: 300, posY:
    0}], then [{position: {x: 310, y: 5}}]; the position stored last is
    (310, 5). *)
Example two_position_encodings :
  let s' :=
    Simulation.run
      [ Simulation.Event both_encodings_of_node_5 (sim_world_at 5);
        Simulation.Event nested_position_of_node_5 (sim_world_at 6) ]
      Simulation.init in
  field_of (KInt 5) "position" (Simulation.nodes_data s')
  = Some (VDict [("x", VInt 310); ("y", VInt 5)]).
Proof. vm_compute. reflexivity. Qed.

(** ** Events without a usable node identifier *)

Lemma truthy_key_not_zero nid :
  truthy (VS nid) = true -> key_of nid <> KInt 0.
Proof.
  destruct nid as [|b|z|str]; cbn; try discriminate.
  - intros ->. discriminate.
  - intros H E. injection E as ->. discriminate.
Qed.

Lemma serial_stored_node_truthy data nid :
  serial_stored_node data = Some nid -> truthy (VS nid) = true.
Proof.
  unfold serial_stored_node.
  destruct (py_eq _ _); [|discriminate].
  destruct (truthy (dget_none "nodeId" data)) eqn:E; [|discriminate].
  destruct (dget_none "nodeId" data); try discriminate.
  now intros [= <-].
Qed.

Lemma sim_stored_node_truthy event nid :
  sim_stored_node event = Some nid -> truthy (VS nid) = true.
Proof.
  unfold sim_stored_node. cbv zeta.
  destruct (_ || _); [|discriminate].
  destruct (truthy (dget_none "nodeId" event)) eqn:E; [|discriminate].
  destruct (dget_none "nodeId" event); try discriminate.
  now intros [= <-].
Qed.

Lemma serial_falsy_not_stored data :
  truthy (dget_none "nodeId" data) = false -> serial_stored_node data = None.
Proof.
  intros H. unfold serial_stored_node. rewrite H.
  now destruct (py_eq _ _).
Qed.

Lemma sim_falsy_not_stored event :
  truthy (dget_none "nodeId" event) = false -> sim_stored_node event = None.
Proof.
  intros H. unfold sim_stored_node. cbv zeta. rewrite H.
  now destruct (_ || _).
Qed.

Lemma serial_unknown_step s i :
  serial_unknown (KInt 0) s -> serial_unknown (KInt 0) (Serial.step s i).
Proof.
  intros (Hnd & Hls & Hmc & Hnt).
  destruct (serial_quiet i) eqn:Hq.
  - destruct (serial_stores_inv _ _ (serial_step_quiet i s Hq))
      as (Hc & Ht & _ & _).
    unfold serial_counters in Hc. injection Hc as H1 H2 H3.
    unfold serial_unknown. rewrite H1, H2, H3, Ht. auto.
  - destruct i; cbn in Hq; try discriminate.
    + destruct (serial_stored_node data) as [nid|] eqn:Hs; [|discriminate].
      pose proof (truthy_key_not_zero nid
                    (serial_stored_node_truthy data nid Hs)) as Hk.
      destruct (serial_stores_inv _ _
                  (serial_process_mesh_data_stored data w nid Hs s))
        as (Hc & Ht & _ & _).
      unfold serial_counters in Hc. injection Hc as H1 H2 H3.
      destruct (serial_store_node_data_counters nid data w s)
        as (S1 & _ & S3 & S4).
      destruct (serial_store_node_data_topology nid data w s) as (T1 & _).
      cbv zeta in S1, S3, S4, T1.
      unfold serial_unknown, Serial.step. cbn [Serial.handle_input].
      rewrite H1, H2, H3, Ht, S1, S4, T1, S3 by assumption.
      rewrite !kget_kset_other by assumption. auto.
    + unfold Serial.step. cbn [Serial.handle_input].
      destruct (serial_check_offline_nodes_stores now is_closed s)
        as [H1 H2]. cbv zeta in H1, H2.
      apply serial_rest_inv in H2. destruct H2 as (R1 & R2 & R3 & _).
      unfold serial_unknown. rewrite H1, R1, R2, R3.
      pose proof (serial_sweep_related now (Serial.node_last_seen s)
                    (Serial.nodes_data s) false (KInt 0)) as Hr.
      rewrite Hnd in Hr. auto.
Qed.

Lemma simulation_step_counters s i :
  match i with
  | Simulation.Event event w =>
      match sim_stored_node event with
      | Some nid =>
          Simulation.node_last_seen (Simulation.step s i)
          = kset (key_of nid) (Simulation.t_event w)
              (Simulation.node_last_seen s)
          /\ kget (key_of nid)
               (Simulation.node_message_count (Simulation.step s i))
             = Some (kget_or (key_of nid) 0 (Simulation.node_message_count s)
                     + 1)
          /\ (forall k', key_of nid <> k' ->
                kget k' (Simulation.node_message_count (Simulation.step s i))
                = kget k' (Simulation.node_message_count s))
      | None =>
          Simulation.node_last_seen (Simulation.step s i)
          = Simulation.node_last_seen s
          /\ Simulation.node_message_count (Simulation.step s i)
             = Simulation.node_message_count s
      end
  | _ =>
      Simulation.node_last_seen (Simulation.step s i)
      = Simulation.node_last_seen s
      /\ Simulation.node_message_count (Simulation.step s i)
         = Simulation.node_message_count s
  end.
Proof.
  unfold Simulation.step. destruct i; cbn [Simulation.handle_input].
  - destruct (sim_stored_node event) as [nid|] eqn:Hs.
    + destruct (sim_stores_inv _ _ (simulation_process_stored event w nid Hs s))
        as (_ & H2 & H3 & _).
      rewrite H2, H3.
      destruct (simulation_store_node_status_counters nid event w
                  (exec (Simulation.log_console event) s))
        as (S1 & S2 & S3 & _).
      cbv zeta in S1, S2, S3.
      destruct (sim_stores_inv _ _ (simulation_log_console_stores event s))
        as (_ & L2 & L3 & _).
      rewrite L2, L3 in *. auto.
    + destruct (simulation_process_other event w Hs s) as (_ & H2 & H3 & _).
      auto.
  - destruct (simulation_check_offline_nodes_swept now is_closed s)
      as (H1 & H2 & _). auto.
  - destruct (sim_stores_inv _ _
                (simulation_websocket_connect_stores ws ws_closed s))
      as (_ & H2 & H3 & _). auto.
  - auto.
  - destruct (sim_stores_inv _ _ (simulation_get_topology_data_stores s))
      as (_ & H2 & H3 & _).
    rewrite (exec_bind_frame Simulation.node_last_seen) by reflexivity.
    rewrite (exec_bind_frame Simulation.node_message_count) by reflexivity.
    auto.
Qed.

Lemma simulation_step_records s i :
  match i with
  | Simulation.Event event w =>
      match sim_stored_node event with
      | Some nid =>
          (Simulation.nodes_data (Simulation.step s i) = Simulation.nodes_data s
           \/ exists r,
                Simulation.nodes_data (Simulation.step s i)
                = kset (key_of nid) r (Simulation.nodes_data s))
          /\ (Simulation.network_topology (Simulation.step s i)
              = Simulation.network_topology s
              \/ exists r,
                   Simulation.network_topology (Simulation.step s i)
                   = kset (key_of nid) r (Simulation.network_topology s))
      | None =>
          Simulation.nodes_data (Simulation.step s i) = Simulation.nodes_data s
          /\ Simulation.network_topology (Simulation.step s i)
             = Simulation.network_topology s
      end
  | Simulation.OfflineCheck _ _ =>
      sweep_related (Simulation.nodes_data s)
        (Simulation.nodes_data (Simulation.step s i))
      /\ sweep_related (Simulation.network_topology s)
           (Simulation.network_topology (Simulation.step s i))
  | _ =>
      Simulation.nodes_data (Simulation.step s i) = Simulation.nodes_data s
      /\ Simulation.network_topology (Simulation.step s i)
         = Simulation.network_topology s
  end.
Proof.
  unfold Simulation.step. destruct i; cbn [Simulation.handle_input].
  - destruct (sim_stored_node event) as [nid|] eqn:Hs.
    + destruct (sim_stores_inv _ _ (simulation_process_stored event w nid Hs s))
        as (H1 & _ & _ & H4 & _).
      rewrite H1, H4.
      destruct (simulation_store_node_status_counters nid event w
                  (exec (Simulation.log_console event) s))
        as (_ & _ & _ & Hnd & _).
      destruct (simulation_store_node_status_topology nid event w
                  (exec (Simulation.log_console event) s)) as (Hnt & _).
      cbv zeta in Hnd, Hnt. rewrite Hnd, Hnt.
      destruct (sim_stores_inv _ _ (simulation_log_console_stores event s))
        as (L1 & _ & _ & L4 & _).
      rewrite L1, L4. split.
      * destruct (Simulation.event_position event); eauto.
      * destruct (Simulation.topology_position nid event); auto.
        destruct (Simulation.stored_parent nid event); eauto.
    + destruct (simulation_process_other event w Hs s) as (H1 & _ & _ & H4 & _).
      auto.
  - destruct (simulation_check_offline_nodes_swept now is_closed s)
      as (_ & _ & _ & H4 & H5). auto.
  - destruct (sim_stores_inv _ _
                (simulation_websocket_connect_stores ws ws_closed s))
      as (H1 & _ & _ & H4 & _). auto.
  - auto.
  - destruct (sim_stores_inv _ _ (simulation_get_topology_data_stores s))
      as (H1 & _ & _ & H4 & _).
    rewrite (exec_bind_frame Simulation.nodes_data) by reflexivity.
    rewrite (exec_bind_frame Simulation.network_topology) by reflexivity.
    auto.
Qed.

Lemma sim_unknown_step s i :
  sim_unknown (KInt 0) s -> sim_unknown (KInt 0) (Simulation.step s i).
Proof.
  intros (Hnd & Hls & Hmc & Hnt).
  pose proof (simulation_step_counters s i) as Hc.
  pose proof (simulation_step_records s i) as Hr.
  unfold sim_unknown.
  destruct i.
  - destruct (sim_stored_node event) as [nid|] eqn:Hs.
    + pose proof (truthy_key_not_zero nid
                    (sim_stored_node_truthy event nid Hs)) as Hk.
      destruct Hc as (C1 & _ & C3). destruct Hr as (R1 & R2).
      rewrite C1, C3 by assumption.
      rewrite kget_kset_other by assumption.
      repeat split; auto.
      * destruct R1 as [->|[r ->]]; auto.
        now rewrite kget_kset_other.
      * destruct R2 as [->|[r ->]]; auto.
        now rewrite kget_kset_other.
    + destruct Hc as (-> & ->). destruct Hr as (-> & ->). auto.
  - destruct Hc as (-> & ->). destruct Hr as (R1 & R2).
    specialize (R1 (KInt 0)). specialize (R2 (KInt 0)).
    rewrite Hnd in R1. rewrite Hnt in R2. auto.
  - destruct Hc as (-> & ->). destruct Hr as (-> & ->). auto.
  - destruct Hc as (-> & ->). destruct Hr as (-> & ->). auto.
  - destruct Hc as (-> & ->). destruct Hr as (-> & ->). auto.
Qed.

Lemma simulation_run_app l i s :
  Simulation.run (l ++ [i]) s = Simulation.step (Simulation.run l s) i.
Proof. unfold Simulation.run. now rewrite fold_left_app. Qed.

(** C10.  A node event whose [nodeId] is absent or falsy changes no store
    of node state in either bridge: no node record, no last-seen time, no
    message count, no topology record, and in the serial bridge no
    snapshot and no upload either.  Over every run of either bridge from
    its initial state, no store has an entry for identifier 0. *)
Theorem falsy_node_id_dropped :
  (forall data w s,
      py_eq (dget_or "type" (VStr "unknown") data) (SStr "node_data") = true ->
      truthy (dget_none "nodeId" data) = false ->
      serial_stores (Serial.step s (Serial.MeshData data w))
      = serial_stores s)
  /\
  (forall event w s,
      py_eq (dget_or "type" (VStr "unknown") event) (SStr "node_status")
      || py_eq (dget_or "type" (VStr "unknown") event) (SStr "node_data")
      = true ->
      truthy (dget_none "nodeId" event) = false ->
      sim_stores (Simulation.step s (Simulation.Event event w))
      = sim_stores s)
  /\ (forall inputs, serial_unknown (KInt 0) (Serial.run inputs Serial.init))
  /\ (forall inputs,
        sim_unknown (KInt 0) (Simulation.run inputs Simulation.init)).
Proof.
  split; [|split; [|split]].
  - intros data w s _ Hfalsy.
    apply serial_process_mesh_data_dropped.
    now apply serial_falsy_not_stored.
  - intros event w s Htype Hfalsy.
    pose proof (sim_falsy_not_stored event Hfalsy) as Hs.
    destruct (simulation_process_other event w Hs s)
      as (H1 & H2 & H3 & H4 & H5).
    unfold Simulation.step. cbn [Simulation.handle_input].
    unfold sim_stores. rewrite H1, H2, H3, H4, H5.
    unfold sim_packet_entry. cbv zeta. rewrite Htype. reflexivity.
  - intros inputs. induction inputs as [|i inputs IH] using rev_ind.
    + repeat split.
    + rewrite serial_run_app. now apply serial_unknown_step.
  - intros inputs. induction inputs as [|i inputs IH] using rev_ind.
    + repeat split.
    + rewrite simulation_run_app. now apply sim_unknown_step.
Qed.

(** After a reading of node 2, a reading without [nodeId] and one with
    [nodeId] 0 leave the stores of both bridges as they were. *)
Lemma falsy_node_id_dropped_witness :
  let s :=
    Serial.step Serial.init
      (Serial.MeshData reading_of_node_2 (serial_world_at 1000 Serial.HttpOk))
  in
  let u :=
    Simulation.step Simulation.init
      (Simulation.Event reading_of_node_2 (sim_world_at 1000)) in
  serial_stores
    (Serial.step s
       (Serial.MeshData reading_without_node_id
          (serial_world_at 1100 Serial.HttpOk)))
  = serial_stores s
  /\ serial_stores
       (Serial.step s
          (Serial.MeshData reading_of_node_0
             (serial_world_at 1100 Serial.HttpOk)))
     = serial_stores s
  /\ sim_stores
       (Simulation.step u
          (Simulation.Event reading_without_node_id (sim_world_at 1100)))
     = sim_stores u
  /\ sim_stores
       (Simulation.step u
          (Simulation.Event reading_of_node_0 (sim_world_at 1100)))
     = sim_stores u.
Proof.
  destruct falsy_node_id_dropped as (Hserial & Hsim & _ & _).
  intros s u. split; [|split; [|split]].
  - exact (Hserial reading_without_node_id _ s eq_refl eq_refl).
  - exact (Hserial reading_of_node_0 _ s eq_refl eq_refl).
  - exact (Hsim reading_without_node_id _ u eq_refl eq_refl).
  - exact (Hsim reading_of_node_0 _ u eq_refl eq_refl).
Defined.

(** ** Last-seen times and message counts *)

(** Serial bridge: over every run, for every node identifier, the last-seen
    time is the arrival time of the last stored event of the node, the
    message count is the number of its stored events, and the node record
    carries both. *)
Lemma serial_last_seen_and_count inputs k :
  let s := Serial.run inputs Serial.init in
  let times := serial_arrivals k inputs in
  kget k (Serial.node_last_seen s) = last_opt times
  /\ kget_or k 0 (Serial.node_message_count s) = Z.of_nat (List.length times)
  /\ match last_opt times with
     | None => kget k (Serial.nodes_data s) = None
     | Some t =>
         field_of k "lastUpdate" (Serial.nodes_data s) = Some (VInt t)
         /\ field_of k "messageCount" (Serial.nodes_data s)
            = Some (VInt (Z.of_nat (List.length times)))
     end.
Proof.
  intros s times. destruct (serial_counted_run k inputs) as (H1 & H2 & H3).
  fold s times in H1, H2, H3. split; [assumption|]. split; [assumption|].
  destruct (last_opt times); [|assumption].
  destruct H3 as (r & Hr & Hlu & Hmc). unfold field_of. rewrite Hr. auto.
Qed.

Lemma sim_arrivals_app k l i :
  sim_arrivals k (l ++ [i]) = sim_arrivals k l ++ option_list (sim_arrival k i).
Proof.
  unfold sim_arrivals. rewrite flat_map_app. simpl. now rewrite app_nil_r.
Qed.

(** Simulation bridge: the two tables follow the events that pass the
    [if node_id:] test, over every run. *)
Lemma simulation_last_seen_and_count inputs k :
  let s := Simulation.run inputs Simulation.init in
  let times := sim_arrivals k inputs in
  kget k (Simulation.node_last_seen s) = last_opt times
  /\ kget_or k 0 (Simulation.node_message_count s)
     = Z.of_nat (List.length times).
Proof.
  induction inputs as [|i inputs IH] using rev_ind.
  - split; reflexivity.
  - cbv zeta in *. rewrite simulation_run_app, sim_arrivals_app.
    destruct IH as [IH1 IH2].
    pose proof (simulation_step_counters
                  (Simulation.run inputs Simulation.init) i) as Hc.
    assert (Hsame :
      Simulation.node_last_seen
        (Simulation.step (Simulation.run inputs Simulation.init) i)
      = Simulation.node_last_seen (Simulation.run inputs Simulation.init)
      /\ Simulation.node_message_count
           (Simulation.step (Simulation.run inputs Simulation.init) i)
         = Simulation.node_message_count
             (Simulation.run inputs Simulation.init) ->
      sim_arrival k i = None ->
      kget k (Simulation.node_last_seen
                (Simulation.step (Simulation.run inputs Simulation.init) i))
      = last_opt (sim_arrivals k inputs ++ option_list (sim_arrival k i))
      /\ kget_or k 0
           (Simulation.node_message_count
              (Simulation.step (Simulation.run inputs Simulation.init) i))
         = Z.of_nat
             (List.length
                (sim_arrivals k inputs ++ option_list (sim_arrival k i)))).
    { intros [-> ->] ->. cbn [option_list]. rewrite app_nil_r. auto. }
    destruct i; try (apply Hsame; [assumption|reflexivity]).
    cbn [sim_arrival] in *.
    destruct (sim_stored_node event) as [nid|];
      [|apply Hsame; [assumption|reflexivity]].
    destruct Hc as (C1 & C2 & C3). rewrite C1.
    destruct (key_eqb (key_of nid) k) eqn:Hk.
    + apply key_eqb_eq in Hk. subst k. cbn [option_list].
      rewrite last_opt_app_one, kget_kset_same, length_app.
      cbn [List.length]. unfold get_or at 1. rewrite C2, IH2.
      split; [reflexivity|]. lia.
    + assert (Hne : key_of nid <> k).
      { intros E. rewrite E, (proj2 (key_eqb_eq k k) eq_refl) in Hk.
        discriminate. }
      cbn [option_list]. rewrite app_nil_r.
      rewrite kget_kset_other by assumption.
      unfold get_or. rewrite C3 by assumption. auto.
Qed.

(** Simulation bridge: when the event is stored, the record agrees with
    the two tables. *)
Lemma simulation_record_agrees event w nid s pos :
  sim_stored_node event = Some nid ->
  Simulation.event_position event = Ok pos ->
  let s' := Simulation.step s (Simulation.Event event w) in
  let k := key_of nid in
  exists count,
    kget k (Simulation.node_last_seen s') = Some (Simulation.t_event w)
    /\ field_of k "lastUpdate" (Simulation.nodes_data s')
       = Some (VInt (Simulation.t_event w))
    /\ kget k (Simulation.node_message_count s') = Some count
    /\ field_of k "messageCount" (Simulation.nodes_data s')
       = Some (VInt count).
Proof.
  intros Hs Hpos s' k.
  destruct (simulation_step_stored event w nid s Hs) as [Hnd _].
  cbv zeta in Hnd. specialize (Hnd pos Hpos). fold s' k in Hnd.
  pose proof (simulation_step_counters s (Simulation.Event event w)) as Hc.
  cbn beta iota in Hc. rewrite Hs in Hc. destruct Hc as (C1 & C2 & _).
  fold s' k in C1, C2.
  exists (kget_or k 0 (Simulation.node_message_count s) + 1).
  unfold field_of. rewrite C1, C2, Hnd, kget_kset_same.
  repeat split; reflexivity.
Qed.

(** C1, the failing input.  The simulation bridge gets a reading of node 2
    at time 1000 and, at time 1010, an event of node 2 whose [position] is
    [null].  The second event is counted and moves the last-seen time,
    then [event.get('position', {}).get('x', 0)] raises and the record is
    not written: the tables say 2 events, last seen at 1010, the record
    says 1 event, last update at 1000. *)
Theorem simulation_record_lags_behind :
  let s :=
    Simulation.run
      [ Simulation.Event reading_of_node_2 (sim_world_at 1000);
        Simulation.Event unknown_position_of_node_2 (sim_world_at 1010) ]
      Simulation.init in
  returned
    (Simulation.process_simulation_event unknown_position_of_node_2
       (sim_world_at 1010))
    (Simulation.step Simulation.init
       (Simulation.Event reading_of_node_2 (sim_world_at 1000)))
  = false
  /\ kget (KInt 2) (Simulation.node_last_seen s) = Some 1010
  /\ kget (KInt 2) (Simulation.node_message_count s) = Some 2
  /\ field_of (KInt 2) "lastUpdate" (Simulation.nodes_data s)
     = Some (VInt 1000)
  /\ field_of (KInt 2) "messageCount" (Simulation.nodes_data s)
     = Some (VInt 1).
Proof. vm_compute. repeat split; reflexivity. Qed.

(** ** Liveness *)

(** [update_topology] leaves the cache dirty in both bridges, also when
    the simulation bridge raises before it stores the record. *)
Lemma update_topology_sets_dirty :
  (forall nid data now s,
      Serial.topology_cache_dirty
        (exec (Serial.update_topology nid data now) s) = true)
  /\ (forall nid data now s,
        Simulation.topology_cache_dirty
          (exec (Simulation.update_topology nid data now) s) = true).
Proof.
  split; intros nid data now s.
  - reflexivity.
  - unfold exec. rewrite simulation_update_topology_eq. cbv zeta.
    destruct (Simulation.topology_position nid data); [|reflexivity].
    destruct (Simulation.stored_parent nid data); reflexivity.
Qed.

(** Simulation bridge: a sweep that flips a node leaves the cache dirty
    when its loop ends, before the broadcast that follows rebuilds it. *)
Lemma simulation_flip_sets_dirty now s :
  let r := fold_left (Simulation.check_node now) (Simulation.node_last_seen s)
             (s, false) in
  snd r = true -> Simulation.topology_cache_dirty (fst r) = true.
Proof.
  intros r Hchanged.
  destruct (simulation_sweep_spec now (Simulation.node_last_seen s) s false)
    as [_ [[Hb _]|[_ Hd]]]; fold r in Hb || fold r in Hd.
  - congruence.
  - assumption.
Qed.

(** Serial bridge, one turn of the sweep on a node that has a record:
    silent beyond the timeout and online, the record goes offline with
    [offlineSince] the last-seen time; silent and already offline, nothing
    changes. *)
Lemma serial_check_node_offline now nds changed node_id last_seen record :
  kget node_id nds = Some record ->
  Serial.NODE_OFFLINE_TIMEOUT < now - last_seen ->
  Serial.check_node now (nds, changed) (node_id, last_seen)
  = if truthy (dget_or "online" (VBool true) record)
    then (kset node_id
            (dset "offlineSince" (VInt last_seen)
               (dset "online" (VBool false) record)) nds,
          true)
    else (nds, changed).
Proof.
  intros Hr Hsilent. unfold Serial.check_node.
  apply Z.ltb_lt in Hsilent. rewrite Hsilent.
  rewrite (get_or_some _ _ _ _ _ Hr).
  unfold mem. rewrite Hr.
  destruct (truthy (dget_or "online" (VBool true) record)); reflexivity.
Qed.

(** Simulation bridge, the same turn: the record goes offline and so does
    the topology record; no [offlineSince] is written. *)
Lemma simulation_check_node_offline now s changed node_id last_seen record :
  kget node_id (Simulation.nodes_data s) = Some record ->
  Simulation.NODE_OFFLINE_TIMEOUT < now - last_seen ->
  truthy (dget_or "online" (VBool true) record) = true ->
  let r := Simulation.check_node now (s, changed) (node_id, last_seen) in
  snd r = true
  /\ Simulation.nodes_data (fst r)
     = kset node_id (dset "online" (VBool false) record)
         (Simulation.nodes_data s)
  /\ Simulation.topology_cache_dirty (fst r) = true.
Proof.
  intros Hr Hsilent Honline. unfold Simulation.check_node.
  apply Z.ltb_lt in Hsilent. rewrite Hsilent.
  rewrite (get_or_some _ _ _ _ _ Hr), Honline.
  unfold mem. rewrite Hr. cbn [andb fst snd].
  cbn [Simulation.network_topology Simulation.set_nodes_data].
  destruct (kget node_id (Simulation.network_topology s));
    repeat split; reflexivity.
Qed.

(** C2, the failing input.  The serial bridge stores a reading of node 2
    at time 1000, the topology is read (which leaves the cache clean), and
    at time 1100 the offline sweep flips node 2 to offline: the dirty flag
    is still false afterwards.  On the same inputs the simulation bridge
    ends with the flag set. *)
Theorem serial_flip_leaves_cache_clean :
  let s :=
    Serial.run
      [ Serial.MeshData reading_of_node_2 (serial_world_at 1000 Serial.HttpOk);
        Serial.ApiTopology;
        Serial.OfflineCheck 1100 nobody_closed ]
      Serial.init in
  let u :=
    Simulation.run
      [ Simulation.Event reading_of_node_2 (sim_world_at 1000);
        Simulation.ApiTopology;
        Simulation.OfflineCheck 1100 nobody_closed ]
      Simulation.init in
  (field_of (KInt 2) "online" (Serial.nodes_data s) = Some (VBool false)
   /\ Serial.topology_cache_dirty s = false)
  /\ (field_of (KInt 2) "online" (Simulation.nodes_data u)
      = Some (VBool false)
      /\ Simulation.topology_cache_dirty u = true).
Proof. vm_compute. repeat split; reflexivity. Qed.

(** C4, the failing input.  The simulation bridge stores a reading of
    node 2 at time 1000 and sweeps at time 1011, past its timeout of 10:
    node 2 goes offline and its record has no [offlineSince].  The serial
    bridge, swept at time 1091 past its timeout of 90, records
    [offlineSince] = 1000. *)
Theorem simulation_sweep_records_no_offline_since :
  let u :=
    Simulation.run
      [ Simulation.Event reading_of_node_2 (sim_world_at 1000);
        Simulation.OfflineCheck 1011 nobody_closed ]
      Simulation.init in
  let s :=
    Serial.run
      [ Serial.MeshData reading_of_node_2 (serial_world_at 1000 Serial.HttpOk);
        Serial.OfflineCheck 1091 nobody_closed ]
      Serial.init in
  (field_of (KInt 2) "online" (Simulation.nodes_data u) = Some (VBool false)
   /\ field_of (KInt 2) "offlineSince" (Simulation.nodes_data u) = None)
  /\ (field_of (KInt 2) "online" (Serial.nodes_data s) = Some (VBool false)
      /\ field_of (KInt 2) "offlineSince" (Serial.nodes_data s)
         = Some (VInt 1000)).
Proof. vm_compute. repeat split; reflexivity. Qed.

(** * Further properties of the bridges *)

(** ** The packet counters and the console log *)

Lemma simulation_get_topology_data_logs s :
  sim_logs (exec Simulation.get_topology_data s) = sim_logs s.
Proof.
  unfold exec, Simulation.get_topology_data, bind, gets, modify, ret, raise.
  destruct (Simulation.topology_cache_dirty s), (Simulation.topology_cache s);
    try destruct (Simulation.build_edges (Simulation.network_topology s));
    reflexivity.
Qed.

Lemma simulation_broadcast_update_logs c s :
  sim_logs (exec (Simulation.broadcast_update c) s) = sim_logs s.
Proof.
  unfold Simulation.broadcast_update.
  unfold exec, bind at 1, gets at 1.
  destruct (Simulation.websocket_clients s) eqn:Hc; [reflexivity|].
  rewrite <- Hc.
  unfold bind, gets, modify.
  pose proof (simulation_get_topology_data_logs s) as H. unfold exec in H.
  destruct (Simulation.get_topology_data s) as [[t|e] s1]; simpl in *; auto.
  rewrite simulation_send_to_all. simpl. exact H.
Qed.

Lemma simulation_broadcast_serial_line_logs line c s :
  sim_logs (exec (Simulation.broadcast_serial_line line c) s) = sim_logs s.
Proof.
  unfold Simulation.broadcast_serial_line.
  unfold exec, bind at 1, gets at 1.
  destruct (Simulation.websocket_clients s) eqn:Hc; [reflexivity|].
  rewrite <- Hc.
  unfold bind, gets, modify.
  rewrite simulation_send_to_all. reflexivity.
Qed.

Lemma simulation_update_topology_logs nid event now s :
  sim_logs (exec (Simulation.update_topology nid event now) s) = sim_logs s.
Proof.
  unfold exec. rewrite simulation_update_topology_eq. cbv zeta.
  destruct (Simulation.topology_position nid event); [|reflexivity].
  destruct (Simulation.stored_parent nid event); reflexivity.
Qed.

Lemma simulation_store_node_status_logs nid event w s :
  sim_logs (exec (Simulation.store_node_status nid event w) s) = sim_logs s.
Proof.
  rewrite simulation_store_node_status_exec. cbv zeta.
  destruct (Simulation.event_position event); [|reflexivity].
  now rewrite simulation_update_topology_logs.
Qed.

Lemma simulation_check_node_logs now acc entry :
  sim_logs (fst (Simulation.check_node now acc entry)) = sim_logs (fst acc).
Proof.
  destruct acc as [s b], entry as [k t]. unfold Simulation.check_node.
  destruct (_ <? _); destruct (_ && _); try reflexivity;
    cbn [fst]; destruct (kget k (Simulation.network_topology _));
    reflexivity.
Qed.

Lemma simulation_sweep_logs now seen : forall acc,
  sim_logs (fst (fold_left (Simulation.check_node now) seen acc))
  = sim_logs (fst acc).
Proof.
  induction seen as [|e rest IH]; intros acc; [reflexivity|].
  cbn [fold_left]. rewrite IH. apply simulation_check_node_logs.
Qed.

Lemma simulation_check_offline_nodes_logs now c s :
  sim_logs (exec (Simulation.check_offline_nodes now c) s) = sim_logs s.
Proof.
  rewrite simulation_check_offline_nodes_eq. cbv zeta.
  pose proof (simulation_sweep_logs now (Simulation.node_last_seen s)
                (s, false)) as H.
  destruct (snd _); [|exact H].
  now rewrite simulation_broadcast_update_logs.
Qed.

Lemma simulation_websocket_connect_logs ws b s :
  sim_logs (exec (Simulation.websocket_connect ws b) s) = sim_logs s.
Proof.
  unfold exec, Simulation.websocket_connect.
  pose proof (simulation_get_topology_data_logs
                (Simulation.set_websocket_clients
                   (Simulation.add_client ws (Simulation.websocket_clients s))
                   s)) as H.
  unfold exec in H.
  replace (sim_logs (Simulation.set_websocket_clients
                       (Simulation.add_client ws
                          (Simulation.websocket_clients s)) s))
    with (sim_logs s) in H by reflexivity.
  destruct (Simulation.get_topology_data _) as [[t|e] s2]; cbn [snd] in *.
  - destruct b; cbn [snd]; rewrite <- H; reflexivity.
  - rewrite <- H. reflexivity.
Qed.

Lemma simulation_step_logs s i :
  sim_logs (Simulation.step s i)
  = match i with
    | Simulation.Event event w =>
        ((if has_type "node_status" event || has_type "node_data" event
          then Simulation.mesh_stats s
          else if has_type "packet_sent" event
          then Simulation.bump_sent (Simulation.mesh_stats s)
          else if has_type "packet_received" event
          then Simulation.bump_received (Simulation.mesh_stats s)
          else if has_type "packet_dropped" event
          then Simulation.bump_dropped (Simulation.mesh_stats s)
          else Simulation.mesh_stats s),
         last_n Simulation.MAX_CONSOLE_LINES
           (Simulation.console_lines s ++ [event]))
    | _ => sim_logs s
    end.
Proof.
  unfold Simulation.step. destruct i; cbn [Simulation.handle_input].
  - unfold Simulation.process_simulation_event. cbv zeta.
    rewrite exec_bind, simulation_log_console_eq.
    rewrite (exec_bind_frame sim_logs).
    2:{ intros. rewrite (exec_bind_frame sim_logs)
          by (intros; apply simulation_broadcast_serial_line_logs).
        apply simulation_broadcast_update_logs. }
    unfold has_type.
    destruct (py_eq _ (SStr "node_status") || py_eq _ (SStr "node_data")).
    + destruct (truthy (dget_none "nodeId" event)); [|reflexivity].
      destruct (dget_none "nodeId" event); try reflexivity.
      now rewrite simulation_store_node_status_logs.
    + destruct (py_eq _ (SStr "packet_sent")).
      * unfold exec, bind at 1, modify at 1.
        rewrite simulation_record_packet_eq. reflexivity.
      * destruct (py_eq _ (SStr "packet_received")).
        -- unfold exec, bind at 1, modify at 1.
           rewrite simulation_record_packet_eq. reflexivity.
        -- destruct (py_eq _ (SStr "packet_dropped")); reflexivity.
  - apply simulation_check_offline_nodes_logs.
  - apply simulation_websocket_connect_logs.
  - reflexivity.
  - rewrite (exec_bind_frame sim_logs) by reflexivity.
    apply simulation_get_topology_data_logs.
Qed.

Lemma sim_logs_inv a b :
  sim_logs a = sim_logs b ->
  Simulation.mesh_stats a = Simulation.mesh_stats b
  /\ Simulation.console_lines a = Simulation.console_lines b.
Proof. unfold sim_logs. intros H. injection H. auto. Qed.

Lemma sim_events_app l i :
  sim_events (l ++ [i])
  = sim_events l
    ++ match i with Simulation.Event event _ => [event] | _ => [] end.
Proof. unfold sim_events. rewrite flat_map_app. cbn. now rewrite app_nil_r. Qed.

(** An event has one type. *)
Lemma has_type_exclusive a b event :
  has_type a event = true -> a <> b -> has_type b event = false.
Proof.
  unfold has_type, py_eq, py_eq_key. intros H Hab.
  destruct (dget_or "type" (VStr "unknown") event) as [sc| |]; try discriminate.
  destruct sc; cbn in *; try discriminate.
  apply String.eqb_eq in H. subst. now apply String.eqb_neq.
Qed.

Lemma count_type_app t l e :
  count_type t (l ++ [e])
  = count_type t l + (if has_type t e then 1 else 0).
Proof.
  unfold count_type. rewrite filter_app, length_app. cbn.
  destruct (has_type t e); cbn; lia.
Qed.

Lemma simulation_run_logs inputs :
  let s := Simulation.run inputs Simulation.init in
  let events := sim_events inputs in
  (Simulation.packetsSent (Simulation.mesh_stats s)
   = count_type "packet_sent" events
   /\ Simulation.packetsReceived (Simulation.mesh_stats s)
      = count_type "packet_received" events
   /\ Simulation.packetsDropped (Simulation.mesh_stats s)
      = count_type "packet_dropped" events)
  /\ Simulation.console_lines s = last_n Simulation.MAX_CONSOLE_LINES events.
Proof.
  induction inputs as [|i l IH] using rev_ind.
  - cbv zeta. cbn. repeat split.
  - cbv zeta in *. rewrite simulation_run_app, sim_events_app.
    pose proof (simulation_step_logs (Simulation.run l Simulation.init) i)
      as Hstep.
    destruct IH as [(H1 & H2 & H3) H4].
    destruct i as [event w| | | |];
      try (apply sim_logs_inv in Hstep; destruct Hstep as [Hst Hcl];
           rewrite Hst, Hcl, app_nil_r; repeat split; assumption).
    unfold sim_logs in Hstep. injection Hstep as Hst Hcl. rewrite Hst, Hcl.
    rewrite !count_type_app. split.
    + destruct (has_type "node_status" event) eqn:T1.
      { rewrite (has_type_exclusive _ "packet_sent" _ T1) by discriminate.
        rewrite (has_type_exclusive _ "packet_received" _ T1) by discriminate.
        rewrite (has_type_exclusive _ "packet_dropped" _ T1) by discriminate.
        cbn [orb]. rewrite !Z.add_0_r. auto. }
      destruct (has_type "node_data" event) eqn:T2.
      { rewrite (has_type_exclusive _ "packet_sent" _ T2) by discriminate.
        rewrite (has_type_exclusive _ "packet_received" _ T2) by discriminate.
        rewrite (has_type_exclusive _ "packet_dropped" _ T2) by discriminate.
        cbn [orb]. rewrite !Z.add_0_r. auto. }
      cbn [orb].
      destruct (has_type "packet_sent" event) eqn:T3.
      { rewrite (has_type_exclusive _ "packet_received" _ T3) by discriminate.
        rewrite (has_type_exclusive _ "packet_dropped" _ T3) by discriminate.
        cbn. rewrite !Z.add_0_r. repeat split; congruence. }
      destruct (has_type "packet_received" event) eqn:T4.
      { rewrite (has_type_exclusive _ "packet_dropped" _ T4) by discriminate.
        cbn. rewrite !Z.add_0_r. repeat split; congruence. }
      destruct (has_type "packet_dropped" event) eqn:T5.
      { cbn. rewrite !Z.add_0_r. repeat split; congruence. }
      rewrite !Z.add_0_r. auto.
    + rewrite H4. apply last_n_app.
Qed.

(** X1.  Simulation bridge: over every run from the initial state, each of
    the three counters of [mesh_stats] is the number of events of its type
    ([packet_sent], [packet_received], [packet_dropped]) handed to
    [process_simulation_event] so far.  An event is counted when it
    arrives, whatever the broadcast that ends its handling does. *)
Theorem packet_counters_count_events :
  forall inputs,
    let s := Simulation.run inputs Simulation.init in
    let events := sim_events inputs in
    Simulation.packetsSent (Simulation.mesh_stats s)
    = count_type "packet_sent" events
    /\ Simulation.packetsReceived (Simulation.mesh_stats s)
       = count_type "packet_received" events
    /\ Simulation.packetsDropped (Simulation.mesh_stats s)
       = count_type "packet_dropped" events.
Proof. intros inputs. exact (proj1 (simulation_run_logs inputs)). Qed.

(** X2.  Simulation bridge: over every run from the initial state,
    [console_lines] holds the last 500 events handed to
    [process_simulation_event], oldest first, whatever their type and
    whether or not their handling raised afterwards: at most 500 entries,
    and the ones dropped are the oldest. *)
Theorem console_log_bounded_fifo :
  forall inputs,
    let s := Simulation.run inputs Simulation.init in
    let events := sim_events inputs in
    Simulation.console_lines s = last_n Simulation.MAX_CONSOLE_LINES events
    /\ (List.length (Simulation.console_lines s) <= 500)%nat
    /\ (exists evicted, events = evicted ++ Simulation.console_lines s).
Proof.
  intros inputs s events.
  assert (H : Simulation.console_lines s
              = last_n Simulation.MAX_CONSOLE_LINES events)
    by exact (proj2 (simulation_run_logs inputs)).
  rewrite H. repeat split.
  - apply (last_n_bound Simulation.MAX_CONSOLE_LINES).
  - apply last_n_suffix.
Qed.

(** ** Connections *)

Lemma last_n_last_n {A} (a b : nat) (l : list A) :
  (a <= b)%nat -> last_n a (last_n b l) = last_n a l.
Proof.
  intros Hab. unfold last_n. rewrite length_skipn, skipn_skipn.
  f_equal. lia.
Qed.

(** [get_topology_data] does not look at the registered connections. *)
Lemma simulation_get_topology_data_clients clients s :
  Simulation.get_topology_data (Simulation.set_websocket_clients clients s)
  = (fst (Simulation.get_topology_data s),
     Simulation.set_websocket_clients clients
       (snd (Simulation.get_topology_data s))).
Proof.
  destruct (Simulation.topology_cache_dirty s) eqn:Hd.
  - rewrite !simulation_get_topology_data_miss by (left; exact Hd).
    cbn [Simulation.network_topology Simulation.set_websocket_clients
         Simulation.packet_events].
    destruct (Simulation.build_edges (Simulation.network_topology s));
      reflexivity.
  - destruct (Simulation.topology_cache s) as [c|] eqn:Hc.
    + rewrite (simulation_get_topology_data_hit _ c) by assumption.
      now rewrite (simulation_get_topology_data_hit s c) by assumption.
    + rewrite !simulation_get_topology_data_miss by (right; exact Hc).
      cbn [Simulation.network_topology Simulation.set_websocket_clients
           Simulation.packet_events].
      destruct (Simulation.build_edges (Simulation.network_topology s));
        reflexivity.
Qed.

Lemma in_add_client ws clients : In ws (Simulation.add_client ws clients).
Proof.
  unfold Simulation.add_client.
  destruct (existsb (Nat.eqb ws) clients) eqn:E.
  - now apply existsb_eqb_in.
  - apply in_or_app. right. now left.
Qed.

Lemma not_in_discard_client ws clients :
  ~ In ws (Simulation.discard_client ws clients).
Proof.
  unfold Simulation.discard_client. intros H. apply filter_In in H.
  destruct H as [_ H]. now rewrite Nat.eqb_refl in H.
Qed.

(** X3.  Simulation bridge: a client that connects after any run, and
    whose connection is open, is registered and is sent the [init] message
    with the current state followed by the last 50 events handled, oldest
    first; a client whose connection is already closed is sent nothing and
    is not left registered.  The first part needs [get_topology_data()] to
    return, which builds the [init] message. *)
Theorem connect_replays_console :
  forall inputs ws t s1,
    let s := Simulation.run inputs Simulation.init in
    Simulation.get_topology_data s = (Ok t, s1) ->
    let opened := Simulation.step s (Simulation.Connect ws false) in
    let closed := Simulation.step s (Simulation.Connect ws true) in
    (Simulation.outbox opened
     = Simulation.outbox s
       ++ Simulation.Sent ws
            (Simulation.MsgInit (Simulation.gateway_data s)
               (Simulation.nodes_data s) (Simulation.mesh_stats s) t)
          :: map (fun event => Simulation.Sent ws (Simulation.MsgSerial event))
               (last_n 50 (sim_events inputs))
     /\ In ws (Simulation.websocket_clients opened))
    /\ (Simulation.outbox closed = Simulation.outbox s
        /\ ~ In ws (Simulation.websocket_clients closed)).
Proof.
  intros inputs ws t s1 s Ht opened closed.
  pose proof (simulation_get_topology_data_frame _ _ _ Ht) as [Hc Ho].
  assert (Hstores : sim_stores s1 = sim_stores s).
  { pose proof (simulation_get_topology_data_stores s) as H.
    unfold exec in H. now rewrite Ht in H. }
  assert (Hlogs : sim_logs s1 = sim_logs s).
  { pose proof (simulation_get_topology_data_logs s) as H.
    unfold exec in H. now rewrite Ht in H. }
  apply sim_stores_inv in Hstores. destruct Hstores as (Hn & _).
  apply sim_logs_inv in Hlogs. destruct Hlogs as (Hm & Hl).
  assert (Hg : Simulation.gateway_data s1 = Simulation.gateway_data s).
  { revert Ht.
    unfold Simulation.get_topology_data, bind, gets, modify, ret, raise.
    destruct (Simulation.topology_cache_dirty s),
      (Simulation.topology_cache s);
      try destruct (Simulation.build_edges (Simulation.network_topology s));
      intros Ht; inversion Ht; reflexivity. }
  subst opened closed.
  unfold Simulation.step, exec. cbn [Simulation.handle_input].
  unfold Simulation.websocket_connect.
  rewrite simulation_get_topology_data_clients, Ht. cbn [fst snd].
  cbn [Simulation.outbox Simulation.set_outbox Simulation.websocket_clients
       Simulation.set_websocket_clients Simulation.gateway_data
       Simulation.nodes_data Simulation.mesh_stats Simulation.console_lines].
  repeat split.
  - rewrite Ho, Hg, Hn, Hm, Hl. do 3 f_equal.
    destruct (simulation_run_logs inputs) as [_ H]. cbv zeta in H.
    fold s in H. rewrite H.
    apply last_n_last_n. unfold Simulation.MAX_CONSOLE_LINES. lia.
  - apply in_add_client.
  - exact Ho.
  - apply not_in_discard_client.
Qed.


(** After three events, client 7 connects: it gets [init] and the three
    events. *)
Lemma connect_replays_console_witness :
  let e1 : dict := [("type", VStr "packet_sent"); ("nodeId", VInt 2)] in
  let e2 : dict := [("type", VStr "packet_dropped")] in
  let inputs :=
    [ Simulation.Event e1 (sim_world_at 1); Simulation.Event e2 (sim_world_at 2);
      Simulation.Event reading_of_node_2 (sim_world_at 3) ] in
  let s := Simulation.run inputs Simulation.init in
  returned Simulation.get_topology_data s = true
  /\ map (fun e => match e with
                   | Simulation.Sent ws (Simulation.MsgSerial event) =>
                       Some (ws, event)
                   | _ => None
                   end)
       (Simulation.outbox (Simulation.step s (Simulation.Connect 7%nat false)))
     = [None; Some (7%nat, e1); Some (7%nat, e2);
        Some (7%nat, reading_of_node_2)].
Proof.
  intros e1 e2 inputs s. split; [vm_compute; reflexivity|].
  destruct (Simulation.get_topology_data s) as [[t|e] s1] eqn:Ht;
    [|vm_compute in Ht; discriminate].
  pose proof (proj1 (proj1 (connect_replays_console inputs 7%nat t s1 Ht)))
    as H.
  cbv zeta in H. fold s in H. rewrite H, map_app.
  vm_compute. reflexivity.
Defined.

(** ** The cached view and the packet events *)

Lemma simulation_broadcast_update_valid cl c s :
  sim_cache_valid c s ->
  sim_cache (exec (Simulation.broadcast_update cl) s) = sim_cache s.
Proof.
  intros [Hc Hd]. unfold Simulation.broadcast_update.
  unfold exec, bind at 1, gets at 1.
  destruct (Simulation.websocket_clients s) eqn:Hw; [reflexivity|].
  rewrite <- Hw. unfold bind, gets, modify.
  rewrite (simulation_get_topology_data_hit s c) by assumption.
  rewrite simulation_send_to_all. reflexivity.
Qed.

Lemma simulation_broadcast_serial_line_cache line cl s :
  sim_cache (exec (Simulation.broadcast_serial_line line cl) s) = sim_cache s.
Proof.
  unfold Simulation.broadcast_serial_line.
  unfold exec, bind at 1, gets at 1.
  destruct (Simulation.websocket_clients s) eqn:Hc; [reflexivity|].
  rewrite <- Hc. unfold bind, gets, modify.
  rewrite simulation_send_to_all. reflexivity.
Qed.

Lemma sim_cache_valid_eq c a b :
  sim_cache a = sim_cache b -> sim_cache_valid c b -> sim_cache_valid c a.
Proof.
  unfold sim_cache, sim_cache_valid. intros H [Hc Hd].
  injection H as H1 H2. split; congruence.
Qed.

(** X4.  Simulation bridge: an event that stores no node record (a packet
    event, an event of another type, a node event without a usable
    [nodeId]) does not invalidate the topology cache.  If the cache was
    valid before the event it is valid afterwards with the same view, so
    [get_topology_data()] goes on returning that view: the [packetEvents]
    it shows are those of the last rebuild, although [packet_events] has
    grown by the entry of the packet event. *)
Theorem packet_event_keeps_cached_view :
  forall s event w c,
    sim_stored_node event = None ->
    sim_cache_valid c s ->
    let s' := Simulation.step s (Simulation.Event event w) in
    sim_cache_valid c s'
    /\ Simulation.get_topology_data s' = (Ok c, s')
    /\ Simulation.packet_events s'
       = match sim_packet_entry event (Simulation.t_event w) with
         | Some entry =>
             last_n Simulation.MAX_PACKET_EVENTS
               (Simulation.packet_events s ++ [entry])
         | None => Simulation.packet_events s
         end.
Proof.
  intros s event w c Hs Hv s'.
  assert (Hc : sim_cache s' = sim_cache s).
  { subst s'. unfold Simulation.step. cbn [Simulation.handle_input].
    unfold Simulation.process_simulation_event. cbv zeta.
    rewrite exec_bind, simulation_log_console_eq.
    set (s1 := Simulation.set_console_lines _ s).
    assert (Hv1 : sim_cache_valid c s1) by exact Hv.
    assert (H1 : sim_cache s1 = sim_cache s) by reflexivity.
    assert (Hbranch : forall (body : M Simulation.state unit),
               (forall s0, sim_cache (exec body s0) = sim_cache s0) ->
               sim_cache
                 (exec (body ;;
                        Simulation.broadcast_update (Simulation.closed_update w) ;;
                        Simulation.broadcast_serial_line event
                          (Simulation.closed_line w)) s1)
               = sim_cache s).
    { intros body Hbody. rewrite exec_bind.
      pose proof (Hbody s1) as Hb. unfold exec in Hb.
      destruct (body s1) as [[u|e] s2]; cbn [snd] in Hb; [|exact Hb].
      assert (Hv2 : sim_cache_valid c s2)
        by (eapply sim_cache_valid_eq; eassumption).
      rewrite exec_bind.
      pose proof (simulation_broadcast_update_valid
                    (Simulation.closed_update w) c s2 Hv2) as Hu.
      unfold exec in Hu.
      destruct (Simulation.broadcast_update _ s2) as [[u'|e] s3];
        cbn [snd] in Hu.
      - rewrite simulation_broadcast_serial_line_cache. congruence.
      - congruence. }
    apply Hbranch. intros s0.
    unfold sim_stored_node in Hs. cbv zeta in Hs.
    destruct (py_eq _ (SStr "node_status") || py_eq _ (SStr "node_data")).
    - destruct (truthy (dget_none "nodeId" event)); [|reflexivity].
      destruct (dget_none "nodeId" event); try discriminate; reflexivity.
    - destruct (py_eq _ (SStr "packet_sent")).
      + unfold exec, bind at 1, modify at 1.
        rewrite simulation_record_packet_eq. reflexivity.
      + destruct (py_eq _ (SStr "packet_received")).
        * unfold exec, bind at 1, modify at 1.
          rewrite simulation_record_packet_eq. reflexivity.
        * destruct (py_eq _ (SStr "packet_dropped")); reflexivity. }
  assert (Hv' : sim_cache_valid c s')
    by (eapply sim_cache_valid_eq; eassumption).
  split; [exact Hv'|]. split.
  - destruct Hv'. now apply simulation_get_topology_data_hit.
  - subst s'. unfold Simulation.step. cbn [Simulation.handle_input].
    exact (proj2 (proj2 (proj2 (proj2
             (simulation_process_other event w Hs s))))).
Qed.


(** A reading of node 2, a request for the topology, then a packet event:
    the view still shows no packet event. *)
Lemma packet_event_keeps_cached_view_witness :
  let sent : dict := [("type", VStr "packet_sent"); ("nodeId", VInt 2)] in
  let s :=
    Simulation.run
      [ Simulation.Event reading_of_node_2 (sim_world_at 1);
        Simulation.ApiTopology ] Simulation.init in
  let s' := Simulation.step s (Simulation.Event sent (sim_world_at 2)) in
  match Simulation.get_topology_data s' with
  | (Ok c, _) =>
      Simulation.packetEvents c = []
      /\ List.length (Simulation.packet_events s') = 1%nat
  | _ => False
  end.
Proof.
  intros sent s s'.
  destruct (Simulation.topology_cache s) as [c|] eqn:Hc;
    [|vm_compute in Hc; discriminate].
  assert (Hd : Simulation.topology_cache_dirty s = false)
    by (vm_compute; reflexivity).
  assert (Hs : sim_stored_node sent = None) by (vm_compute; reflexivity).
  destruct (packet_event_keeps_cached_view s sent (sim_world_at 2) c
              Hs (conj Hc Hd)) as (_ & Hget & Hp).
  fold s' in Hget, Hp. rewrite Hget. split.
  - vm_compute in Hc. injection Hc as <-. reflexivity.
  - rewrite Hp. vm_compute. reflexivity.
Defined.

(** ** The requests to ThingSpeak *)

Lemma upload_stems_from_more l i e :
  upload_stems_from l e -> upload_stems_from (l ++ [i]) e.
Proof.
  destruct e as [ws m|k t p r]; [auto|].
  intros (data & w & nid & Hin & H). exists data, w, nid. split; [|exact H].
  apply in_or_app. now left.
Qed.

Lemma serial_run_upload_log inputs :
  Forall (upload_stems_from inputs)
    (serial_upload_log (Serial.run inputs Serial.init))
  /\ Forall
       (fun e =>
          match e with
          | Serial.Uploaded k _ _ _ => In k Serial.THINGSPEAK_API_KEYS
          | Serial.Sent _ _ => True
          end)
       (serial_upload_log (Serial.run inputs Serial.init)).
Proof.
  induction inputs as [|i l [IH1 IH2]] using rev_ind.
  - split; constructor.
  - rewrite serial_run_app.
    set (s := Serial.run l Serial.init) in *.
    pose proof (serial_step_uploads s i) as Hstep.
    assert (Hold : Forall (upload_stems_from (l ++ [i])) (serial_upload_log s)).
    { eapply Forall_impl; [|exact IH1]. intros e. apply upload_stems_from_more. }
    assert (Hlog : serial_upload_log (Serial.step s i)
                   = snd (serial_uploads (Serial.step s i))) by reflexivity.
    rewrite Hlog, Hstep.
    destruct i as [line c|data w|now c|ws b|ws|]; try (split; assumption).
    destruct (serial_stored_node data) as [nid|] eqn:Hs;
      [|split; assumption].
    destruct (serial_upload_due nid w s) eqn:Hdue; [|split; assumption].
    cbn [snd]. unfold serial_upload_due in Hdue.
    apply andb_prop in Hdue. destruct Hdue as [Hdue _].
    apply andb_prop in Hdue. destruct Hdue as [Hreq Hkey].
    apply andb_prop in Hreq. destruct Hreq as [_ Hreq].
    split; apply Forall_app; split; try assumption;
      (apply Forall_cons; [|apply Forall_nil]).
    + exists data, w, nid. split; [apply in_or_app; right; now left|].
      repeat split; auto.
    + apply existsb_exists in Hkey. destruct Hkey as [k' [Hin Hk]].
      apply key_eqb_eq in Hk. now subst.
Qed.

Lemma upload_params_fields data :
  Forall
    (fun kv =>
       is_none (snd kv) = false
       /\ exists k, In (fst kv, k) Serial.thingspeak_fields
                    /\ snd kv = dget_none k data)
    (Serial.upload_params data).
Proof.
  unfold Serial.upload_params. apply Forall_forall. intros [f v] Hin.
  apply filter_In in Hin. destruct Hin as [Hin Hnone].
  apply in_map_iff in Hin. destruct Hin as [[f' k] [Heq Hin]].
  cbn [fst snd] in *. injection Heq as <- <-. split.
  - now destruct (is_none _).
  - exists k. split; auto.
Qed.

(** X5.  Serial bridge: over every run from the initial state, every
    request made to ThingSpeak is for a node that has an API key (2, 3, 4
    or 5) and stems from a stored event of that node, handled while the
    [requests] module was available; its parameters are readings of that
    event under the field they belong to, and none of them is [None]. *)
Theorem thingspeak_uploads_provenance :
  forall inputs k t p r,
    In (Serial.Uploaded k t p r)
      (Serial.outbox (Serial.run inputs Serial.init)) ->
    In k Serial.THINGSPEAK_API_KEYS
    /\ (exists data w nid,
          In (Serial.MeshData data w) inputs
          /\ serial_stored_node data = Some nid
          /\ key_of nid = k
          /\ Serial.requests w = true
          /\ t = Serial.t_upload w
          /\ r = Serial.response w
          /\ p = Serial.upload_params data
          /\ Forall
               (fun kv =>
                  is_none (snd kv) = false
                  /\ exists field,
                       In (fst kv, field) Serial.thingspeak_fields
                       /\ snd kv = dget_none field data)
               p).
Proof.
  intros inputs k t p r Hin.
  assert (Hlog : In (Serial.Uploaded k t p r)
                   (serial_upload_log (Serial.run inputs Serial.init))).
  { unfold serial_upload_log. apply filter_In. split; [exact Hin|reflexivity]. }
  destruct (serial_run_upload_log inputs) as [H1 H2].
  rewrite Forall_forall in H1, H2. split.
  - exact (H2 _ Hlog).
  - destruct (H1 _ Hlog) as (data & w & nid & Ha & Hb & Hc & Hd & He & Hf & Hg).
    exists data, w, nid. repeat split; auto.
    subst p. apply upload_params_fields.
Qed.

(** The reading of node 2 is uploaded with its three readings. *)
Lemma thingspeak_uploads_provenance_witness :
  let inputs :=
    [Serial.MeshData reading_of_node_2 (serial_world_at 1000 Serial.HttpOk)] in
  In (Serial.Uploaded (KInt 2) 1000
        [("field1", VInt 70); ("field6", VInt (-60)); ("field8", VInt 1)]
        Serial.HttpOk)
    (Serial.outbox (Serial.run inputs Serial.init))
  /\ In (KInt 2) Serial.THINGSPEAK_API_KEYS.
Proof.
  intros inputs.
  assert (H : In (Serial.Uploaded (KInt 2) 1000
                    [("field1", VInt 70); ("field6", VInt (-60));
                     ("field8", VInt 1)] Serial.HttpOk)
                (Serial.outbox (Serial.run inputs Serial.init)))
    by (vm_compute; left; reflexivity).
  split; [exact H|].
  exact (proj1 (thingspeak_uploads_provenance inputs _ _ _ _ H)).
Defined.

(** ** The record of a node *)

Lemma serial_step_stored_record s data w nid :
  serial_stored_node data = Some nid ->
  Serial.nodes_data (Serial.step s (Serial.MeshData data w))
  = kset (key_of nid)
      (Serial.node_record data (Serial.t_ingest w)
         (kget_or (key_of nid) 0 (Serial.node_message_count s) + 1))
      (Serial.nodes_data s).
Proof.
  intros Hs. unfold Serial.step. cbn [Serial.handle_input].
  pose proof (serial_process_mesh_data_stored data w nid Hs s) as H.
  apply stores_rest in H. destruct H as [H _]. rewrite H.
  exact (proj2 (proj2 (proj2 (serial_store_node_data_counters nid data w s)))).
Qed.

(** X6.  Serial bridge: the record stored for a node event is the event
    itself with three fields set by the bridge: [lastUpdate] is the arrival
    time, [online] is [True] and [messageCount] is the count of the node,
    whatever the event says about them; every other field of the event is
    kept as it is, and the record has no other field. *)
Theorem serial_record_keeps_event_fields :
  forall s data w nid,
    serial_stored_node data = Some nid ->
    let s' := Serial.step s (Serial.MeshData data w) in
    exists record,
      kget (key_of nid) (Serial.nodes_data s') = Some record
      /\ dget "lastUpdate" record = Some (VInt (Serial.t_ingest w))
      /\ dget "online" record = Some (VBool true)
      /\ dget "messageCount" record
         = Some (VInt (kget_or (key_of nid) 0 (Serial.node_message_count s)
                       + 1))
      /\ (forall f,
            f <> "lastUpdate" -> f <> "online" -> f <> "messageCount" ->
            dget f record = dget f data).
Proof.
  intros s data w nid Hs s'. subst s'.
  rewrite (serial_step_stored_record s data w nid Hs).
  eexists. split; [apply kget_kset_same|].
  destruct (serial_node_record_fields data (Serial.t_ingest w)
              (kget_or (key_of nid) 0 (Serial.node_message_count s) + 1))
    as (H1 & H2 & H3 & _).
  repeat split; auto.
  intros f F1 F2 F3. unfold Serial.node_record.
  rewrite !dget_dset_other by congruence. reflexivity.
Qed.

(** An event of node 2 that claims to be offline, with a count of 99, is
    stored as online with a count of 1; its temperature is kept. *)
Lemma serial_record_keeps_event_fields_witness :
  let data : dict :=
    [ ("type", VStr "node_data"); ("nodeId", VInt 2); ("online", VBool false);
      ("messageCount", VInt 99); ("temp", VInt 70) ] in
  let s' :=
    Serial.step Serial.init
      (Serial.MeshData data (serial_world_at 1000 Serial.HttpOk)) in
  serial_stored_node data = Some (SInt 2)
  /\ exists record,
       kget (KInt 2) (Serial.nodes_data s') = Some record
       /\ dget "online" record = Some (VBool true)
       /\ dget "messageCount" record = Some (VInt 1)
       /\ dget "temp" record = Some (VInt 70).
Proof.
  intros data s'. split; [reflexivity|].
  destruct (serial_record_keeps_event_fields Serial.init data
              (serial_world_at 1000 Serial.HttpOk) (SInt 2) eq_refl)
    as (record & H1 & H2 & H3 & H4 & H5).
  exists record. repeat split; auto.
  rewrite H5 by discriminate. reflexivity.
Defined.

(** ** The offline sweep over a run *)

Lemma kget_none_notin {V} k (d : list (key * V)) :
  kget k d = None -> ~ In k (map fst d).
Proof.
  induction d as [|[k' v] d IH]; cbn; [tauto|].
  destruct (key_eqb k k') eqn:E; [discriminate|].
  intros H [Hk|Hin]; [|now apply IH].
  subst k'. now rewrite (proj2 (key_eqb_eq k k) eq_refl) in E.
Qed.

Lemma kget_notin_none {V} k (d : list (key * V)) :
  ~ In k (map fst d) -> kget k d = None.
Proof.
  induction d as [|[k' v] d IH]; cbn; [reflexivity|].
  intros H. destruct (key_eqb k k') eqn:E.
  - apply key_eqb_eq in E. subst. tauto.
  - apply IH. tauto.
Qed.

Lemma kset_keys {V} k (v : V) (d : list (key * V)) :
  map fst (kset k v d)
  = if kmem k d then map fst d else map fst d ++ [k].
Proof.
  unfold mem. induction d as [|[k' v'] d IH]; cbn; [reflexivity|].
  destruct (key_eqb k k') eqn:E; cbn.
  - apply key_eqb_eq in E. now subst.
  - rewrite IH. now destruct (kget k d).
Qed.

Lemma kset_nodup {V} k (v : V) (d : list (key * V)) :
  NoDup (map fst d) -> NoDup (map fst (kset k v d)).
Proof.
  intros H. rewrite kset_keys. unfold mem.
  destruct (kget k d) eqn:E; [exact H|].
  apply NoDup_app; [exact H|repeat constructor; cbn; tauto|].
  intros x Hx [<-|[]]. exact (kget_none_notin _ _ E Hx).
Qed.

(** A turn of the sweep for another node leaves the record of [k] alone. *)
Lemma serial_check_node_other now nds b k k' t' :
  k <> k' ->
  kget k (fst (Serial.check_node now (nds, b) (k', t'))) = kget k nds.
Proof.
  intros Hne. unfold Serial.check_node.
  destruct (_ <? _); destruct (_ && _); cbn [fst]; try reflexivity;
    apply kget_kset_other; congruence.
Qed.

Lemma serial_sweep_other now k seen : forall nds b,
  ~ In k (map fst seen) ->
  kget k (fst (fold_left (Serial.check_node now) seen (nds, b))) = kget k nds.
Proof.
  induction seen as [|[k' t'] seen IH]; intros nds b Hnot; cbn [fold_left].
  - reflexivity.
  - cbn in Hnot.
    destruct (Serial.check_node now (nds, b) (k', t')) as [nds1 b1] eqn:E.
    rewrite IH by tauto.
    pose proof (serial_check_node_other now nds b k k' t') as H.
    rewrite E in H. apply H. intros ->. tauto.
Qed.

(** The record a turn leaves for its node depends on the record of that
    node only. *)
Lemma serial_check_node_local now nds1 b1 nds2 b2 k t :
  kget k nds1 = kget k nds2 ->
  kget k (fst (Serial.check_node now (nds1, b1) (k, t)))
  = kget k (fst (Serial.check_node now (nds2, b2) (k, t))).
Proof.
  intros H. unfold Serial.check_node.
  destruct (kget k nds2) as [r|] eqn:E2.
  - rewrite (get_or_some _ _ _ _ _ H), (get_or_some _ _ _ _ _ E2).
    unfold mem. rewrite H, E2.
    destruct (_ <? _); destruct (_ && _); cbn [fst];
      rewrite ?kget_kset_same; congruence.
  - unfold get_or, mem. rewrite H, E2. rewrite !andb_false_r.
    destruct (_ <? _); cbn [fst]; congruence.
Qed.

Lemma serial_sweep_at now k t seen : forall nds b,
  NoDup (map fst seen) ->
  kget k seen = Some t ->
  kget k (fst (fold_left (Serial.check_node now) seen (nds, b)))
  = kget k (fst (Serial.check_node now (nds, false) (k, t))).
Proof.
  induction seen as [|[k' t'] seen IH]; intros nds b Hnd Hk; [discriminate|].
  cbn [fold_left]. cbn in Hnd, Hk. inversion Hnd as [|? ? Hnot Hnd']; subst.
  destruct (Serial.check_node now (nds, b) (k', t')) as [nds1 b1] eqn:E.
  destruct (key_eqb k k') eqn:Ek.
  - apply key_eqb_eq in Ek. subst k'. injection Hk as ->.
    rewrite serial_sweep_other by exact Hnot.
    replace nds1 with (fst (Serial.check_node now (nds, b) (k, t)))
      by now rewrite E.
    now apply serial_check_node_local.
  - assert (Hne : k <> k').
    { intros ->. now rewrite (proj2 (key_eqb_eq k' k') eq_refl) in Ek. }
    rewrite IH by assumption.
    apply serial_check_node_local.
    replace nds1 with (fst (Serial.check_node now (nds, b) (k', t')))
      by now rewrite E.
    now apply serial_check_node_other.
Qed.
Lemma serial_check_node_result now (nds : list (key * dict)) k t (r : dict) b :
  kget k nds = Some r ->
  dget "online" r = Some (VBool b) ->
  (b = false -> dget "offlineSince" r = Some (VInt t)) ->
  exists r',
    kget k (fst (Serial.check_node now (nds, false) (k, t))) = Some r'
    /\ same_but_liveness r r'
    /\ dget "online" r'
       = Some (VBool (now - t <=? Serial.NODE_OFFLINE_TIMEOUT))
    /\ (Serial.NODE_OFFLINE_TIMEOUT < now - t ->
        dget "offlineSince" r' = Some (VInt t))
    /\ (Serial.NODE_OFFLINE_TIMEOUT < now - t -> b = false -> r' = r).
Proof.
  intros Hr Hon Hoff. unfold Serial.check_node.
  rewrite (get_or_some _ _ _ _ _ Hr). unfold mem. rewrite Hr.
  unfold get_or. rewrite Hon. cbn [truthy]. rewrite !andb_true_r.
  destruct (Serial.NODE_OFFLINE_TIMEOUT <? now - t) eqn:Hs.
  - apply Z.ltb_lt in Hs.
    replace (now - t <=? Serial.NODE_OFFLINE_TIMEOUT) with false
      by (symmetry; apply Z.leb_gt; exact Hs).
    destruct b; cbn [fst negb].
    + eexists. split; [apply kget_kset_same|]. repeat split.
      * intros f F1 F2. now rewrite !dget_dset_other by congruence.
      * rewrite dget_dset_other by discriminate. apply dget_dset_same.
      * intros _. apply dget_dset_same.
      * discriminate.
    + exists r. repeat split; auto; try apply same_but_liveness_refl.
  - apply Z.ltb_ge in Hs.
    replace (now - t <=? Serial.NODE_OFFLINE_TIMEOUT) with true
      by (symmetry; apply Z.leb_le; exact Hs).
    destruct b; cbn [fst negb].
    + exists r. repeat split; auto; try lia; try apply same_but_liveness_refl.
    + eexists. split; [apply kget_kset_same|].
      destruct (dget "offlineSince" (dset "online" (VBool true) r));
        repeat split; try lia.
      * intros f F1 F2. rewrite dget_ddel_other by congruence.
        now rewrite dget_dset_other by congruence.
      * rewrite dget_ddel_other by discriminate. apply dget_dset_same.
      * intros f F1 F2. now rewrite dget_dset_other by congruence.
      * apply dget_dset_same.
Qed.

Lemma serial_liveness_inv_step s i :
  serial_liveness_inv s -> serial_liveness_inv (Serial.step s i).
Proof.
  intros [Hnd Hrec].
  destruct (serial_quiet i) eqn:Hq.
  - pose proof (serial_step_quiet i s Hq) as H. apply stores_rest in H.
    destruct H as [Hn H]. apply serial_rest_inv in H. destruct H as (Hl & _).
    unfold serial_liveness_inv. rewrite Hn, Hl. now split.
  - destruct i as [line c|data w|now c|ws b|ws|]; try discriminate.
    + cbn in Hq. destruct (serial_stored_node data) as [nid|] eqn:Hs;
        [|discriminate].
      unfold Serial.step. cbn [Serial.handle_input].
      pose proof (serial_process_mesh_data_stored data w nid Hs s) as H.
      apply stores_rest in H. destruct H as [Hn H].
      apply serial_rest_inv in H. destruct H as (Hl & _).
      destruct (serial_store_node_data_counters nid data w s)
        as (Hl' & _ & _ & Hn').
      cbv zeta in Hl', Hn'.
      unfold serial_liveness_inv. rewrite Hn, Hl, Hl', Hn'. split.
      * now apply kset_nodup.
      * intros k. destruct (key_eq_dec (key_of nid) k) as [<-|Hne].
        -- rewrite !kget_kset_same. eexists. exists true.
           split; [reflexivity|]. split; [|discriminate].
           apply serial_node_record_fields.
        -- rewrite !kget_kset_other by assumption. apply Hrec.
    + unfold Serial.step. cbn [Serial.handle_input].
      destruct (serial_check_offline_nodes_stores now c s) as [Hn H].
      cbv zeta in Hn, H.
      apply serial_rest_inv in H. destruct H as (Hl & _).
      unfold serial_liveness_inv. rewrite Hn, Hl. split; [exact Hnd|].
      intros k. specialize (Hrec k).
      destruct (kget k (Serial.node_last_seen s)) as [t|] eqn:Hk.
      * destruct Hrec as (r & b & Hr & Hon & Hoff).
        rewrite (serial_sweep_at now k t) by assumption.
        destruct (serial_check_node_result now _ k t r b Hr Hon Hoff)
          as (r' & H1 & _ & H3 & H4 & _).
        exists r', (now - t <=? Serial.NODE_OFFLINE_TIMEOUT).
        repeat split; auto.
        intros Hb. apply H4. now apply Z.leb_gt.
      * rewrite serial_sweep_other by (now apply kget_none_notin).
        exact Hrec.
Qed.

Lemma serial_liveness_inv_run inputs :
  serial_liveness_inv (Serial.run inputs Serial.init).
Proof.
  induction inputs as [|i l IH] using rev_ind.
  - split; [constructor|]. intros k. reflexivity.
  - rewrite serial_run_app. now apply serial_liveness_inv_step.
Qed.

(** X7.  Serial bridge: over every run from the initial state, every node
    of the last-seen table has a record, and an offline sweep leaves it
    marked online exactly when the node was heard within
    [NODE_OFFLINE_TIMEOUT] of the sweep; a node silent for longer carries
    its last-seen time as [offlineSince].  The sweep changes no other
    field, and further sweeps at later times leave the record of a silent
    node as the first one left it. *)
Theorem serial_sweep_liveness :
  forall inputs now c k t,
    let s := Serial.run inputs Serial.init in
    let s' := Serial.step s (Serial.OfflineCheck now c) in
    kget k (Serial.node_last_seen s) = Some t ->
    exists r r',
      kget k (Serial.nodes_data s) = Some r
      /\ kget k (Serial.nodes_data s') = Some r'
      /\ same_but_liveness r r'
      /\ dget "online" r'
         = Some (VBool (now - t <=? Serial.NODE_OFFLINE_TIMEOUT))
      /\ (Serial.NODE_OFFLINE_TIMEOUT < now - t ->
          dget "offlineSince" r' = Some (VInt t)
          /\ forall now' c',
               now <= now' ->
               kget k
                 (Serial.nodes_data
                    (Serial.step s' (Serial.OfflineCheck now' c')))
               = Some r').
Proof.
  intros inputs now c k t s s' Hk.
  destruct (serial_liveness_inv_run inputs) as [Hnd Hrec]. fold s in Hnd, Hrec.
  pose proof (Hrec k) as Hrk. rewrite Hk in Hrk.
  destruct Hrk as (r & b & Hr & Hon & Hoff).
  destruct (serial_check_offline_nodes_stores now c s) as [Hn H].
  cbv zeta in Hn, H. apply serial_rest_inv in H. destruct H as (Hl & _).
  destruct (serial_check_node_result now (Serial.nodes_data s) k t r b
              Hr Hon Hoff) as (r' & H1 & H2 & H3 & H4 & _).
  assert (Hr' : kget k (Serial.nodes_data s') = Some r').
  { subst s'. unfold Serial.step. cbn [Serial.handle_input].
    rewrite Hn. now rewrite (serial_sweep_at now k t) by assumption. }
  exists r, r'. repeat split; auto.
  intros now' c' Hlater.
  destruct (serial_check_offline_nodes_stores now' c' s') as [Hn' _].
  cbv zeta in Hn'. unfold Serial.step at 1. cbn [Serial.handle_input].
  rewrite Hn'.
  assert (Hl' : Serial.node_last_seen s' = Serial.node_last_seen s) by exact Hl.
  rewrite (serial_sweep_at now' k t) by (rewrite Hl'; assumption).
  assert (Hoff' : (now - t <=? Serial.NODE_OFFLINE_TIMEOUT) = false)
    by now apply Z.leb_gt.
  rewrite Hoff' in H3.
  destruct (serial_check_node_result now' (Serial.nodes_data s') k t r' false
              Hr' H3 (fun _ => H4 H)) as (r'' & G1 & _ & _ & _ & G5).
  rewrite G1. f_equal. apply G5; [lia|reflexivity].
Qed.

(** Node 2 reports at time 1000; the sweep of time 1091 marks it offline
    since 1000, and the sweep of time 1200 changes nothing. *)
Lemma serial_sweep_liveness_witness :
  let inputs :=
    [Serial.MeshData reading_of_node_2 (serial_world_at 1000 Serial.HttpOk)] in
  let s := Serial.run inputs Serial.init in
  let s' := Serial.step s (Serial.OfflineCheck 1091 nobody_closed) in
  kget (KInt 2) (Serial.node_last_seen s) = Some 1000
  /\ field_of (KInt 2) "online" (Serial.nodes_data s') = Some (VBool false)
  /\ field_of (KInt 2) "offlineSince" (Serial.nodes_data s')
     = Some (VInt 1000)
  /\ kget (KInt 2)
       (Serial.nodes_data
          (Serial.step s' (Serial.OfflineCheck 1200 nobody_closed)))
     = kget (KInt 2) (Serial.nodes_data s').
Proof.
  intros inputs s s'.
  assert (Hk : kget (KInt 2) (Serial.node_last_seen s) = Some 1000)
    by (vm_compute; reflexivity).
  split; [exact Hk|].
  destruct (serial_sweep_liveness inputs 1091 nobody_closed (KInt 2) 1000 Hk)
    as (r & r' & _ & Hr' & _ & Hon & Hoff).
  fold s s' in Hr'. unfold field_of. rewrite Hr'.
  destruct Hoff as [Hsince Hlater]; [reflexivity|].
  split; [exact Hon|]. split; [exact Hsince|].
  apply Hlater. discriminate.
Defined.

(** The records a turn of the sweep of the simulation bridge leaves. *)
Lemma simulation_check_node_nodes now s b k t :
  Simulation.nodes_data (fst (Simulation.check_node now (s, b) (k, t)))
  = let nds := Simulation.nodes_data s in
    let record := kget_or k [] nds in
    let was_online := truthy (dget_or "online" (VBool true) record) in
    if Simulation.NODE_OFFLINE_TIMEOUT <? now - t then
      if was_online && kmem k nds
      then kset k (dset "online" (VBool false) record) nds else nds
    else
      if negb was_online && kmem k nds
      then kset k (dset "online" (VBool true) record) nds else nds.
Proof.
  unfold Simulation.check_node. cbv zeta.
  destruct (_ <? _); destruct (_ && _); cbn [fst]; try reflexivity;
    cbn [Simulation.network_topology Simulation.set_nodes_data];
    destruct (kget k (Simulation.network_topology s)); reflexivity.
Qed.

Lemma simulation_check_node_seen now acc entry :
  Simulation.node_last_seen (fst (Simulation.check_node now acc entry))
  = Simulation.node_last_seen (fst acc).
Proof.
  destruct acc as [s b].
  exact (proj1 (proj1 (simulation_check_node_spec now s b entry))).
Qed.

Lemma simulation_check_node_other now s b k k' t' :
  k <> k' ->
  kget k (Simulation.nodes_data
            (fst (Simulation.check_node now (s, b) (k', t'))))
  = kget k (Simulation.nodes_data s).
Proof.
  intros Hne. rewrite simulation_check_node_nodes. cbv zeta.
  destruct (_ <? _); destruct (_ && _); try reflexivity;
    apply kget_kset_other; congruence.
Qed.

Lemma simulation_sweep_other now k seen : forall acc,
  ~ In k (map fst seen) ->
  kget k (Simulation.nodes_data
            (fst (fold_left (Simulation.check_node now) seen acc)))
  = kget k (Simulation.nodes_data (fst acc)).
Proof.
  induction seen as [|[k' t'] seen IH]; intros [s b] Hnot; cbn [fold_left].
  - reflexivity.
  - cbn in Hnot. rewrite IH by tauto.
    destruct (Simulation.check_node now (s, b) (k', t')) as [s1 b1] eqn:E.
    pose proof (simulation_check_node_other now s b k k' t') as H.
    rewrite E in H. apply H. intros ->. tauto.
Qed.

Lemma simulation_check_node_local now s1 b1 s2 b2 k t :
  kget k (Simulation.nodes_data s1) = kget k (Simulation.nodes_data s2) ->
  kget k (Simulation.nodes_data
            (fst (Simulation.check_node now (s1, b1) (k, t))))
  = kget k (Simulation.nodes_data
              (fst (Simulation.check_node now (s2, b2) (k, t)))).
Proof.
  intros H. rewrite !simulation_check_node_nodes. cbv zeta.
  destruct (kget k (Simulation.nodes_data s2)) as [r|] eqn:E2.
  - rewrite (get_or_some _ _ _ _ _ H), (get_or_some _ _ _ _ _ E2).
    unfold mem. rewrite H, E2.
    destruct (_ <? _); destruct (_ && _);
      rewrite ?kget_kset_same; congruence.
  - unfold get_or, mem. rewrite H, E2. rewrite !andb_false_r.
    destruct (_ <? _); congruence.
Qed.

Lemma simulation_sweep_at now k t seen : forall s b,
  NoDup (map fst seen) ->
  kget k seen = Some t ->
  kget k (Simulation.nodes_data
            (fst (fold_left (Simulation.check_node now) seen (s, b))))
  = kget k (Simulation.nodes_data
              (fst (Simulation.check_node now (s, false) (k, t)))).
Proof.
  induction seen as [|[k' t'] seen IH]; intros s b Hnd Hk; [discriminate|].
  cbn [fold_left]. cbn in Hnd, Hk. inversion Hnd as [|? ? Hnot Hnd']; subst.
  destruct (key_eqb k k') eqn:Ek.
  - apply key_eqb_eq in Ek. subst k'. injection Hk as ->.
    rewrite simulation_sweep_other by exact Hnot.
    now apply simulation_check_node_local.
  - assert (Hne : k <> k').
    { intros ->. now rewrite (proj2 (key_eqb_eq k' k') eq_refl) in Ek. }
    destruct (Simulation.check_node now (s, b) (k', t')) as [s1 b1] eqn:E.
    rewrite IH by assumption.
    apply simulation_check_node_local.
    replace s1 with (fst (Simulation.check_node now (s, b) (k', t')))
      by now rewrite E.
    now apply simulation_check_node_other.
Qed.

Lemma simulation_check_node_result now s k t (r : dict) b :
  kget k (Simulation.nodes_data s) = Some r ->
  dget "online" r = Some (VBool b) ->
  exists r',
    kget k (Simulation.nodes_data
              (fst (Simulation.check_node now (s, false) (k, t)))) = Some r'
    /\ same_but_liveness r r'
    /\ dget "online" r'
       = Some (VBool (now - t <=? Simulation.NODE_OFFLINE_TIMEOUT))
    /\ (Simulation.NODE_OFFLINE_TIMEOUT < now - t -> b = false -> r' = r).
Proof.
  intros Hr Hon. rewrite simulation_check_node_nodes. cbv zeta.
  rewrite (get_or_some _ _ _ _ _ Hr). unfold mem. rewrite Hr.
  unfold get_or. rewrite Hon. cbn [truthy]. rewrite !andb_true_r.
  destruct (Simulation.NODE_OFFLINE_TIMEOUT <? now - t) eqn:Hs.
  - apply Z.ltb_lt in Hs.
    replace (now - t <=? Simulation.NODE_OFFLINE_TIMEOUT) with false
      by (symmetry; apply Z.leb_gt; exact Hs).
    destruct b; cbn [negb].
    + eexists. split; [apply kget_kset_same|]. repeat split.
      * apply same_but_liveness_online.
      * apply dget_dset_same.
      * discriminate.
    + exists r. repeat split; auto; try apply same_but_liveness_refl.
  - apply Z.ltb_ge in Hs.
    replace (now - t <=? Simulation.NODE_OFFLINE_TIMEOUT) with true
      by (symmetry; apply Z.leb_le; exact Hs).
    destruct b; cbn [negb].
    + exists r. repeat split; auto; try lia; try apply same_but_liveness_refl.
    + eexists. split; [apply kget_kset_same|]. repeat split; try lia.
      * apply same_but_liveness_online.
      * apply dget_dset_same.
Qed.

Lemma simulation_step_stored_records s event w nid :
  sim_stored_node event = Some nid ->
  Simulation.nodes_data (Simulation.step s (Simulation.Event event w))
  = match Simulation.event_position event with
    | Ok pos =>
        kset (key_of nid)
          (Simulation.node_record nid event (Simulation.t_event w)
             (kget_or (key_of nid) 0 (Simulation.node_message_count s) + 1)
             (fst pos) (snd pos))
          (Simulation.nodes_data s)
    | Raised _ => Simulation.nodes_data s
    end.
Proof.
  intros Hs. unfold Simulation.step. cbn [Simulation.handle_input].
  destruct (sim_stores_inv _ _ (simulation_process_stored event w nid Hs s))
    as (H & _).
  rewrite H.
  destruct (simulation_store_node_status_counters nid event w
              (exec (Simulation.log_console event) s))
    as (_ & _ & _ & H' & _).
  cbv zeta in H'. rewrite H'.
  destruct (sim_stores_inv _ _ (simulation_log_console_stores event s))
    as (H1 & _ & H3 & _).
  now rewrite H1, H3.
Qed.

Lemma simulation_sweep_seen now seen : forall acc,
  Simulation.node_last_seen
    (fst (fold_left (Simulation.check_node now) seen acc))
  = Simulation.node_last_seen (fst acc).
Proof.
  induction seen as [|e seen IH]; intros acc; [reflexivity|].
  cbn [fold_left]. rewrite IH. apply simulation_check_node_seen.
Qed.

Lemma simulation_check_offline_nodes_nodes now c s :
  Simulation.nodes_data (exec (Simulation.check_offline_nodes now c) s)
  = Simulation.nodes_data
      (fst (fold_left (Simulation.check_node now)
              (Simulation.node_last_seen s) (s, false)))
  /\ Simulation.node_last_seen (exec (Simulation.check_offline_nodes now c) s)
     = Simulation.node_last_seen s.
Proof.
  rewrite simulation_check_offline_nodes_eq. cbv zeta.
  pose proof (simulation_sweep_seen now (Simulation.node_last_seen s)
                (s, false)) as Hseen.
  destruct (snd _); [|split; [reflexivity|exact Hseen]].
  destruct (sim_stores_inv _ _
              (simulation_broadcast_update_stores c
                 (fst (fold_left (Simulation.check_node now)
                         (Simulation.node_last_seen s) (s, false)))))
    as (H1 & H2 & _).
  rewrite H1, H2. split; [reflexivity|exact Hseen].
Qed.

Lemma sim_liveness_inv_step s i :
  sim_liveness_inv s -> sim_liveness_inv (Simulation.step s i).
Proof.
  intros [Hnd Hrec].
  pose proof (simulation_step_counters s i) as Hc.
  pose proof (simulation_step_records s i) as Hr.
  destruct i as [event w|now c|ws b|ws|].
  - destruct (sim_stored_node event) as [nid|] eqn:Hs.
    + destruct Hc as (Hl & _). split.
      * rewrite Hl. now apply kset_nodup.
      * rewrite (simulation_step_stored_records s event w nid Hs).
        destruct (Simulation.event_position event) as [pos|e]; [|exact Hrec].
        intros k r. destruct (key_eq_dec (key_of nid) k) as [<-|Hne].
        -- rewrite kget_kset_same. intros H. injection H as <-.
           exists true. apply simulation_node_record_fields.
        -- rewrite kget_kset_other by assumption. apply Hrec.
    + destruct Hc as (Hl & _), Hr as (Hn & _). split.
      * now rewrite Hl.
      * now rewrite Hn.
  - unfold Simulation.step. cbn [Simulation.handle_input].
    destruct (simulation_check_offline_nodes_nodes now c s) as [Hn Hl].
    split; [now rewrite Hl|]. rewrite Hn. intros k r.
    destruct (kget k (Simulation.node_last_seen s)) as [t|] eqn:Hk.
    + rewrite (simulation_sweep_at now k t) by assumption.
      destruct (kget k (Simulation.nodes_data s)) as [r0|] eqn:Hr0.
      * destruct (Hrec k r0 Hr0) as [b Hb].
        destruct (simulation_check_node_result now s k t r0 b Hr0 Hb)
          as (r' & H1 & _ & H3 & _).
        rewrite H1. intros H. injection H as <-. eauto.
      * rewrite simulation_check_node_nodes. cbv zeta.
        unfold mem. rewrite Hr0, !andb_false_r.
        destruct (_ <? _); rewrite Hr0; discriminate.
    + rewrite simulation_sweep_other by (now apply kget_none_notin).
      apply Hrec.
  - destruct Hc as (Hl & _), Hr as (Hn & _). split.
    + now rewrite Hl.
    + now rewrite Hn.
  - destruct Hc as (Hl & _), Hr as (Hn & _). split.
    + now rewrite Hl.
    + now rewrite Hn.
  - destruct Hc as (Hl & _), Hr as (Hn & _). split.
    + now rewrite Hl.
    + now rewrite Hn.
Qed.

Lemma sim_liveness_inv_run inputs :
  sim_liveness_inv (Simulation.run inputs Simulation.init).
Proof.
  induction inputs as [|i l IH] using rev_ind.
  - split; [constructor|]. intros k r. discriminate.
  - rewrite simulation_run_app. now apply sim_liveness_inv_step.
Qed.

(** X8.  Simulation bridge: over every run from the initial state, an
    offline sweep leaves the record of every node of the last-seen table
    marked online exactly when the node was heard within
    [NODE_OFFLINE_TIMEOUT] of the sweep.  The sweep changes no field of
    the record but [online], and further sweeps at later times leave the
    record of a silent node as the first one left it. *)
Theorem simulation_sweep_liveness :
  forall inputs now c k t r,
    let s := Simulation.run inputs Simulation.init in
    let s' := Simulation.step s (Simulation.OfflineCheck now c) in
    kget k (Simulation.node_last_seen s) = Some t ->
    kget k (Simulation.nodes_data s) = Some r ->
    exists r',
      kget k (Simulation.nodes_data s') = Some r'
      /\ (forall f, f <> "online" -> dget f r' = dget f r)
      /\ dget "online" r'
         = Some (VBool (now - t <=? Simulation.NODE_OFFLINE_TIMEOUT))
      /\ (Simulation.NODE_OFFLINE_TIMEOUT < now - t ->
          forall now' c',
            now <= now' ->
            kget k
              (Simulation.nodes_data
                 (Simulation.step s' (Simulation.OfflineCheck now' c')))
            = Some r').
Proof.
  intros inputs now c k t r s s' Hk Hr.
  destruct (sim_liveness_inv_run inputs) as [Hnd Hrec]. fold s in Hnd, Hrec.
  destruct (Hrec k r Hr) as [b Hon].
  destruct (simulation_check_offline_nodes_nodes now c s) as [Hn Hl].
  assert (Hr' : kget k (Simulation.nodes_data s')
                = kget k (Simulation.nodes_data
                            (fst (Simulation.check_node now (s, false)
                                    (k, t))))).
  { subst s'. unfold Simulation.step. cbn [Simulation.handle_input].
    rewrite Hn. now apply simulation_sweep_at. }
  assert (Hfields :
    forall r',
      kget k (Simulation.nodes_data
                (fst (Simulation.check_node now (s, false) (k, t))))
      = Some r' ->
      forall f, f <> "online" -> dget f r' = dget f r).
  { intros r' H f Hf. rewrite simulation_check_node_nodes in H. cbv zeta in H.
    rewrite (get_or_some _ _ _ _ _ Hr) in H.
    destruct (_ <? _); destruct (_ && _); rewrite ?kget_kset_same in H;
      try (injection H as <-; now rewrite dget_dset_other by congruence);
      rewrite Hr in H; now injection H as <-. }
  destruct (simulation_check_node_result now s k t r b Hr Hon)
    as (r' & H1 & _ & H3 & _).
  exists r'. rewrite Hr'. split; [exact H1|]. split; [now apply Hfields|].
  split; [exact H3|].
  intros Hsilent now' c' Hlater.
  destruct (simulation_check_offline_nodes_nodes now' c' s') as [Hn' _].
  unfold Simulation.step at 1. cbn [Simulation.handle_input]. rewrite Hn'.
  assert (Hl' : Simulation.node_last_seen s' = Simulation.node_last_seen s)
    by exact Hl.
  rewrite (simulation_sweep_at now' k t) by (rewrite Hl'; assumption).
  assert (Hoff : (now - t <=? Simulation.NODE_OFFLINE_TIMEOUT) = false)
    by now apply Z.leb_gt.
  rewrite Hoff in H3. rewrite <- Hr' in H1.
  destruct (simulation_check_node_result now' s' k t r' false H1 H3)
    as (r'' & G1 & _ & _ & G4).
  rewrite G1. f_equal. apply G4; [lia|reflexivity].
Qed.

(** Node 2 reports at time 1000; the sweep of time 1011 marks it offline
    and the sweep of time 1020 changes nothing. *)
Lemma simulation_sweep_liveness_witness :
  let inputs := [Simulation.Event reading_of_node_2 (sim_world_at 1000)] in
  let s := Simulation.run inputs Simulation.init in
  let s' := Simulation.step s (Simulation.OfflineCheck 1011 nobody_closed) in
  kget (KInt 2) (Simulation.node_last_seen s) = Some 1000
  /\ field_of (KInt 2) "online" (Simulation.nodes_data s') = Some (VBool false)
  /\ kget (KInt 2)
       (Simulation.nodes_data
          (Simulation.step s' (Simulation.OfflineCheck 1020 nobody_closed)))
     = kget (KInt 2) (Simulation.nodes_data s').
Proof.
  intros inputs s s'.
  assert (Hk : kget (KInt 2) (Simulation.node_last_seen s) = Some 1000)
    by (vm_compute; reflexivity).
  split; [exact Hk|].
  destruct (kget (KInt 2) (Simulation.nodes_data s)) as [r|] eqn:Hr;
    [|vm_compute in Hr; discriminate].
  destruct (simulation_sweep_liveness inputs 1011 nobody_closed (KInt 2) 1000
              r Hk Hr)
    as (r' & Hr' & _ & Hon & Hlater).
  fold s s' in Hr'. unfold field_of. rewrite Hr'.
  split; [exact Hon|].
  apply Hlater; [reflexivity|discriminate].
Defined.

(** ** When the topology cannot be built *)

Lemma serial_build_edges_none items :
  Serial.build_edges items = None
  <-> exists record, In record (map snd items) /\ numeric_parent record = false.
Proof.
  unfold numeric_parent.
  induction items as [|[k d] items IH]; cbn [Serial.build_edges map snd].
  - split; [discriminate|]. intros (r & [] & _).
  - destruct (py_gt0 (dget_or "parentNode" (VInt 0) d)) as [positive|] eqn:E.
    + destruct (Serial.build_edges items) as [es|].
      * split.
        -- destruct (_ && _); discriminate.
        -- intros (r & [Heq|Hin] & Hr).
           ++ subst r. rewrite E in Hr. discriminate.
           ++ assert (F : Some es = None) by (apply IH; eauto).
              discriminate.
      * split; [|reflexivity]. intros _.
        destruct (proj1 IH eq_refl) as (r & Hin & Hr).
        exists r. split; [now right|exact Hr].
    + split; [|reflexivity]. intros _. exists d. split; [now left|].
      now rewrite E.
Qed.

Lemma simulation_build_edges_none items :
  Simulation.build_edges items = None
  <-> exists record, In record (map snd items) /\ numeric_parent record = false.
Proof.
  unfold numeric_parent.
  induction items as [|[k d] items IH]; cbn [Simulation.build_edges map snd].
  - split; [discriminate|]. intros (r & [] & _).
  - destruct (py_gt0 (dget_or "parentNode" (VInt 0) d)) as [positive|] eqn:E.
    + destruct (Simulation.build_edges items) as [es|].
      * split.
        -- destruct (_ && _); discriminate.
        -- intros (r & [Heq|Hin] & Hr).
           ++ subst r. rewrite E in Hr. discriminate.
           ++ assert (F : Some es = None) by (apply IH; eauto).
              discriminate.
      * split; [|reflexivity]. intros _.
        destruct (proj1 IH eq_refl) as (r & Hin & Hr).
        exists r. split; [now right|exact Hr].
    + split; [|reflexivity]. intros _. exists d. split; [now left|].
      now rewrite E.
Qed.

(** X9.  In both bridges [get_topology_data()] raises [TypeError] exactly
    when it has to rebuild the view and some topology record has a
    [parentNode] that is not a number; the globals stay as they are.  A
    broadcast with at least one client registered then raises too, before
    anything is sent and with every client still registered; with no
    client registered a broadcast does nothing at all, and does not even
    build the view. *)
Theorem broadcast_update_when_topology_fails :
  (forall s,
      Serial.get_topology_data s = (Raised TypeError, s)
      <-> (serial_cache_stale s
           /\ exists record,
                In record (map snd (Serial.network_topology s))
                /\ numeric_parent record = false))
  /\ (forall s c e s1,
        Serial.get_topology_data s = (Raised e, s1) ->
        Serial.websocket_clients s <> [] ->
        Serial.broadcast_update c s = (Raised e, s))
  /\ (forall s c,
        Serial.websocket_clients s = [] ->
        Serial.broadcast_update c s = (Ok tt, s))
  /\ (forall s,
        Simulation.get_topology_data s = (Raised TypeError, s)
        <-> (sim_cache_stale s
             /\ exists record,
                  In record (map snd (Simulation.network_topology s))
                  /\ numeric_parent record = false))
  /\ (forall s c e s1,
        Simulation.get_topology_data s = (Raised e, s1) ->
        Simulation.websocket_clients s <> [] ->
        Simulation.broadcast_update c s = (Raised e, s))
  /\ (forall s c,
        Simulation.websocket_clients s = [] ->
        Simulation.broadcast_update c s = (Ok tt, s)).
Proof.
  assert (A1 : forall s e s1,
             Serial.get_topology_data s = (Raised e, s1) ->
             serial_cache_stale s /\ e = TypeError /\ s1 = s
             /\ Serial.build_edges (Serial.network_topology s) = None).
  { intros s e s1 H. unfold serial_cache_stale.
    destruct (Serial.topology_cache_dirty s) eqn:Hd.
    - rewrite serial_get_topology_data_miss in H by auto.
      destruct (Serial.build_edges (Serial.network_topology s));
        inversion H; auto.
    - destruct (Serial.topology_cache s) as [c|] eqn:Hc.
      + rewrite (serial_get_topology_data_hit s c) in H by auto.
        discriminate.
      + rewrite serial_get_topology_data_miss in H by auto.
        destruct (Serial.build_edges (Serial.network_topology s));
          inversion H; auto. }
  assert (A2 : forall s e s1,
             Simulation.get_topology_data s = (Raised e, s1) ->
             sim_cache_stale s /\ e = TypeError /\ s1 = s
             /\ Simulation.build_edges (Simulation.network_topology s) = None).
  { intros s e s1 H. unfold sim_cache_stale.
    destruct (Simulation.topology_cache_dirty s) eqn:Hd.
    - rewrite simulation_get_topology_data_miss in H by auto.
      destruct (Simulation.build_edges (Simulation.network_topology s));
        inversion H; auto.
    - destruct (Simulation.topology_cache s) as [c|] eqn:Hc.
      + rewrite (simulation_get_topology_data_hit s c) in H by auto.
        discriminate.
      + rewrite simulation_get_topology_data_miss in H by auto.
        destruct (Simulation.build_edges (Simulation.network_topology s));
          inversion H; auto. }
  repeat split.
  - apply (A1 _ _ _ H).
  - apply serial_build_edges_none. apply (A1 _ _ _ H).
  - intros [Hstale Hbad]. apply serial_build_edges_none in Hbad.
    rewrite serial_get_topology_data_miss by exact Hstale.
    now rewrite Hbad.
  - intros s c e s1 H Hcl. destruct (A1 _ _ _ H) as (_ & _ & -> & _).
    unfold Serial.broadcast_update, bind at 1, gets at 1.
    destruct (Serial.websocket_clients s); [contradiction|].
    unfold bind, gets. now rewrite H.
  - intros s c Hcl. unfold Serial.broadcast_update, bind, gets.
    now rewrite Hcl.
  - apply (A2 _ _ _ H).
  - apply simulation_build_edges_none. apply (A2 _ _ _ H).
  - intros [Hstale Hbad]. apply simulation_build_edges_none in Hbad.
    rewrite simulation_get_topology_data_miss by exact Hstale.
    now rewrite Hbad.
  - intros s c e s1 H Hcl. destruct (A2 _ _ _ H) as (_ & _ & -> & _).
    unfold Simulation.broadcast_update, bind at 1, gets at 1.
    destruct (Simulation.websocket_clients s); [contradiction|].
    unfold bind, gets. now rewrite H.
  - intros s c Hcl. unfold Simulation.broadcast_update, bind, gets.
    now rewrite Hcl.
Qed.

(** Client 1 is connected when node 2 names its parent: from then on no
    broadcast gets through, in either bridge. *)
Lemma broadcast_update_when_topology_fails_witness :
  let s :=
    Serial.run
      [ Serial.Connect 1%nat false;
        Serial.MeshData reading_with_named_parent
          (serial_world_at 1000 Serial.HttpOk) ] Serial.init in
  let u :=
    Simulation.run
      [ Simulation.Connect 1%nat false;
        Simulation.Event reading_with_named_parent (sim_world_at 1000) ]
      Simulation.init in
  (Serial.websocket_clients s = [1%nat]
   /\ Serial.broadcast_update nobody_closed s = (Raised TypeError, s)
   /\ Serial.broadcast_update nobody_closed Serial.init = (Ok tt, Serial.init))
  /\ (Simulation.websocket_clients u = [1%nat]
      /\ Simulation.broadcast_update nobody_closed u = (Raised TypeError, u)
      /\ Simulation.broadcast_update nobody_closed Simulation.init
         = (Ok tt, Simulation.init)).
Proof.
  intros s u.
  destruct broadcast_update_when_topology_fails
    as (_ & S2 & S3 & _ & U2 & U3).
  assert (Hs : Serial.websocket_clients s = [1%nat])
    by (vm_compute; reflexivity).
  assert (Hu : Simulation.websocket_clients u = [1%nat])
    by (vm_compute; reflexivity).
  assert (Gs : Serial.get_topology_data s = (Raised TypeError, s))
    by (vm_compute; reflexivity).
  assert (Gu : Simulation.get_topology_data u = (Raised TypeError, u))
    by (vm_compute; reflexivity).
  split; (split; [|split]).
  - exact Hs.
  - apply (S2 s nobody_closed TypeError s Gs). rewrite Hs. discriminate.
  - apply S3. reflexivity.
  - exact Hu.
  - apply (U2 u nobody_closed TypeError u Gu). rewrite Hu. discriminate.
  - apply U3. reflexivity.
Defined.

(** ** Strings *)

Lemma append_nil_r (s : string) : (s ++ "")%string = s.
Proof. induction s; cbn; congruence. Qed.

Lemma append_assoc (a b c : string) :
  ((a ++ b) ++ c)%string = (a ++ (b ++ c))%string.
Proof. induction a; cbn; congruence. Qed.

Lemma length_append (a b : string) :
  String.length (a ++ b) = (String.length a + String.length b)%nat.
Proof. induction a; cbn; congruence. Qed.

Lemma partition_frames s :
  partition newline s
  = match frames s with [] => None | frame :: _ => Some frame end.
Proof.
  induction s as [|c s IH]; cbn; [reflexivity|].
  destruct (Ascii.eqb c newline); [reflexivity|].
  rewrite IH. destruct (frames s) as [|[line rest] more]; reflexivity.
Qed.

Lemma frames_step s line rest more :
  frames s = (line, rest) :: more ->
  more = frames rest /\ (String.length rest < String.length s)%nat.
Proof.
  revert line rest more.
  induction s as [|c s IH]; cbn; intros line rest more H; [discriminate|].
  destruct (Ascii.eqb c newline).
  - injection H as <- <- <-. split; [reflexivity|lia].
  - destruct (frames s) as [|[l r] m]; [discriminate|].
    injection H as <- <- <-.
    destruct (IH l r m eq_refl) as [-> Hlen]. split; [reflexivity|lia].
Qed.

Lemma frames_app_some s b line rest more :
  frames s = (line, rest) :: more ->
  frames (s ++ b) = (line, (rest ++ b)%string) :: frames (rest ++ b).
Proof.
  revert line rest more.
  induction s as [|c s IH]; cbn; intros line rest more H; [discriminate|].
  destruct (Ascii.eqb c newline).
  - injection H as <- <- <-. reflexivity.
  - destruct (frames s) as [|[l r] m]; [discriminate|].
    injection H as <- <- <-.
    now rewrite (IH l r m eq_refl).
Qed.

Lemma frames_app_none s b :
  frames s = [] ->
  frames (s ++ b)
  = map (fun frame => ((s ++ fst frame)%string, snd frame))
      (firstn 1 (frames b))
    ++ skipn 1 (frames b).
Proof.
  induction s as [|c s IH]; cbn; intros H.
  - destruct (frames b) as [|[l r] m]; reflexivity.
  - destruct (Ascii.eqb c newline); [discriminate|].
    destruct (frames s) as [|f m] eqn:E; [|now destruct f].
    rewrite IH by reflexivity.
    destruct (frames b) as [|[l r] m]; reflexivity.
Qed.

Lemma last_cons {A} (a d : A) l : last (a :: l) d = last l a.
Proof.
  revert a d. induction l as [|b l IH]; intros a d; [reflexivity|].
  change (last (a :: b :: l) d) with (last (b :: l) d).
  now rewrite !IH.
Qed.

(** ** The serial reader *)

Section ReadSerialFacts.
Variable json_loads : string -> option dict.
Variable env : nat -> SerialPort.line_world.

Lemma on_globals_buffer {A} (c : M Serial.state A) r :
  SerialPort.line_buffer (snd (SerialPort.on_globals c r))
  = SerialPort.line_buffer r.
Proof.
  unfold SerialPort.on_globals. now destruct (c (SerialPort.globals r)).
Qed.

Lemma on_globals_eq {A} (c : M Serial.state A) r :
  SerialPort.on_globals c r
  = (fst (c (SerialPort.globals r)),
     {| SerialPort.globals := snd (c (SerialPort.globals r));
        SerialPort.line_buffer := SerialPort.line_buffer r |}).
Proof.
  unfold SerialPort.on_globals. now destruct (c (SerialPort.globals r)).
Qed.

(** The length of the buffer is fuel enough for the loop: it handles the
    frames of the buffer one after the other. *)
Lemma process_lines_frames fuel : forall i r,
  (String.length (SerialPort.line_buffer r) <= fuel)%nat ->
  SerialPort.process_lines json_loads fuel env i r
  = handle_frames json_loads env i (frames (SerialPort.line_buffer r)) r.
Proof.
  induction fuel as [|fuel IH]; intros i r Hlen.
  - destruct (SerialPort.line_buffer r) eqn:E; [|cbn in Hlen; lia].
    reflexivity.
  - cbn [SerialPort.process_lines]. unfold bind at 1, gets at 1.
    rewrite partition_frames.
    destruct (frames (SerialPort.line_buffer r)) as [|[raw rest] more] eqn:E;
      [reflexivity|].
    destruct (frames_step _ _ _ _ E) as [-> Hrest].
    cbn [handle_frames]. unfold bind at 1 3, modify at 1 2.
    destruct (String.eqb (rstrip carriage_return raw) "").
    + apply IH. cbn. lia.
    + unfold bind.
      pose proof (on_globals_buffer
                    (SerialPort.handle_line json_loads
                       (rstrip carriage_return raw) (env i))
                    (SerialPort.set_line_buffer rest r)) as Hb.
      destruct (SerialPort.on_globals _ _) as [[u|e] r2]; [|reflexivity].
      cbn [snd] in Hb. cbn [SerialPort.set_line_buffer SerialPort.line_buffer]
        in Hb.
      rewrite IH by (rewrite Hb; lia). now rewrite Hb.
Qed.

Lemma handle_frames_returns fs : forall i r g',
  handle_lines json_loads env i (frame_lines fs) (SerialPort.globals r)
  = (Ok tt, g') ->
  handle_frames json_loads env i fs r
  = (Ok tt,
     {| SerialPort.globals := g';
        SerialPort.line_buffer := last (map snd fs) (SerialPort.line_buffer r) |}).
Proof.
  induction fs as [|[raw rest] more IH]; intros i r g' H.
  - cbn in *. unfold ret in *. injection H as <-. now destruct r.
  - cbn [handle_frames]. unfold bind at 1, modify at 1.
    unfold frame_lines in H. cbn [map filter fst] in H.
    fold (frame_lines more) in H.
    assert (Hlast : last (map snd ((raw, rest) :: more))
                      (SerialPort.line_buffer r)
                    = last (map snd more) rest).
    { cbn [map snd]. apply last_cons. }
    rewrite Hlast.
    destruct (String.eqb (rstrip carriage_return raw) ""); cbn [negb] in H.
    + now rewrite (IH i (SerialPort.set_line_buffer rest r) g' H).
    + cbn [handle_lines] in H. unfold bind in H. unfold bind.
      rewrite on_globals_eq.
      cbn [SerialPort.set_line_buffer SerialPort.globals
           SerialPort.line_buffer].
      destruct (SerialPort.handle_line json_loads _ (env i)
                  (SerialPort.globals r)) as [[u|e] g1]; [|discriminate].
      cbn [fst snd].
      now rewrite (IH (S i)
                     {| SerialPort.globals := g1;
                        SerialPort.line_buffer := rest |} g' H).
Qed.

Lemma handle_frames_raises fs : forall i r e g',
  handle_lines json_loads env i (frame_lines fs) (SerialPort.globals r)
  = (Raised e, g') ->
  exists done failed todo,
    fs = done ++ failed :: todo
    /\ handle_frames json_loads env i fs r
       = (Raised e,
          {| SerialPort.globals := g';
             SerialPort.line_buffer := snd failed |})
    /\ returned (handle_lines json_loads env i (frame_lines done))
         (SerialPort.globals r) = true
    /\ SerialPort.handle_line json_loads
         (rstrip carriage_return (fst failed))
         (env (i + List.length (frame_lines done))%nat)
         (exec (handle_lines json_loads env i (frame_lines done))
            (SerialPort.globals r))
       = (Raised e, g')
    /\ String.eqb (rstrip carriage_return (fst failed)) "" = false.
Proof.
  induction fs as [|[raw rest] more IH]; intros i r e g' H.
  - cbn in H. discriminate.
  - cbn [handle_frames]. unfold bind at 1, modify at 1.
    unfold frame_lines in H. cbn [map filter fst] in H.
    fold (frame_lines more) in H.
    destruct (String.eqb (rstrip carriage_return raw) "") eqn:Hempty;
      cbn [negb] in H.
    + destruct (IH i (SerialPort.set_line_buffer rest r) e g' H)
        as (done & failed & todo & Hfs & Hrun & Hdone & Hfail & Hne).
      exists ((raw, rest) :: done), failed, todo.
      assert (Hl : frame_lines ((raw, rest) :: done) = frame_lines done).
      { unfold frame_lines. cbn [map filter fst]. now rewrite Hempty. }
      rewrite Hl. repeat split; auto. now rewrite Hfs.
    + cbn [handle_lines] in H. unfold bind in H. unfold bind.
      rewrite on_globals_eq.
      cbn [SerialPort.set_line_buffer SerialPort.globals
           SerialPort.line_buffer].
      destruct (SerialPort.handle_line json_loads _ (env i)
                  (SerialPort.globals r)) as [[u|e1] g1] eqn:Hline.
      * cbn [fst snd].
        destruct (IH (S i)
                    {| SerialPort.globals := g1;
                       SerialPort.line_buffer := rest |} e g' H)
          as (done & failed & todo & Hfs & Hrun & Hdone & Hfail & Hne).
        exists ((raw, rest) :: done), failed, todo.
        assert (Hl : frame_lines ((raw, rest) :: done)
                     = rstrip carriage_return raw :: frame_lines done).
        { unfold frame_lines. cbn [map filter fst]. now rewrite Hempty. }
        rewrite Hl. cbn [handle_lines List.length].
        unfold returned, exec, bind. rewrite Hline. cbn [fst snd].
        cbn [SerialPort.globals] in Hdone, Hfail.
        repeat split; auto.
        -- now rewrite Hfs.
        -- replace (i + S (List.length (frame_lines done)))%nat
             with (S i + List.length (frame_lines done))%nat by lia.
           exact Hfail.
      * injection H as <- <-. exists [], (raw, rest), more.
        cbn [frame_lines]. unfold frame_lines. cbn [map filter List.length].
        cbn [handle_lines]. rewrite Nat.add_0_r.
        repeat split; auto.
Qed.

Lemma frames_split s done failed todo :
  frames s = done ++ failed :: todo ->
  frames (snd failed) = todo
  /\ last (map snd todo) (snd failed) = pending_text s.
Proof.
  revert s. induction done as [|[l r] done IH]; intros s H.
  - cbn in H. destruct failed as [l r].
    destruct (frames_step _ _ _ _ H) as [-> _]. split; [reflexivity|].
    unfold pending_text. rewrite H. cbn [map snd].
    now rewrite last_cons.
  - cbn in H. destruct (frames_step _ _ _ _ H) as [Hr _].
    destruct (IH r (eq_sym Hr)) as [H1 H2]. split; [exact H1|].
    rewrite H2. unfold pending_text. rewrite H, <- Hr. cbn [map snd].
    now rewrite last_cons.
Qed.

End ReadSerialFacts.

Lemma frames_nil_has_char s : frames s = [] <-> has_char newline s = false.
Proof.
  induction s as [|c s IH]; cbn; [tauto|].
  destruct (Ascii.eqb c newline); cbn.
  - split; discriminate.
  - rewrite <- IH. destruct (frames s) as [|[l r] m]; [tauto|].
    split; discriminate.
Qed.

Lemma frames_pending s : frames (pending_text s) = [].
Proof.
  unfold pending_text.
  destruct (frames s) as [|f fs] eqn:E; [exact E|].
  destruct (exists_last (l := f :: fs)) as (done & failed & Hl);
    [discriminate|].
  rewrite Hl in E.
  destruct (frames_split s done failed [] E) as [H1 H2].
  rewrite Hl, map_app. cbn [map]. rewrite last_last. exact H1.
Qed.

Lemma has_char_substring c s : forall n m,
  has_char c s = false -> has_char c (String.substring n m s) = false.
Proof.
  induction s as [|a s IH]; intros n m H.
  - now destruct n, m.
  - cbn in H. apply orb_false_iff in H. destruct H as [Ha Hs].
    destruct n, m; cbn; rewrite ?Ha; cbn; auto.
Qed.

Lemma length_substring s : forall n m,
  (String.length (String.substring n m s) <= m)%nat.
Proof.
  induction s as [|a s IH]; intros n m.
  - destruct n, m; cbn; lia.
  - destruct n, m; cbn; try lia.
    + specialize (IH 0%nat m). lia.
    + apply IH.
    + apply IH.
Qed.

Lemma capped_spec s :
  has_char newline s = false ->
  has_char newline (capped s) = false
  /\ Z.of_nat (String.length (capped s)) <= 10000.
Proof.
  intros H. unfold capped.
  destruct (10000 <? Z.of_nat (String.length s)) eqn:E.
  - split; [now apply has_char_substring|].
    unfold last_chars.
    pose proof (length_substring s (String.length s - 1000) 1000). lia.
  - apply Z.ltb_ge in E. auto.
Qed.

Lemma frames_lines_clean s :
  Forall (fun frame => has_char newline (fst frame) = false) (frames s).
Proof.
  induction s as [|c s IH]; cbn; [constructor|].
  destruct (Ascii.eqb c newline) eqn:E; [constructor; auto|].
  destruct (frames s) as [|[l r] m]; [constructor|].
  inversion IH; subst. constructor; auto. cbn in *. now rewrite E.
Qed.

Lemma has_char_rstrip c d s :
  has_char c s = false -> has_char c (rstrip d s) = false.
Proof.
  induction s as [|a s IH]; cbn; [auto|].
  intros H. apply orb_false_iff in H. destruct H as [Ha Hs].
  specialize (IH Hs).
  destruct (rstrip d s) as [|b r].
  - destruct (Ascii.eqb a d); cbn; rewrite ?Ha; auto.
  - cbn in *. now rewrite Ha.
Qed.

Lemma endswith_rstrip c s : endswith (String c "") (rstrip c s) = false.
Proof.
  induction s as [|a s IH]; cbn; [reflexivity|].
  destruct (rstrip c s) as [|b r].
  - destruct (Ascii.eqb a c) eqn:E; cbn; [reflexivity|].
    rewrite E. reflexivity.
  - change (endswith (String c "") (String a (String b r)))
      with (String.eqb (String a (String b r)) (String c "")
            || endswith (String c "") (String b r)).
    rewrite IH. cbn [String.eqb].
    destruct (Ascii.eqb a c); reflexivity.
Qed.

Lemma handled_lines_clean s :
  Forall
    (fun line =>
       line <> ""
       /\ has_char newline line = false
       /\ endswith (String carriage_return "") line = false)
    (handled_lines s).
Proof.
  unfold handled_lines, frame_lines. apply Forall_forall. intros line Hin.
  apply filter_In in Hin. destruct Hin as [Hin Hne].
  apply in_map_iff in Hin. destruct Hin as (frame & <- & Hf).
  repeat split.
  - intros E. rewrite E in Hne. discriminate.
  - apply has_char_rstrip.
    pose proof (frames_lines_clean s) as H. rewrite Forall_forall in H.
    now apply H.
  - apply endswith_rstrip.
Qed.

Lemma frame_lines_app a b :
  frame_lines (a ++ b) = frame_lines a ++ frame_lines b.
Proof. unfold frame_lines. now rewrite map_app, filter_app. Qed.

Lemma read_available_eq json_loads data env r :
  let text := (SerialPort.line_buffer r ++ data)%string in
  SerialPort.read_available json_loads data env r
  = match handle_frames json_loads env 0 (frames text)
            (SerialPort.set_line_buffer text r) with
    | (Ok _, r1) =>
        (Ok tt, SerialPort.set_line_buffer (capped (SerialPort.line_buffer r1)) r1)
    | (Raised e, r1) => (Raised e, r1)
    end.
Proof.
  intros text. unfold SerialPort.read_available.
  unfold bind at 1, modify at 1. unfold bind at 1, gets at 1.
  cbn [SerialPort.set_line_buffer SerialPort.line_buffer]. fold text.
  unfold bind at 1.
  rewrite process_lines_frames
    by (unfold SerialPort.set_line_buffer; cbn [SerialPort.line_buffer]; lia).
  cbn [SerialPort.line_buffer SerialPort.set_line_buffer].
  fold (SerialPort.set_line_buffer text r).
  destruct (handle_frames json_loads env 0 (frames text) _) as [[u|e] r1];
    [|reflexivity].
  unfold bind, gets, capped.
  destruct (10000 <? _); [reflexivity|].
  unfold ret. now destruct r1.
Qed.

(** X10.  Serial reader: one turn of [read_serial] in which every line it
    handles is handled without an exception.  The lines handled are the
    lines that the buffer and the new text together hold, each ended by a
    newline: in order, each once, without trailing carriage returns, the
    empty ones left out; none of them is empty, holds a newline or ends in
    a carriage return.  The text after the last newline stays in the
    buffer, cut to its last 1000 characters when it is longer than 10000:
    the buffer kept holds no newline and at most 10000 characters. *)
Theorem read_available_handles_lines :
  forall json_loads env r data g',
    let text := (SerialPort.line_buffer r ++ data)%string in
    handle_lines json_loads env 0 (handled_lines text) (SerialPort.globals r)
    = (Ok tt, g') ->
    SerialPort.read_available json_loads data env r
    = (Ok tt,
       {| SerialPort.globals := g';
          SerialPort.line_buffer := capped (pending_text text) |})
    /\ has_char newline (capped (pending_text text)) = false
    /\ Z.of_nat (String.length (capped (pending_text text))) <= 10000
    /\ Forall
         (fun line =>
            line <> ""
            /\ has_char newline line = false
            /\ endswith (String carriage_return "") line = false)
         (handled_lines text).
Proof.
  intros json_loads env r data g' text H.
  split; [|split; [|split]].
  - rewrite read_available_eq. fold text.
    rewrite (handle_frames_returns json_loads env (frames text) 0
               (SerialPort.set_line_buffer text r) g' H).
    reflexivity.
  - apply capped_spec. apply frames_nil_has_char, frames_pending.
  - apply capped_spec. apply frames_nil_has_char, frames_pending.
  - apply handled_lines_clean.
Qed.

(** X11.  Serial reader: a turn of [read_serial] in which handling a line
    raises.  The exception ends the turn with the globals as the failing
    line left them; the lines before it have been handled, and the lines
    after it are not lost: they are still in the buffer, with the text
    after the last newline, for the next turn in which the port has
    data. *)
Theorem read_available_keeps_unhandled_lines :
  forall json_loads env r data e g',
    let text := (SerialPort.line_buffer r ++ data)%string in
    handle_lines json_loads env 0 (handled_lines text) (SerialPort.globals r)
    = (Raised e, g') ->
    exists buffer done failed,
      SerialPort.read_available json_loads data env r
      = (Raised e,
         {| SerialPort.globals := g'; SerialPort.line_buffer := buffer |})
      /\ handled_lines text = done ++ failed :: handled_lines buffer
      /\ pending_text buffer = pending_text text
      /\ returned (handle_lines json_loads env 0 done) (SerialPort.globals r)
         = true
      /\ SerialPort.handle_line json_loads failed
           (env (List.length done))
           (exec (handle_lines json_loads env 0 done) (SerialPort.globals r))
         = (Raised e, g').
Proof.
  intros json_loads env r data e g' text H.
  destruct (handle_frames_raises json_loads env (frames text) 0
              (SerialPort.set_line_buffer text r) e g' H)
    as (done & failed & todo & Hfs & Hrun & Hdone & Hfail & Hne).
  destruct (frames_split text done failed todo Hfs) as [Htodo Hpend].
  exists (snd failed), (frame_lines done),
    (rstrip carriage_return (fst failed)).
  split; [|split; [|split; [|split]]].
  - rewrite read_available_eq. fold text. now rewrite Hrun.
  - unfold handled_lines. rewrite Hfs, Htodo, frame_lines_app.
    f_equal. unfold frame_lines. cbn [map filter]. now rewrite Hne.
  - unfold pending_text at 1. now rewrite Htodo.
  - exact Hdone.
  - exact Hfail.
Qed.

(** "boot", an empty line and the beginning of a third line arrive: "boot"
    is handled and the beginning of the third line waits in the buffer. *)
Lemma read_available_handles_lines_witness :
  let data := ("boot" ++ crlf ++ crlf ++ "tail")%string in
  handled_lines data = ["boot"]
  /\ SerialPort.read_available loads_unhashable data (quiet_line_world 5)
       fresh_reader
     = (Ok tt,
        {| SerialPort.globals := Serial.init;
           SerialPort.line_buffer := "tail" |}).
Proof.
  intros data. split; [vm_compute; reflexivity|].
  assert (H : handle_lines loads_unhashable (quiet_line_world 5) 0
                (handled_lines (SerialPort.line_buffer fresh_reader ++ data))
                (SerialPort.globals fresh_reader)
              = (Ok tt, Serial.init)) by (vm_compute; reflexivity).
  rewrite (proj1 (read_available_handles_lines loads_unhashable
                    (quiet_line_world 5) fresh_reader data Serial.init H)).
  vm_compute. reflexivity.
Defined.

(** A line that decodes to an event with an unhashable [nodeId] raises;
    the line after it stays in the buffer. *)
Lemma read_available_keeps_unhandled_lines_witness :
  let data := ("{}" ++ lf ++ "next" ++ lf ++ "tail")%string in
  exists buffer,
    exec (SerialPort.read_available loads_unhashable data
            (quiet_line_world 5)) fresh_reader
    = {| SerialPort.globals := Serial.init;
         SerialPort.line_buffer := buffer |}
    /\ handled_lines buffer = ["next"]
    /\ pending_text buffer = "tail".
Proof.
  intros data.
  assert (H : handle_lines loads_unhashable (quiet_line_world 5) 0
                (handled_lines (SerialPort.line_buffer fresh_reader ++ data))
                (SerialPort.globals fresh_reader)
              = (Raised TypeError, Serial.init)) by (vm_compute; reflexivity).
  destruct (read_available_keeps_unhandled_lines loads_unhashable
              (quiet_line_world 5) fresh_reader data TypeError Serial.init H)
    as (buffer & done & failed & Hrun & Hlines & Hpend & Hret & _).
  exists buffer. unfold exec. rewrite Hrun. split; [reflexivity|].
  split.
  - assert (E : handled_lines (SerialPort.line_buffer fresh_reader ++ data)
                = ["{}"; "next"]) by (vm_compute; reflexivity).
    rewrite E in Hlines.
    destruct done as [|d done].
    + injection Hlines as _ Hl. now rewrite <- Hl.
    + injection Hlines as Hd _. subst d.
      vm_compute in Hret. discriminate.
  - rewrite Hpend. vm_compute. reflexivity.
Defined.

Section ReadSerialChunks.
Variable json_loads : string -> option dict.

Lemma handle_frames_shift env env' n fs :
  (forall k, env' k = env (n + k)%nat) ->
  forall i r,
    handle_frames json_loads env' i fs r
    = handle_frames json_loads env (n + i)%nat fs r.
Proof.
  intros Henv. induction fs as [|[raw rest] more IH]; intros i r;
    [reflexivity|].
  cbn [handle_frames]. unfold bind at 1 3, modify at 1 2.
  destruct (String.eqb (rstrip carriage_return raw) ""); [apply IH|].
  unfold bind. rewrite Henv.
  destruct (SerialPort.on_globals _ _) as [[u|e] r2]; [|reflexivity].
  rewrite IH. f_equal. lia.
Qed.

Lemma pending_text_step s line rest more :
  frames s = (line, rest) :: more -> pending_text s = pending_text rest.
Proof.
  intros H. destruct (frames_step _ _ _ _ H) as [Hmore _].
  unfold pending_text. rewrite H, <- Hmore. cbn [map snd]. apply last_cons.
Qed.

Lemma pending_text_none s : frames s = [] -> pending_text s = s.
Proof. intros H. unfold pending_text. now rewrite H. Qed.

(** The loop over a buffer that goes on with more text, once the lines of
    the buffer are handled: it goes on with what the buffer left pending. *)
Lemma handle_frames_app env b fs : forall s i g g1,
  frames s = fs ->
  handle_lines json_loads env i (frame_lines fs) g = (Ok tt, g1) ->
  handle_frames json_loads env i (frames (s ++ b))
    {| SerialPort.globals := g; SerialPort.line_buffer := (s ++ b)%string |}
  = handle_frames json_loads env (i + List.length (frame_lines fs))%nat
      (frames (pending_text s ++ b))
      {| SerialPort.globals := g1;
         SerialPort.line_buffer := (pending_text s ++ b)%string |}.
Proof.
  induction fs as [|[raw rest] more IH]; intros s i g g1 Hs H.
  - cbn in H. unfold ret in H. injection H as <-.
    rewrite (pending_text_none s Hs). cbn. now rewrite Nat.add_0_r.
  - rewrite (frames_app_some s b raw rest more Hs).
    rewrite (pending_text_step s raw rest more Hs).
    destruct (frames_step _ _ _ _ Hs) as [Hmore _].
    cbn [handle_frames]. unfold bind at 1, modify at 1.
    unfold frame_lines in H |- *. cbn [map filter fst] in H |- *.
    fold (frame_lines more) in H |- *.
    cbn [SerialPort.set_line_buffer SerialPort.globals].
    destruct (String.eqb (rstrip carriage_return raw) ""); cbn [negb] in H |- *.
    + apply (IH rest i g g1 (eq_sym Hmore) H).
    + cbn [handle_lines] in H. unfold bind in H. unfold bind.
      rewrite on_globals_eq. unfold SerialPort.set_line_buffer.
      cbn [SerialPort.globals SerialPort.line_buffer].
      destruct (SerialPort.handle_line json_loads _ (env i) g)
        as [[u|e] g2]; [|discriminate].
      cbn [fst snd List.length].
      rewrite (IH rest (S i) g2 g1 (eq_sym Hmore) H).
      f_equal. lia.
Qed.

Lemma read_available_returned env r data :
  returned (SerialPort.read_available json_loads data env) r = true ->
  exists g',
    handle_lines json_loads env 0
      (handled_lines (SerialPort.line_buffer r ++ data))
      (SerialPort.globals r) = (Ok tt, g').
Proof.
  intros H.
  destruct (handle_lines json_loads env 0 _ (SerialPort.globals r))
    as [[[]|e] g'] eqn:E; [eauto|].
  destruct (read_available_keeps_unhandled_lines json_loads env r data e g' E)
    as (buffer & done & failed & Hrun & _).
  unfold returned in H. rewrite Hrun in H. discriminate.
Qed.

Lemma rstrip_app_char c s : rstrip c (s ++ String c "") = rstrip c s.
Proof.
  induction s as [|a s IH]; cbn.
  - now rewrite Ascii.eqb_refl.
  - now rewrite IH.
Qed.

Lemma has_char_app c a b :
  has_char c (a ++ b) = has_char c a || has_char c b.
Proof.
  induction a as [|x a IH]; cbn; [reflexivity|].
  rewrite IH. now rewrite orb_assoc.
Qed.

Lemma frames_line line rest :
  has_char newline line = false ->
  frames (line ++ String newline rest) = (line, rest) :: frames rest.
Proof.
  induction line as [|c line IH]; cbn.
  - intros _. reflexivity.
  - intros H. apply orb_false_iff in H. destruct H as [Hc Hl].
    rewrite Hc. now rewrite (IH Hl).
Qed.

(** A carriage return before a newline changes neither the lines handled
    nor the text left pending. *)
Lemma crlf_lines fs : forall p y,
  frames p = fs ->
  handled_lines (p ++ crlf ++ y) = handled_lines (p ++ lf ++ y)
  /\ pending_text (p ++ crlf ++ y) = pending_text (p ++ lf ++ y).
Proof.
  induction fs as [|[raw rest] more IH]; intros p y Hp.
  - assert (Hclean : has_char newline p = false)
      by now apply frames_nil_has_char.
    assert (E1 : (p ++ crlf ++ y)%string
                 = ((p ++ String carriage_return "") ++ String newline y)%string).
    { unfold crlf. now rewrite append_assoc. }
    assert (E2 : (p ++ lf ++ y)%string = (p ++ String newline y)%string)
      by reflexivity.
    assert (F1 := frames_line (p ++ String carriage_return "") y).
    rewrite has_char_app, Hclean in F1. specialize (F1 eq_refl).
    assert (F2 := frames_line p y Hclean).
    unfold handled_lines, pending_text. rewrite E1, E2, F1, F2.
    split.
    + unfold frame_lines. cbn [map fst]. now rewrite rstrip_app_char.
    + cbn [map snd]. now rewrite !last_cons.
  - destruct (frames_step _ _ _ _ Hp) as [Hmore _].
    destruct (IH rest y (eq_sym Hmore)) as [H1 H2].
    pose proof (frames_app_some p (crlf ++ y) raw rest more Hp) as F1.
    pose proof (frames_app_some p (lf ++ y) raw rest more Hp) as F2.
    split.
    + unfold handled_lines in *. rewrite F1, F2.
      unfold frame_lines in *. cbn [map filter fst].
      destruct (negb _); now rewrite H1.
    + rewrite (pending_text_step _ _ _ _ F1), (pending_text_step _ _ _ _ F2).
      exact H2.
Qed.

End ReadSerialChunks.

(** X12.  Serial reader: how the port cuts the text into reads does not
    matter.  When a turn of [read_serial] returns and leaves at most 10000
    characters pending, reading [a] and then [b] ends like reading [a]
    followed by [b] in one turn: the same lines are handled in the same
    worlds with the same outcome, and the same text stays in the
    buffer. *)
Theorem read_available_chunks :
  forall json_loads env r a b,
    let text := (SerialPort.line_buffer r ++ a)%string in
    let n := List.length (handled_lines text) in
    returned (SerialPort.read_available json_loads a env) r = true ->
    Z.of_nat (String.length (pending_text text)) <= 10000 ->
    SerialPort.read_available json_loads b (fun k => env (n + k)%nat)
      (exec (SerialPort.read_available json_loads a env) r)
    = SerialPort.read_available json_loads (a ++ b) env r.
Proof.
  intros json_loads env r a b text n Hret Hlen.
  destruct (read_available_returned json_loads env r a Hret) as [g1 Hg].
  fold text in Hg.
  destruct (read_available_handles_lines json_loads env r a g1 Hg)
    as [Hrun _].
  fold text in Hrun. unfold exec. rewrite Hrun. cbn [snd].
  assert (Hcap : capped (pending_text text) = pending_text text).
  { unfold capped. apply Z.leb_le in Hlen. rewrite Z.leb_antisym in Hlen.
    apply negb_true_iff in Hlen. now rewrite Hlen. }
  rewrite Hcap, !read_available_eq. cbv zeta.
  cbn [SerialPort.line_buffer SerialPort.set_line_buffer SerialPort.globals].
  rewrite (handle_frames_shift json_loads env (fun k => env (n + k)%nat) n)
    by reflexivity.
  rewrite Nat.add_0_r.
  replace (SerialPort.line_buffer r ++ a ++ b)%string
    with (text ++ b)%string by (unfold text; apply append_assoc).
  unfold SerialPort.set_line_buffer.
  cbn [SerialPort.line_buffer SerialPort.globals].
  rewrite (handle_frames_app json_loads env b (frames text) text 0
             (SerialPort.globals r) g1 eq_refl Hg).
  reflexivity.
Qed.

(** X13.  Serial reader: a line may end in a carriage return and a
    newline, or in a newline alone.  A turn of [read_serial] that returns
    ends the same whichever of the two ends a line of the text read. *)
Theorem read_available_crlf :
  forall json_loads env r x y,
    returned
      (SerialPort.read_available json_loads (x ++ crlf ++ y) env) r = true ->
    SerialPort.read_available json_loads (x ++ crlf ++ y) env r
    = SerialPort.read_available json_loads (x ++ lf ++ y) env r.
Proof.
  intros json_loads env r x y Hret.
  destruct (read_available_returned json_loads env r _ Hret) as [g1 Hg].
  destruct (crlf_lines (frames (SerialPort.line_buffer r ++ x))
              (SerialPort.line_buffer r ++ x) y eq_refl) as [Hl Hp].
  rewrite !append_assoc in Hl, Hp.
  destruct (read_available_handles_lines json_loads env r _ g1 Hg)
    as [Hrun _].
  rewrite Hrun.
  rewrite Hl in Hg.
  destruct (read_available_handles_lines json_loads env r _ g1 Hg)
    as [Hrun' _].
  rewrite Hrun'. now rewrite Hp.
Qed.

(** "boot" arrives in two reads, cut in the middle of the word. *)
Lemma read_available_chunks_witness :
  let a := "bo" in
  let b := ("ot" ++ lf ++ "x")%string in
  let env := quiet_line_world 5 in
  returned (SerialPort.read_available loads_unhashable a env) fresh_reader
  = true
  /\ SerialPort.read_available loads_unhashable b env
       (exec (SerialPort.read_available loads_unhashable a env) fresh_reader)
     = SerialPort.read_available loads_unhashable (a ++ b) env fresh_reader
  /\ handled_lines (a ++ b) = ["boot"].
Proof.
  intros a b env.
  assert (Hret : returned (SerialPort.read_available loads_unhashable a env)
                   fresh_reader = true) by (vm_compute; reflexivity).
  assert (Hlen : Z.of_nat
                   (String.length
                      (pending_text (SerialPort.line_buffer fresh_reader ++ a)))
                 <= 10000) by (vm_compute; discriminate).
  split; [exact Hret|]. split; [|vm_compute; reflexivity].
  exact (read_available_chunks loads_unhashable env fresh_reader a b
           Hret Hlen).
Defined.

(** "boot" ended the Windows way and the Unix way. *)
Lemma read_available_crlf_witness :
  let env := quiet_line_world 5 in
  returned
    (SerialPort.read_available loads_unhashable ("boot" ++ crlf ++ "tail") env)
    fresh_reader = true
  /\ SerialPort.read_available loads_unhashable ("boot" ++ crlf ++ "tail") env
       fresh_reader
     = SerialPort.read_available loads_unhashable ("boot" ++ lf ++ "tail") env
         fresh_reader.
Proof.
  intros env.
  assert (Hret : returned
                   (SerialPort.read_available loads_unhashable
                      ("boot" ++ crlf ++ "tail") env) fresh_reader = true)
    by (vm_compute; reflexivity).
  split; [exact Hret|].
  exact (read_available_crlf loads_unhashable env fresh_reader "boot" "tail"
           Hret).
Defined.

(** ** One line of the serial port *)

Lemma serial_outbox_grows_refl s : serial_outbox_grows s s.
Proof. exists []. now rewrite app_nil_r. Qed.

Lemma serial_outbox_grows_trans a b c :
  serial_outbox_grows a b -> serial_outbox_grows b c ->
  serial_outbox_grows a c.
Proof.
  intros [m1 H1] [m2 H2]. exists (m1 ++ m2). now rewrite H2, H1, app_assoc.
Qed.

Lemma serial_outbox_grows_eq a b :
  Serial.outbox b = Serial.outbox a -> serial_outbox_grows a b.
Proof. intros H. exists []. now rewrite app_nil_r. Qed.

Lemma serial_get_topology_data_outbox s :
  Serial.outbox (exec Serial.get_topology_data s) = Serial.outbox s.
Proof.
  unfold exec, Serial.get_topology_data, bind, gets, modify, ret, raise.
  destruct (Serial.topology_cache_dirty s), (Serial.topology_cache s);
    try destruct (Serial.build_edges (Serial.network_topology s));
    reflexivity.
Qed.

Lemma serial_broadcast_update_grows c s :
  serial_outbox_grows s (exec (Serial.broadcast_update c) s).
Proof.
  unfold Serial.broadcast_update.
  unfold exec, bind at 1, gets at 1.
  destruct (Serial.websocket_clients s) eqn:Hc;
    [apply serial_outbox_grows_refl|].
  rewrite <- Hc. unfold bind, gets, modify.
  pose proof (serial_get_topology_data_outbox s) as H. unfold exec in H.
  destruct (Serial.get_topology_data s) as [[t|e] s1]; cbn [snd] in *.
  - rewrite serial_send_to_all. cbn [snd Serial.outbox Serial.set_outbox
                                      Serial.set_websocket_clients].
    rewrite H. eexists. reflexivity.
  - now apply serial_outbox_grows_eq.
Qed.

Lemma serial_store_node_data_grows nid data w s :
  serial_outbox_grows s (exec (Serial.store_node_data nid data w) s).
Proof.
  unfold exec at 1. rewrite serial_store_node_data_eq. cbv zeta. cbn [snd].
  unfold serial_upload_step.
  set (s4 := exec (Serial.save_topology_snapshot (Serial.t_snapshot w)) _).
  assert (H4 : Serial.outbox s4 = Serial.outbox s).
  { subst s4. unfold exec. rewrite serial_save_topology_snapshot_eq.
    rewrite serial_update_topology_eq, serial_count_message_eq.
    cbn [snd]. destruct (_ <? 30); reflexivity. }
  destruct (Serial.THINGSPEAK_ENABLED && Serial.requests w);
    [|now apply serial_outbox_grows_eq].
  unfold exec. rewrite serial_upload_to_thingspeak_eq. cbn [snd].
  destruct (negb _); [now apply serial_outbox_grows_eq|].
  destruct (_ <? Serial.THINGSPEAK_UPDATE_INTERVAL);
    [now apply serial_outbox_grows_eq|].
  cbv zeta.
  exists [Serial.Uploaded (key_of nid) (Serial.t_upload w)
            (Serial.upload_params data) (Serial.response w)].
  rewrite <- H4. destruct (Serial.response w); reflexivity.
Qed.

Lemma serial_process_mesh_data_grows data w s :
  serial_outbox_grows s (exec (Serial.process_mesh_data data w) s).
Proof.
  unfold Serial.process_mesh_data. rewrite exec_bind.
  assert (Hbranch : forall (body : M Serial.state unit),
             (forall s0, serial_outbox_grows s0 (exec body s0)) ->
             serial_outbox_grows s
               match body s with
               | (Ok _, s') => exec (Serial.broadcast_update (Serial.closed w)) s'
               | (Raised _, s') => s'
               end).
  { intros body Hbody. specialize (Hbody s). unfold exec in Hbody.
    destruct (body s) as [[u|e] s1]; cbn [snd] in Hbody; [|exact Hbody].
    eapply serial_outbox_grows_trans; [exact Hbody|].
    apply serial_broadcast_update_grows. }
  apply Hbranch. intros s0.
  destruct (py_eq _ (SStr "node_data")).
  - destruct (truthy (dget_none "nodeId" data));
      [|apply serial_outbox_grows_refl].
    destruct (dget_none "nodeId" data);
      try apply serial_outbox_grows_refl.
    apply serial_store_node_data_grows.
  - destruct (py_eq _ (SStr "gateway_status"));
      [now apply serial_outbox_grows_eq|].
    destruct (py_eq _ (SStr "mesh_stats"));
      now apply serial_outbox_grows_eq.
Qed.

Lemma serial_broadcast_serial_line_returns line c s :
  Serial.broadcast_serial_line line c s
  = (Ok tt, exec (Serial.broadcast_serial_line line c) s).
Proof.
  unfold exec.
  destruct (Serial.broadcast_serial_line line c s) as [[[]|e] s'] eqn:E;
    [reflexivity|].
  exfalso. revert E.
  unfold Serial.broadcast_serial_line, bind at 1, gets at 1.
  destruct (Serial.websocket_clients s) eqn:Hc; [discriminate|].
  rewrite <- Hc. unfold bind, gets, modify.
  rewrite serial_send_to_all. discriminate.
Qed.

(** X14.  Serial reader: every line handled is first sent to the console
    of every client whose connection is open, whatever the line holds and
    whatever happens when it is processed afterwards.  A line that does
    not start and end with a brace, or that does not decode, does nothing
    else: handling it returns and changes none of the stores of node
    state.  A line that decodes is handed to [process_mesh_data] once the
    console broadcast has removed the closed connections. *)
Theorem handle_line_reaches_console :
  forall json_loads line lw g,
    let g1 := exec (Serial.broadcast_serial_line line
                      (SerialPort.closed_console lw)) g in
    let g' := exec (SerialPort.handle_line json_loads line lw) g in
    let console :=
      map (fun ws => Serial.Sent ws (Serial.MsgSerial line))
        (open_clients (SerialPort.closed_console lw)
           (Serial.websocket_clients g)) in
    (exists more, Serial.outbox g' = Serial.outbox g ++ console ++ more)
    /\ match decoded_line json_loads line with
       | None =>
           SerialPort.handle_line json_loads line lw g = (Ok tt, g1)
           /\ serial_stores g' = serial_stores g
           /\ Serial.outbox g' = Serial.outbox g ++ console
       | Some data =>
           SerialPort.handle_line json_loads line lw g
           = Serial.process_mesh_data data (SerialPort.mesh_world lw) g1
       end.
Proof.
  intros json_loads line lw g g1 g' console.
  destruct (serial_broadcast_serial_line_spec line
              (SerialPort.closed_console lw) g) as [_ Hout].
  cbv zeta in Hout. fold g1 console in Hout.
  assert (Hrun : SerialPort.handle_line json_loads line lw g
                 = match decoded_line json_loads line with
                   | Some data =>
                       Serial.process_mesh_data data
                         (SerialPort.mesh_world lw) g1
                   | None => (Ok tt, g1)
                   end).
  { unfold SerialPort.handle_line, decoded_line, bind.
    rewrite serial_broadcast_serial_line_returns. fold g1.
    destruct (startswith "{" line && endswith "}" line); [|reflexivity].
    destruct (json_loads line); reflexivity. }
  split.
  - subst g'. unfold exec at 1. rewrite Hrun.
    destruct (decoded_line json_loads line) as [data|].
    + destruct (serial_process_mesh_data_grows data
                  (SerialPort.mesh_world lw) g1) as [more Hmore].
      exists more. unfold exec in Hmore. rewrite Hmore, Hout.
      now rewrite app_assoc.
    + exists []. cbn [snd]. now rewrite app_nil_r.
  - destruct (decoded_line json_loads line) as [data|]; [exact Hrun|].
    subst g'. unfold exec at 1 2. rewrite Hrun. cbn [snd].
    repeat split; auto.
    apply serial_broadcast_serial_line_stores.
Qed.

(** ** Commands of the clients *)

Lemma format_02d_small :
  forallb
    (fun n =>
       match SerialPort.format_02d (VInt (Z.of_nat n)) with
       | Ok t =>
           (String.length t =? 2)%nat
           && match decimal_value t with
              | Some z => z =? Z.of_nat n
              | None => false
              end
       | Raised _ => false
       end)
    (seq 0 100) = true.
Proof. vm_compute. reflexivity. Qed.

Lemma to_int_nonnil z :
  Z.to_int z <> Decimal.Pos Decimal.Nil /\ Z.to_int z <> Decimal.Neg Decimal.Nil.
Proof.
  destruct z as [|p|p]; cbn; split; try discriminate;
    intros H; injection H as H; now apply Unsigned.to_uint_nonnil in H.
Qed.

Lemma decimal_value_to_int z :
  decimal_value (NilZero.string_of_int (Z.to_int z)) = Some z.
Proof.
  unfold decimal_value. destruct (to_int_nonnil z) as [H1 H2].
  rewrite NilZero.isi by assumption.
  cbn [option_map]. now rewrite DecimalZ.of_to.
Qed.

Lemma format_02d_int z :
  exists t,
    SerialPort.format_02d (VInt z) = Ok t
    /\ decimal_value t = Some z
    /\ (0 <= z < 100 -> String.length t = 2%nat).
Proof.
  destruct (Z.leb_spec 0 z) as [Hpos|Hneg].
  - destruct (Z.ltb_spec z 100) as [Hsmall|Hbig].
    + pose proof format_02d_small as H. rewrite forallb_forall in H.
      specialize (H (Z.to_nat z)).
      rewrite Z2Nat.id in H by assumption.
      assert (Hin : In (Z.to_nat z) (seq 0 100)) by (apply in_seq; lia).
      specialize (H Hin).
      destruct (SerialPort.format_02d (VInt z)) as [t|e]; [|discriminate].
      apply andb_prop in H. destruct H as [Hlen Hval].
      exists t. split; [reflexivity|].
      destruct (decimal_value t) as [z'|]; [|discriminate].
      apply Z.eqb_eq in Hval. apply Nat.eqb_eq in Hlen. subst z'. auto.
    + eexists. split; [reflexivity|].
      replace ((0 <=? z) && (z <? 10)) with false
        by (symmetry; apply andb_false_iff; right; apply Z.ltb_ge; lia).
      split; [apply decimal_value_to_int|lia].
  - eexists. split; [reflexivity|].
    replace ((0 <=? z) && (z <? 10)) with false
      by (symmetry; apply andb_false_iff; left; apply Z.leb_gt; lia).
    split; [apply decimal_value_to_int|lia].
Qed.

(** X15.  Serial bridge: a [settime] command whose three fields are
    integers, sent by a client whose connection is open while the serial
    port is open, writes one line to the port, [SETTIME] and the three
    fields in decimal between colons, and answers [success] to that
    client.  Each field written reads back as the integer sent, whatever
    it is: no range is checked.  A field from 0 to 99 takes two
    characters, so that the line has 17 characters with its newline when
    all three are. *)
Theorem settime_writes_the_time :
  forall data ws h m s,
    py_eq (dget_none "command" data) (SStr "settime") = true ->
    dget_or "hour" (VInt 0) data = VInt h ->
    dget_or "minute" (VInt 0) data = VInt m ->
    dget_or "second" (VInt 0) data = VInt s ->
    exists hh mm ss,
      SerialPort.handle_client_command data (SerialPort.PortOpen None) ws false
      = (SerialPort.Returned,
         [ SerialPort.Written
             ("SETTIME " ++ (hh ++ ":" ++ mm ++ ":" ++ ss) ++ lf)%string;
           SerialPort.Replied ws
             (SerialPort.settime_succeeded (hh ++ ":" ++ mm ++ ":" ++ ss)) ])
      /\ decimal_value hh = Some h
      /\ decimal_value mm = Some m
      /\ decimal_value ss = Some s
      /\ (0 <= h < 100 -> 0 <= m < 100 -> 0 <= s < 100 ->
          String.length ("SETTIME " ++ (hh ++ ":" ++ mm ++ ":" ++ ss) ++ lf)
          = 17%nat).
Proof.
  intros data ws h m s Hcmd Hh Hm Hs.
  destruct (format_02d_int h) as (hh & Fh & Vh & Lh).
  destruct (format_02d_int m) as (mm & Fm & Vm & Lm).
  destruct (format_02d_int s) as (ss & Fs & Vs & Ls).
  exists hh, mm, ss. split; [|repeat split; auto].
  - unfold SerialPort.handle_client_command. rewrite Hcmd, Hh, Hm, Hs.
    unfold SerialPort.format_time. rewrite Fh, Fm, Fs. reflexivity.
  - intros H1 H2 H3. rewrite !length_append, Lh, Lm, Ls by assumption.
    reflexivity.
Qed.

(** Twenty-three hours, five minutes and no seconds. *)
Lemma settime_writes_the_time_witness :
  let data := [("command", VStr "settime"); ("hour", VInt 23);
               ("minute", VInt 5)] in
  fst (SerialPort.handle_client_command data (SerialPort.PortOpen None)
         7%nat false) = SerialPort.Returned
  /\ exists line,
       In (SerialPort.Written line)
         (snd (SerialPort.handle_client_command data
                 (SerialPort.PortOpen None) 7%nat false))
       /\ String.length line = 17%nat.
Proof.
  intros data.
  destruct (settime_writes_the_time data 7%nat 23 5 0
              eq_refl eq_refl eq_refl eq_refl)
    as (hh & mm & ss & Hrun & _ & _ & _ & Hlen).
  rewrite Hrun. split; [reflexivity|].
  eexists. split; [left; reflexivity|].
  apply Hlen; lia.
Defined.

(** X16.  Serial bridge: what a message of a client can do.  A line is
    written to the serial port only when the message is a JSON object of
    type [command] with command [settime], the port is open and accepts
    the write, and the three fields format as integers; the line is then
    the first effect, [SETTIME] with the formatted time.  A reply goes
    only to the client that sent the message, on an open connection, as
    the last effect, and the turn then returns.  A turn that raises does
    nothing: either the message is JSON that is no object
    ([AttributeError]), or the port is open and a field does not format
    as an integer.  A turn ends with a closed connection only when the
    client's connection is closed. *)
Theorem client_message_effects :
  forall parsed port ws ws_closed outcome effects,
    SerialPort.client_message parsed port ws ws_closed = (outcome, effects) ->
    (forall cmd, In (SerialPort.Written cmd) effects ->
       port = SerialPort.PortOpen None
       /\ exists data time rest,
            parsed = Some (VDict data)
            /\ py_eq (dget_none "type" data) (SStr "command") = true
            /\ py_eq (dget_none "command" data) (SStr "settime") = true
            /\ SerialPort.format_time (dget_or "hour" (VInt 0) data)
                 (dget_or "minute" (VInt 0) data)
                 (dget_or "second" (VInt 0) data) = Ok time
            /\ cmd = ("SETTIME " ++ time ++ lf)%string
            /\ effects = SerialPort.Written cmd :: rest
            /\ (rest = []
                \/ rest = [SerialPort.Replied ws
                             (SerialPort.settime_succeeded time)]))
    /\ (forall ws' response,
          In (SerialPort.Replied ws' response) effects ->
          ws' = ws /\ ws_closed = false /\ outcome = SerialPort.Returned
          /\ exists before,
               effects = before ++ [SerialPort.Replied ws response])
    /\ (forall e, outcome = SerialPort.Failed e ->
          effects = []
          /\ ((e = AttributeError
               /\ exists v, parsed = Some v
                            /\ forall data, v <> VDict data)
              \/ exists data write_error,
                   parsed = Some (VDict data)
                   /\ port = SerialPort.PortOpen write_error
                   /\ SerialPort.format_time (dget_or "hour" (VInt 0) data)
                        (dget_or "minute" (VInt 0) data)
                        (dget_or "second" (VInt 0) data) = Raised e))
    /\ (outcome = SerialPort.ConnectionClosed -> ws_closed = true).
Proof.
  intros parsed port ws ws_closed outcome effects Hrun.
  unfold SerialPort.client_message in Hrun.
  destruct parsed as [v|].
  2:{ injection Hrun as <- <-.
      repeat split; try (intros; contradiction); try discriminate.
      all: intros; try contradiction; discriminate. }
  destruct v as [sc|l|data].
  1,2: injection Hrun as <- <-;
       (split; [intros ? []|]); (split; [intros ? ? []|]);
       (split; [|discriminate]);
       intros e He; injection He as <-; split; [reflexivity|];
       left; split; [reflexivity|]; eexists; split; [reflexivity|];
       intros; discriminate.
  destruct (py_eq (dget_none "type" data) (SStr "command")) eqn:Htype.
  2:{ injection Hrun as <- <-.
      (split; [intros ? []|]); (split; [intros ? ? []|]);
      split; discriminate. }
  unfold SerialPort.handle_client_command in Hrun.
  destruct (py_eq (dget_none "command" data) (SStr "settime")) eqn:Hcmd.
  2:{ injection Hrun as <- <-.
      (split; [intros ? []|]); (split; [intros ? ? []|]);
      split; discriminate. }
  assert (Hnoport :
    SerialPort.reply ws ws_closed
      (SerialPort.settime_failed "Serial port not connected") []
    = (outcome, effects) ->
    (forall w, port <> SerialPort.PortOpen w) ->
    (forall cmd, In (SerialPort.Written cmd) effects -> False)
    /\ (forall ws' response,
          In (SerialPort.Replied ws' response) effects ->
          ws' = ws /\ ws_closed = false /\ outcome = SerialPort.Returned
          /\ exists before,
               effects = before ++ [SerialPort.Replied ws response])
    /\ (forall e, outcome = SerialPort.Failed e -> False)
    /\ (outcome = SerialPort.ConnectionClosed -> ws_closed = true)).
  { intros H _. unfold SerialPort.reply in H.
    destruct ws_closed; injection H as <- <-.
    - repeat split; try discriminate; intros; contradiction.
    - split; [intros ? [H|[]]; discriminate|].
      split; [|split; discriminate].
      intros ws' response [H|[]]. injection H as <- <-.
      repeat split. now exists []. }
  destruct port as [| |write_error].
  1,2: destruct (Hnoport Hrun) as (W & R & F & C); [discriminate|];
       (split; [intros cmd H; destruct (W cmd H)|]);
       (split; [exact R|]); (split; [intros e H; destruct (F e H)|exact C]).
  clear Hnoport.
  destruct (SerialPort.format_time _ _ _) as [time|err] eqn:Htime.
  2:{ injection Hrun as <- <-.
      (split; [intros ? []|]); (split; [intros ? ? []|]);
      (split; [|discriminate]).
      intros e He. injection He as <-. split; [reflexivity|].
      right. exists data, write_error. auto. }
  unfold SerialPort.reply in Hrun.
  destruct write_error as [error|], ws_closed; injection Hrun as <- <-.
  - repeat split; try discriminate; intros; contradiction.
  - split; [intros ? [H|[]]; discriminate|].
    split; [|split; discriminate].
    intros ws' response [H|[]]. injection H as <- <-.
    repeat split. now exists [].
  - split.
    + intros cmd [H|[]]. injection H as <-. split; [reflexivity|].
      exists data, time, []. repeat split; auto.
    + split; [intros ? ? [H|[]]; discriminate|]. split; [discriminate|auto].
  - split.
    + intros cmd [H|[H|[]]]; [|discriminate]. injection H as <-.
      split; [reflexivity|].
      eexists data, time, _. repeat split; auto.
    + split; [|split; discriminate].
      intros ws' response [H|[H|[]]]; [discriminate|].
      injection H as <- <-. repeat split.
      eexists [_]. reflexivity.
Qed.

(** A client sets the time while the port is open, and a client sends a
    JSON list. *)
Lemma client_message_effects_witness :
  (exists time,
     SerialPort.format_time (VInt 7) (VInt 30) (VInt 0) = Ok time
     /\ snd (SerialPort.client_message
               (Some (VDict (settime_command (VInt 7) (VInt 30) (VInt 0))))
               (SerialPort.PortOpen None) 7%nat false)
        = [ SerialPort.Written ("SETTIME " ++ time ++ lf)%string;
            SerialPort.Replied 7%nat (SerialPort.settime_succeeded time) ])
  /\ snd (SerialPort.client_message (Some (VList []))
            SerialPort.NoPort 7%nat false) = [].
Proof.
  split.
  - destruct (SerialPort.client_message
                (Some (VDict (settime_command (VInt 7) (VInt 30) (VInt 0))))
                (SerialPort.PortOpen None) 7%nat false)
      as [outcome effects] eqn:Hrun.
    destruct (client_message_effects _ _ _ _ _ _ Hrun) as (W & _).
    assert (Hin : In (SerialPort.Written ("SETTIME 07:30:00" ++ lf)) effects).
    { vm_compute in Hrun. injection Hrun as _ <-. left. reflexivity. }
    destruct (W _ Hin) as (_ & data & time & rest & Hp & _ & _ & Ht & Hc & He & Hr).
    injection Hp as <-.
    exists time. split; [exact Ht|].
    cbn [snd]. rewrite He, Hc.
    destruct Hr as [->| ->]; [|reflexivity].
    vm_compute in Hrun. rewrite He in Hrun. discriminate.
  - destruct (SerialPort.client_message (Some (VList []))
                SerialPort.NoPort 7%nat false)
      as [outcome effects] eqn:Hrun.
    destruct (client_message_effects _ _ _ _ _ _ Hrun) as (_ & _ & F & _).
    assert (Hf : outcome = SerialPort.Failed AttributeError).
    { vm_compute in Hrun. now injection Hrun as <- _. }
    exact (proj1 (F _ Hf)).
Defined.

(** ** Port detection *)

Lemma prefix_spec p s :
  String.prefix p s = true <-> exists post, s = (p ++ post)%string.
Proof.
  revert p. induction s as [|d s IH]; intros [|c p]; cbn.
  - split; [intros _; now exists ""%string|reflexivity].
  - split; [discriminate|intros [post H]; discriminate].
  - split; [intros _; now exists (String d s)|reflexivity].
  - destruct (Ascii.ascii_dec c d) as [->|Hne].
    + rewrite IH. split; intros [post H]; exists post.
      * now rewrite H.
      * now injection H.
    + split; [discriminate|]. intros [post H]. injection H as H _.
      now subst.
Qed.

Lemma contains_spec p s :
  contains p s = true <-> exists pre post, s = (pre ++ p ++ post)%string.
Proof.
  induction s as [|c s IH].
  - cbn [contains]. rewrite orb_false_r, prefix_spec. split.
    + intros [post H]. now exists ""%string, post.
    + intros (pre & post & H). destruct pre; [now exists post|discriminate].
  - cbn [contains]. rewrite orb_true_iff, prefix_spec, IH. split.
    + intros [[post H]|(pre & post & H)].
      * now exists ""%string, post.
      * exists (String c pre), post. cbn. now rewrite H.
    + intros (pre & post & H). destruct pre as [|d pre].
      * left. now exists post.
      * right. cbn in H. injection H as _ H. now exists pre, post.
Qed.

Lemma lower_app a b : lower (a ++ b) = (lower a ++ lower b)%string.
Proof. induction a as [|c a IH]; cbn; [reflexivity|now rewrite IH]. Qed.

(** A text whose lower case is [a ++ b] splits the same way. *)
Lemma lower_split s a b :
  lower s = (a ++ b)%string ->
  exists a' b', s = (a' ++ b')%string /\ lower a' = a /\ lower b' = b.
Proof.
  revert s. induction a as [|c a IH]; intros s H.
  - now exists ""%string, s.
  - destruct s as [|d s]; [discriminate|]. cbn in H. injection H as Hc H.
    destruct (IH _ H) as (a' & b' & Hs & Ha & Hb).
    exists (String d a'), b'. cbn. now rewrite Hs, Hc, Ha.
Qed.

Lemma names_chip_spec port :
  existsb (fun chip => contains chip (lower (SerialPort.description port)))
    SerialPort.esp32_chips = true
  <-> names_chip port.
Proof.
  rewrite existsb_exists. split.
  - intros (chip & Hin & Hc). apply contains_spec in Hc.
    destruct Hc as (pre & post & Hc).
    apply lower_split in Hc. destruct Hc as (before & r & Hd & _ & Hr).
    apply lower_split in Hr. destruct Hr as (name & after & Hr & Hn & _).
    exists before, name, after. split; [now rewrite Hd, Hr|now rewrite Hn].
  - intros (before & name & after & Hd & Hin).
    exists (lower name). split; [exact Hin|]. apply contains_spec.
    exists (lower before), (lower after). now rewrite Hd, !lower_app.
Qed.

(** X17.  Serial bridge: [find_esp32_port] returns the device of the
    first listed port whose description names one of the five chips
    (cp210, ch340, ftdi, silicon labs, usb serial) in any letter case and
    anywhere in the text, and [None] exactly when no listed port does.
    The port [main] goes on with is the [--port] argument when it is given
    and not empty, whatever is listed; otherwise the port detected; with
    no argument, or an empty one, [main] gives up exactly when nothing is
    detected or the device detected has an empty name. *)
Theorem find_esp32_port_first_named_chip :
  forall ports,
    (forall dev,
       SerialPort.find_esp32_port ports = Some dev
       <-> exists before port after,
             ports = before ++ port :: after
             /\ names_chip port
             /\ (forall p, In p before -> ~ names_chip p)
             /\ dev = SerialPort.device port)
    /\ (SerialPort.find_esp32_port ports = None
        <-> forall p, In p ports -> ~ names_chip p)
    /\ (forall arg,
          (forall port, arg = Some port -> port <> ""%string ->
             SerialPort.select_port arg ports = Some port)
          /\ (arg = None \/ arg = Some ""%string ->
              SerialPort.select_port arg ports
              = match SerialPort.find_esp32_port ports with
                | Some ""%string => None
                | found => found
                end)
          /\ SerialPort.select_port arg ports <> Some ""%string).
Proof.
  intros ports. split; [|split].
  - induction ports as [|port rest IH]; intros dev.
    + cbn. split; [discriminate|].
      intros (before & p & after & H & _). now destruct before.
    + cbn [SerialPort.find_esp32_port].
      destruct (existsb _ SerialPort.esp32_chips) eqn:Hm.
      * apply names_chip_spec in Hm. split.
        -- intros H. injection H as <-.
           exists [], port, rest. repeat split; auto; intros p [].
        -- intros (before & p & after & Hp & Hn & Hb & ->).
           destruct before as [|q before].
           ++ now injection Hp as <- _.
           ++ injection Hp as <- _. exfalso. apply (Hb port); [now left|assumption].
      * assert (Hno : ~ names_chip port).
        { intros H. apply names_chip_spec in H. congruence. }
        rewrite IH. split.
        -- intros (before & p & after & -> & Hn & Hb & ->).
           exists (port :: before), p, after. repeat split; auto.
           intros q [<-|Hq]; auto.
        -- intros (before & p & after & Hp & Hn & Hb & ->).
           destruct before as [|q before].
           ++ injection Hp as <- _. contradiction.
           ++ injection Hp as <- ->.
              exists before, p, after. repeat split; auto.
              intros q Hq. apply Hb. now right.
  - induction ports as [|port rest IH].
    + cbn. split; [intros _ p []|reflexivity].
    + cbn [SerialPort.find_esp32_port].
      destruct (existsb _ SerialPort.esp32_chips) eqn:Hm.
      * apply names_chip_spec in Hm. split; [discriminate|].
        intros H. exfalso. apply (H port); [now left|assumption].
      * assert (Hno : ~ names_chip port).
        { intros H. apply names_chip_spec in H. congruence. }
        rewrite IH. split.
        -- intros H p [<-|Hp]; auto.
        -- intros H p Hp. apply H. now right.
  - intros arg. unfold SerialPort.select_port. split; [|split].
    + intros port -> Hne. apply String.eqb_neq in Hne. now rewrite Hne.
    + intros [->| ->]; cbn [String.eqb negb].
      * destruct (SerialPort.find_esp32_port ports) as [[|c d]|]; reflexivity.
      * destruct (SerialPort.find_esp32_port ports) as [[|c d]|]; reflexivity.
    + destruct arg as [[|c a]|]; cbn [String.eqb negb]; try discriminate;
        destruct (SerialPort.find_esp32_port ports) as [[|c' d]|];
        cbn; discriminate.
Qed.

(** ** The pass over the lines of the document *)

Lemma text_eqb_eq a b : Html.text_eqb a b = true <-> a = b.
Proof.
  unfold Html.text_eqb. destruct (list_eq_dec N.eq_dec a b); split;
    auto; discriminate.
Qed.

Lemma text_eqb_neq a b : Html.text_eqb a b = false <-> a <> b.
Proof.
  unfold Html.text_eqb. destruct (list_eq_dec N.eq_dec a b); split;
    auto; try discriminate. contradiction.
Qed.

Lemma html_split_nonempty sep s : Html.split sep s <> [].
Proof.
  destruct s as [|c s]; cbn; [discriminate|].
  destruct (c =? sep)%N; [discriminate|].
  destruct (Html.split sep s); discriminate.
Qed.

Lemma html_join_cons sep piece rest :
  rest <> [] ->
  Html.join sep (piece :: rest) = piece ++ sep :: Html.join sep rest.
Proof. destruct rest; [contradiction|reflexivity]. Qed.

Lemma html_join_split sep s : Html.join sep (Html.split sep s) = s.
Proof.
  induction s as [|c s IH]; [reflexivity|].
  cbn [Html.split]. destruct (N.eqb_spec c sep) as [->|Hne].
  - rewrite html_join_cons by apply html_split_nonempty.
    cbn. now rewrite IH.
  - pose proof (html_split_nonempty sep s) as Hn.
    destruct (Html.split sep s) as [|piece pieces]; [contradiction|].
    destruct pieces as [|p2 pieces].
    + cbn in *. now rewrite IH.
    + rewrite html_join_cons by discriminate.
      rewrite html_join_cons in IH by discriminate.
      rewrite <- app_comm_cons. now rewrite IH.
Qed.

Lemma html_split_no_sep sep s :
  Forall (fun piece => ~ In sep piece) (Html.split sep s).
Proof.
  induction s as [|c s IH]; cbn [Html.split].
  - constructor; [intros []|constructor].
  - destruct (N.eqb_spec c sep) as [->|Hne].
    + constructor; [intros []|assumption].
    + destruct (Html.split sep s) as [|piece pieces].
      * constructor; [|constructor]. intros [H|[]]. congruence.
      * inversion IH as [|? ? Hp Hps]; subst. constructor; [|assumption].
        intros [H|H]; [congruence|contradiction].
Qed.

Lemma html_split_piece sep piece :
  ~ In sep piece -> Html.split sep piece = [piece].
Proof.
  induction piece as [|c piece IH]; intros Hno; [reflexivity|].
  cbn [Html.split]. destruct (N.eqb_spec c sep) as [->|Hne].
  - destruct Hno. now left.
  - rewrite IH; [reflexivity|]. intros H. apply Hno. now right.
Qed.

Lemma html_split_app sep piece s :
  ~ In sep piece ->
  Html.split sep (piece ++ sep :: s) = piece :: Html.split sep s.
Proof.
  induction piece as [|c piece IH]; intros Hno.
  - cbn. now rewrite N.eqb_refl.
  - cbn [app Html.split]. destruct (N.eqb_spec c sep) as [->|Hne].
    + destruct Hno. now left.
    + rewrite IH; [reflexivity|]. intros H. apply Hno. now right.
Qed.

Lemma html_split_join sep pieces :
  pieces <> [] -> Forall (fun piece => ~ In sep piece) pieces ->
  Html.split sep (Html.join sep pieces) = pieces.
Proof.
  induction pieces as [|piece rest IH]; intros Hne Hall; [contradiction|].
  inversion Hall as [|? ? Hp Hrest]; subst.
  destruct rest as [|p2 rest].
  - cbn. now apply html_split_piece.
  - rewrite html_join_cons by discriminate.
    rewrite html_split_app by assumption.
    now rewrite IH.
Qed.

Lemma mermaid_lines_length b lines :
  List.length (Html.mermaid_lines b lines) = List.length lines.
Proof.
  revert b. induction lines as [|line rest IH]; intros b; [reflexivity|].
  cbn [Html.mermaid_lines].
  destruct (Html.text_eqb _ Html.mermaid_fence); [cbn; now rewrite IH|].
  destruct (Html.text_eqb _ Html.code_fence && b); cbn; now rewrite IH.
Qed.

Lemma mermaid_lines_nonempty b lines :
  lines <> [] -> Html.mermaid_lines b lines <> [].
Proof.
  intros Hne H. apply (f_equal (@List.length _)) in H.
  rewrite mermaid_lines_length in H. destruct lines; [contradiction|discriminate].
Qed.

Lemma mermaid_lines_no_newline b lines :
  Forall (fun piece => ~ In Html.newline piece) lines ->
  Forall (fun piece => ~ In Html.newline piece) (Html.mermaid_lines b lines).
Proof.
  revert b. induction lines as [|line rest IH]; intros b Hall; [constructor|].
  inversion Hall as [|? ? Hl Hrest]; subst.
  cbn [Html.mermaid_lines].
  destruct (Html.text_eqb _ Html.mermaid_fence).
  - constructor; [|now apply IH].
    intros H. vm_compute in H. intuition discriminate.
  - destruct (Html.text_eqb _ Html.code_fence && b).
    + constructor; [|now apply IH].
      intros H. vm_compute in H. intuition discriminate.
    + constructor; [assumption|now apply IH].
Qed.

Lemma mermaid_lines_no_fence b lines :
  Forall (fun line => Html.strip line <> Html.mermaid_fence)
    (Html.mermaid_lines b lines).
Proof.
  revert b. induction lines as [|line rest IH]; intros b; [constructor|].
  cbn [Html.mermaid_lines].
  destruct (Html.text_eqb _ Html.mermaid_fence) eqn:Hm.
  - constructor; [|apply IH]. vm_compute. discriminate.
  - destruct (Html.text_eqb _ Html.code_fence && b).
    + constructor; [|apply IH]. vm_compute. discriminate.
    + constructor; [|apply IH]. now apply text_eqb_neq.
Qed.

Lemma mermaid_lines_without_fence lines :
  Forall (fun line => Html.strip line <> Html.mermaid_fence) lines ->
  Html.mermaid_lines false lines = lines.
Proof.
  induction lines as [|line rest IH]; intros Hall; [reflexivity|].
  inversion Hall as [|? ? Hl Hrest]; subst.
  cbn [Html.mermaid_lines].
  apply text_eqb_neq in Hl. rewrite Hl, andb_false_r.
  now rewrite IH.
Qed.

(** X18.  [generate_html.py]: the pass of [convert] over the lines of the
    document changes nothing in a text none of whose lines is, spaces at
    its ends apart, the fence that opens a mermaid block; this rests on
    [split] and [join] being inverse to each other.  Whatever the text,
    the pass gives a text with the same number of lines, none of which
    opens a mermaid block any more, so that a second pass changes
    nothing. *)
Theorem mermaid_pass_idempotent :
  forall t,
    Html.join Html.newline (Html.split Html.newline t) = t
    /\ ((forall line, In line (Html.split Html.newline t) ->
         Html.strip line <> Html.mermaid_fence) ->
        Html.processed_text t = t)
    /\ List.length (Html.split Html.newline (Html.processed_text t))
       = List.length (Html.split Html.newline t)
    /\ (forall line, In line (Html.split Html.newline (Html.processed_text t)) ->
        Html.strip line <> Html.mermaid_fence)
    /\ Html.processed_text (Html.processed_text t) = Html.processed_text t.
Proof.
  intros t.
  assert (Hsplit :
    Html.split Html.newline (Html.processed_text t)
    = Html.mermaid_lines false (Html.split Html.newline t)).
  { unfold Html.processed_text. apply html_split_join.
    - apply mermaid_lines_nonempty, html_split_nonempty.
    - apply mermaid_lines_no_newline, html_split_no_sep. }
  split; [apply html_join_split|].
  split.
  { intros Hno. unfold Html.processed_text.
    rewrite mermaid_lines_without_fence; [apply html_join_split|].
    now apply Forall_forall. }
  split; [now rewrite Hsplit, mermaid_lines_length|].
  split.
  { rewrite Hsplit. apply Forall_forall, mermaid_lines_no_fence. }
  unfold Html.processed_text at 1. rewrite Hsplit.
  rewrite mermaid_lines_without_fence by apply mermaid_lines_no_fence.
  reflexivity.
Qed.

Lemma mermaid_fence_not_code_fence : Html.mermaid_fence <> Html.code_fence.
Proof. vm_compute. discriminate. Qed.

Lemma in_mermaid_after_app b lines line :
  in_mermaid_after b (lines ++ [line])
  = if Html.text_eqb (Html.strip line) Html.mermaid_fence then true
    else if Html.text_eqb (Html.strip line) Html.code_fence
            && in_mermaid_after b lines
    then false
    else in_mermaid_after b lines.
Proof.
  revert b. induction lines as [|l lines IH]; intros b.
  - cbn [app in_mermaid_after].
    destruct (Html.text_eqb _ Html.mermaid_fence); [reflexivity|].
    destruct (Html.text_eqb _ Html.code_fence && b); reflexivity.
  - cbn [app in_mermaid_after].
    destruct (Html.text_eqb (Html.strip l) Html.mermaid_fence); [apply IH|].
    destruct (Html.text_eqb (Html.strip l) Html.code_fence && b); apply IH.
Qed.

Lemma firstn_snoc {A} (l : list A) i x :
  nth_error l i = Some x -> firstn (S i) l = firstn i l ++ [x].
Proof.
  revert i. induction l as [|a l IH]; intros [|i] H; try discriminate.
  - cbn in H. injection H as ->. reflexivity.
  - cbn in H.
    change (firstn (S (S i)) (a :: l)) with (a :: firstn (S i) l).
    change (firstn (S i) (a :: l)) with (a :: firstn i l).
    now rewrite (IH _ H).
Qed.

Lemma in_mermaid_after_in_block lines i :
  (i <= List.length lines)%nat ->
  in_mermaid_after false (firstn i lines) = true <-> in_block lines i.
Proof.
  induction i as [|i IH]; intros Hlen.
  - cbn. split; [discriminate|]. intros (j & o & Hj & _). lia.
  - destruct (nth_error lines i) as [line|] eqn:Hline.
    2:{ apply nth_error_None in Hline. lia. }
    rewrite (firstn_snoc _ _ _ Hline), in_mermaid_after_app.
    assert (IH' := IH ltac:(lia)). clear IH.
    destruct (Html.text_eqb (Html.strip line) Html.mermaid_fence) eqn:Hm.
    + apply text_eqb_eq in Hm. split; [intros _|reflexivity].
      exists i, line. repeat split; auto. intros k l Hk. lia.
    + apply text_eqb_neq in Hm.
      destruct (Html.text_eqb (Html.strip line) Html.code_fence) eqn:Hc.
      * apply text_eqb_eq in Hc. cbn [andb].
        assert (Hno : ~ in_block lines (S i)).
        { intros (j & o & Hj & Ho & Hopen & Hbetween).
          assert (j = i \/ j < i)%nat as [->|Hlt] by lia.
          - rewrite Hline in Ho. injection Ho as <-. contradiction.
          - apply (Hbetween i line); [lia|assumption|assumption]. }
        destruct (in_mermaid_after false (firstn i lines));
          split; try discriminate; intros H; contradiction.
      * apply text_eqb_neq in Hc. cbn [andb]. rewrite IH'. split.
        -- intros (j & o & Hj & Ho & Hopen & Hbetween).
           exists j, o. repeat split; auto.
           intros k l Hk Hl. assert (k = i \/ k < i)%nat as [->|Hlt] by lia.
           ++ rewrite Hline in Hl. now injection Hl as <-.
           ++ apply (Hbetween k l); [lia|assumption].
        -- intros (j & o & Hj & Ho & Hopen & Hbetween).
           assert (j = i \/ j < i)%nat as [->|Hlt] by lia.
           ++ rewrite Hline in Ho. injection Ho as <-. contradiction.
           ++ exists j, o. repeat split; auto.
              intros k l Hk Hl. apply (Hbetween k l); [lia|assumption].
Qed.

Lemma mermaid_lines_nth b lines i line :
  nth_error lines i = Some line ->
  nth_error (Html.mermaid_lines b lines) i
  = Some (if Html.text_eqb (Html.strip line) Html.mermaid_fence
          then Html.div_open
          else if Html.text_eqb (Html.strip line) Html.code_fence
                  && in_mermaid_after b (firstn i lines)
          then Html.div_close
          else line).
Proof.
  revert b i. induction lines as [|l lines IH]; intros b [|i] H;
    try discriminate.
  - cbn in H. injection H as ->. cbn [Html.mermaid_lines firstn in_mermaid_after].
    destruct (Html.text_eqb _ Html.mermaid_fence); [reflexivity|].
    destruct (Html.text_eqb _ Html.code_fence && b); reflexivity.
  - cbn in H. cbn [Html.mermaid_lines firstn in_mermaid_after].
    destruct (Html.text_eqb (Html.strip l) Html.mermaid_fence);
      [cbn [nth_error]; now apply IH|].
    destruct (Html.text_eqb (Html.strip l) Html.code_fence && b);
      cbn [nth_error]; now apply IH.
Qed.

(** X19.  [generate_html.py]: what the pass of [convert] makes of each
    line, without the flag [in_mermaid].  The line at a position of the
    output is the opening [div] when the line of the text at that
    position is, spaces at its ends apart, the fence that opens a mermaid
    block; the closing [div] when it is a bare closing fence and an
    earlier line opens a mermaid block with no bare closing fence between
    the two; and in every other case the line of the text itself: a
    closing fence outside a mermaid block, as the one of an ordinary code
    block, is kept. *)
Theorem mermaid_pass_line_by_line :
  forall lines i line,
    nth_error lines i = Some line ->
    exists out,
      nth_error (Html.mermaid_lines false lines) i = Some out
      /\ (Html.strip line = Html.mermaid_fence -> out = Html.div_open)
      /\ (Html.strip line = Html.code_fence ->
          (in_block lines i -> out = Html.div_close)
          /\ (~ in_block lines i -> out = line))
      /\ (Html.strip line <> Html.mermaid_fence ->
          Html.strip line <> Html.code_fence -> out = line).
Proof.
  intros lines i line Hline.
  eexists. split; [apply (mermaid_lines_nth false _ _ _ Hline)|].
  assert (Hlen : (i <= List.length lines)%nat).
  { apply Nat.lt_le_incl, nth_error_Some. congruence. }
  pose proof (in_mermaid_after_in_block lines i Hlen) as Hblock.
  split; [|split].
  - intros H. apply text_eqb_eq in H. now rewrite H.
  - intros H.
    assert (Hm : Html.text_eqb (Html.strip line) Html.mermaid_fence = false).
    { apply text_eqb_neq. rewrite H. intros E. symmetry in E.
      now apply mermaid_fence_not_code_fence in E. }
    apply text_eqb_eq in H. rewrite Hm, H. cbn [andb]. split.
    + intros Hin. apply Hblock in Hin. now rewrite Hin.
    + intros Hout.
      destruct (in_mermaid_after false (firstn i lines)); [|reflexivity].
      destruct Hout. now apply Hblock.
  - intros Hm Hc. apply text_eqb_neq in Hm, Hc. now rewrite Hm, Hc.
Qed.

(** A mermaid block, then an ordinary code block. *)
Lemma mermaid_pass_line_by_line_witness :
  let lines := map Html.codes
                 ["```mermaid"; "graph TD"; " ``` "; "```"; "x = 1"; "```"] in
  nth_error (Html.mermaid_lines false lines) 2 = Some Html.div_close
  /\ nth_error (Html.mermaid_lines false lines) 5 = Some (Html.codes "```").
Proof.
  intros lines. split.
  - destruct (mermaid_pass_line_by_line lines 2 (Html.codes " ``` ") eq_refl)
      as (out & Hout & _ & Hc & _).
    rewrite Hout. f_equal. apply Hc; [vm_compute; reflexivity|].
    exists 0%nat, (Html.codes "```mermaid").
    split; [lia|]. split; [reflexivity|]. split; [vm_compute; reflexivity|].
    intros k l Hk Hl. assert (k = 1%nat) as -> by lia.
    vm_compute in Hl. injection Hl as <-. vm_compute. discriminate.
  - destruct (mermaid_pass_line_by_line lines 5 (Html.codes "```") eq_refl)
      as (out & Hout & _ & Hc & _).
    rewrite Hout. f_equal. apply Hc; [vm_compute; reflexivity|].
    intros (j & o & Hj & Ho & Hopen & Hbetween).
    assert (j = 0 \/ j = 1 \/ j = 2 \/ j = 3 \/ j = 4)%nat
      as [->|[->|[->|[->| ->]]]] by lia;
      vm_compute in Ho; injection Ho as <-;
      try (vm_compute in Hopen; discriminate).
    apply (Hbetween 2%nat (Html.codes " ``` ")); [lia|reflexivity|].
    vm_compute. reflexivity.
Defined.
